(** * Forg3t local unlearning server

    A shallow embedding of the job registry, the delta engine, the
    checkpoint injector and the artifact writer of
    [local-server-package/server.py], with the statements of the
    specification checked against it.

    Conventions of the embedding.
    - Python [str] values are ASCII texts, kept as [string]; on such
      texts [len], [str.encode()] and the buffer hashed by [hash()] all
      see the same bytes.
    - The file system is a finite map from a path to the content of the
      regular file stored there; directories are implicit in the paths.
    - Every file-system call consults a fault plan that tells whether the
      operating system lets the call through, refuses it, or breaks it
      half-way; this is how unreadable files and failed replacements are
      represented.
    - Floating point values, numpy arrays, torch tensors and SHA-256
      digests are kept as the expressions that compute them: two runs
      that build the same expression compute the same value. *)

From Stdlib Require Import ZArith String Ascii List Bool Lia.
From stdpp Require Import gmap strings list fin_maps pretty.
Import ListNotations.
Local Open Scope string_scope.
Local Open Scope Z_scope.

(** ** Python text operations *)

Module Text.

(** [s.startswith(p)] *)
Definition startswith (p s : string) : bool := String.prefix p s.

(** [s.endswith(suf)] *)
Definition endswith (suf s : string) : bool :=
  String.prefix (String.rev suf) (String.rev s).

(** [sub in s] *)
Fixpoint contains (sub s : string) : bool :=
  String.prefix sub s ||
  match s with
  | EmptyString => false
  | String _ s' => contains sub s'
  end.

Definition lower_ascii (c : ascii) : ascii :=
  let n := N_of_ascii c in
  if ((65 <=? n) && (n <=? 90))%N then ascii_of_N (n + 32) else c.

(** [s.lower()] on ASCII text *)
Fixpoint lower (s : string) : string :=
  match s with
  | EmptyString => EmptyString
  | String c s' => String (lower_ascii c) (lower s')
  end.

(** [len(s)] *)
Definition len (s : string) : Z := Z.of_nat (String.length s).

(** The bytes of [s.encode()], also the buffer that [hash(s)] reads. *)
Definition encode (s : string) : list Z :=
  map (fun c => Z.of_N (N_of_ascii c)) (list_ascii_of_string s).

(** [os.path.join(a, b)] of [posixpath] *)
Definition path_join (a b : string) : string :=
  if startswith "/" b then b
  else if String.eqb a "" || endswith "/" a then a +:+ b
  else a +:+ "/" +:+ b.

End Text.

(** ** SipHash-1-3, the algorithm behind [hash()] on [str] (CPython 3.11,
    [Python/pyhash.c]) *)

Module SipHash.

Definition mask64 : Z := 2 ^ 64 - 1.
Definition add64 (a b : Z) : Z := Z.land (a + b) mask64.
Definition rotl64 (x b : Z) : Z :=
  Z.land (Z.lor (Z.shiftl x b) (Z.shiftr x (64 - b))) mask64.

Record sipstate := SipState { v0 : Z; v1 : Z; v2 : Z; v3 : Z }.

Definition half_round (a b c d s t : Z) : Z * Z * Z * Z :=
  let a := add64 a b in
  let c := add64 c d in
  let b := Z.lxor (rotl64 b s) a in
  let d := Z.lxor (rotl64 d t) c in
  let a := rotl64 a 32 in
  (a, b, c, d).

Definition single_round (st : sipstate) : sipstate :=
  let '(a, b, c, d) := half_round (v0 st) (v1 st) (v2 st) (v3 st) 13 16 in
  let '(c, b, a, d) := half_round c b a d 17 21 in
  SipState a b c d.

(** Little-endian word of at most eight bytes. *)
Fixpoint le_word (bs : list Z) : Z :=
  match bs with
  | [] => 0
  | b :: bs' => Z.lor b (Z.shiftl (le_word bs') 8)
  end.

Definition absorb (st : sipstate) (m : Z) : sipstate :=
  let st := SipState (v0 st) (v1 st) (v2 st) (Z.lxor (v3 st) m) in
  let st := single_round st in
  SipState (Z.lxor (v0 st) m) (v1 st) (v2 st) (v3 st).

(** The [while (src_sz >= 8)] loop; [fuel] bounds the number of words. *)
Fixpoint blocks (fuel : nat) (st : sipstate) (bs : list Z) : sipstate * list Z :=
  match fuel with
  | O => (st, bs)
  | S fuel' =>
      if (8 <=? length bs)%nat
      then blocks fuel' (absorb st (le_word (take 8 bs))) (drop 8 bs)
      else (st, bs)
  end.

Definition siphash13 (k0 k1 : Z) (src : list Z) : Z :=
  let b := Z.land (Z.shiftl (Z.of_nat (length src)) 56) mask64 in
  let st := SipState (Z.lxor k0 0x736f6d6570736575) (Z.lxor k1 0x646f72616e646f6d)
                     (Z.lxor k0 0x6c7967656e657261) (Z.lxor k1 0x7465646279746573) in
  let '(st, rest) := blocks (length src) st src in
  let b := Z.lor b (le_word rest) in
  let st := absorb st b in
  let st := SipState (v0 st) (v1 st) (Z.lxor (v2 st) 0xff) (v3 st) in
  let st := single_round (single_round (single_round st)) in
  Z.lxor (Z.lxor (v0 st) (v1 st)) (Z.lxor (v2 st) (v3 st)).

End SipHash.

(** ** The builtin [hash] *)

(** The two 64-bit words of [_Py_HashSecret.siphash]. The interpreter draws
    them at start-up: from the operating system's random source by
    default, from [PYTHONHASHSEED] when it is set (all zero for seed 0). *)
Record hash_secret := HashSecret { k0 : Z; k1 : Z }.

Definition to_signed64 (x : Z) : Z := if x <? 2 ^ 63 then x else x - 2 ^ 64.

(** [hash(s)] for a [str] in a process whose secret is [k]. *)
Definition py_hash (k : hash_secret) (s : string) : Z :=
  match s with
  | EmptyString => 0
  | _ =>
      let h := to_signed64 (SipHash.siphash13 (k0 k) (k1 k) (Text.encode s)) in
      if h =? -1 then -2 else h
  end.

(** ** Numeric values, kept as expressions *)

(** State of numpy's global generator: the last seed and the draws taken
    since. *)
Inductive sample_kind := Normal | Uniform.

Inductive rng :=
| rng_unseeded
| rng_seeded (s : Z)                                       (* np.random.seed(s) *)
| rng_drawn (g : rng) (k : sample_kind) (shape : list Z).  (* after one call *)

Inductive ndarray :=
| np_sample (g : rng) (k : sample_kind) (shape : list Z)  (* randn / rand drawn at g *)
| np_scale (a : ndarray) (c : pyfloat)                    (* a * c *)
| np_less (a : ndarray) (c : pyfloat)                     (* a < c *)
| np_zero_where (a mask : ndarray)                        (* a[mask] = 0 *)
| np_setitem (a : ndarray) (row col : Z) (v : pyfloat)    (* a[row, col] = v *)
with pyfloat :=
| f_lit (digits : string)                                 (* a literal *)
| f_time (k : nat)                                        (* k-th time.time() of the run *)
| f_rand (g : rng)                                        (* np.random.rand() drawn at g *)
| f_add (x y : pyfloat)
| f_sub (x y : pyfloat)
| f_mul (x y : pyfloat)
| f_div (x y : pyfloat)
| f_of_int (n : pyint)
| f_norm (a : ndarray)                                    (* np.linalg.norm(a) *)
| f_max_abs (a : ndarray)                                 (* np.max(np.abs(a)) *)
| f_mean (x y : pyfloat)                                  (* np.mean([x, y]) *)
| f_std (x y : pyfloat)                                   (* np.std([x, y]) *)
| f_percentile (x y : pyfloat) (q : Z)                    (* np.percentile([x, y], q) *)
| f_if_positive (c x y : pyfloat)                         (* x if c > 0 else y *)
with pyint :=
| i_lit (z : Z)
| i_count_nonzero (a : ndarray)                           (* np.count_nonzero(a) *)
| i_top_abs (a : ndarray) (last k : nat).                 (* np.argpartition(|a|, -last)[-last:][k] *)

(** [a.shape] *)
Fixpoint np_shape (a : ndarray) : list Z :=
  match a with
  | np_sample _ _ shape => shape
  | np_scale a _ | np_less a _ | np_zero_where a _ | np_setitem a _ _ _ => np_shape a
  end.

Definition numel_of (shape : list Z) : Z := fold_right Z.mul 1 shape.

(** [a.size] *)
Definition np_size (a : ndarray) : Z := numel_of (np_shape a).

(** Shape of [x + y] under broadcasting, on the reversed shapes. *)
Fixpoint broadcast_rev (a b : list Z) : option (list Z) :=
  match a, b with
  | [], _ => Some b
  | _, [] => Some a
  | x :: a', y :: b' =>
      if x =? y then cons x <$> broadcast_rev a' b'
      else if x =? 1 then cons y <$> broadcast_rev a' b'
      else if y =? 1 then cons x <$> broadcast_rev a' b'
      else None
  end.

Definition broadcast (a b : list Z) : option (list Z) :=
  @rev Z <$> broadcast_rev (rev a) (rev b).

(** A torch tensor: as stored in a checkpoint, or the sum of a tensor and
    of [torch.from_numpy] of an array. *)
Inductive tensor :=
| t_stored (dtype : string) (shape : list Z) (payload : string)
| t_plus (t : tensor) (d : ndarray) (shape : list Z).

Definition t_shape (t : tensor) : list Z :=
  match t with
  | t_stored _ shape _ => shape
  | t_plus _ _ shape => shape
  end.

(** [t.numel()] *)
Definition t_numel (t : tensor) : Z := numel_of (t_shape t).

(** ** Documents: what the serializers are handed *)

Local Unset Elimination Schemes.
Inductive json :=
| JNull
| JBool (b : bool)
| JInt (n : pyint)
| JFloat (x : pyfloat)
| JStr (s : string)
| JSha256 (preimage : blob)            (* hashlib.sha256 over it, as hexdigest *)
| JList (l : list json)
| JDict (kv : list (string * json))
with blob :=
| BRaw (bytes : string)                           (* bytes in no known format *)
| BJson (j : json)                                (* json.dump(j, f, indent=2) *)
| BNpz (arrays : list (string * ndarray))         (* np.savez_compressed *)
| BSafetensors (tensors : list (string * tensor)) (* safetensors save_file *)
| BPartial (whole : blob).                         (* a write cut short *)
Local Set Elimination Schemes.

(** Does text [t] occur in a string of the document, as a key or as a
    value? A digest does not show the text it was computed from. *)
Fixpoint json_mentions (t : string) (j : json) : bool :=
  match j with
  | JStr s => Text.contains t s
  | JList l => existsb (json_mentions t) l
  | JDict kv => existsb (fun p => Text.contains t (fst p) || json_mentions t (snd p)) kv
  | _ => false
  end.

Fixpoint blob_mentions (t : string) (b : blob) : bool :=
  match b with
  | BRaw s => Text.contains t s
  | BJson j => json_mentions t j
  | BNpz arrays => existsb (fun p => Text.contains t (fst p)) arrays
  | BSafetensors tensors => existsb (fun p => Text.contains t (fst p)) tensors
  | BPartial b' => blob_mentions t b'
  end.

(** [d[key]] on a dict kept in insertion order *)
Fixpoint assoc {A} (key : string) (d : list (string * A)) : option A :=
  match d with
  | [] => None
  | (k, v) :: d' => if String.eqb k key then Some v else assoc key d'
  end.

(** [d[key] = v] on a dict kept in insertion order *)
Fixpoint assoc_set {A} (key : string) (v : A) (d : list (string * A)) : list (string * A) :=
  match d with
  | [] => [(key, v)]
  | (k, x) :: d' => if String.eqb k key then (k, v) :: d' else (k, x) :: assoc_set key v d'
  end.

(** ** The process: file system, fault plan, registry, generator *)

Inductive fs_op :=
| op_read (path : string)
| op_write (path : string)
| op_copy (src dst : string)
| op_replace (src dst : string)
| op_rename (src dst : string)
| op_remove (path : string)
| op_move_file_ex (src dst : string)
| op_makedirs (path : string)
| op_listdir (path : string).

(** What the operating system does with a call: lets it through, refuses
    it with nothing changed, or breaks it after part of the data was
    written. *)
Inductive verdict := Allowed | Refused | Torn.

Inductive exn :=
| HTTPException (status_code : Z) (detail : string)
| KeyError (key : string)
| FileNotFoundError (path : string)
| FileExistsError (path : string)
| OSError (op : fs_op)
| SafetensorError (path : string)        (* load_file: not a safetensors file *)
| ValueError (path : string)             (* np.load: not an array archive *)
| RuntimeError (a b : list Z).           (* operands whose shapes do not broadcast *)

Definition op_text (op : fs_op) : string :=
  match op with
  | op_read p => "read '" +:+ p +:+ "'"
  | op_write p => "write '" +:+ p +:+ "'"
  | op_copy s d => "copy '" +:+ s +:+ "' -> '" +:+ d +:+ "'"
  | op_replace s d => "replace '" +:+ s +:+ "' -> '" +:+ d +:+ "'"
  | op_rename s d => "rename '" +:+ s +:+ "' -> '" +:+ d +:+ "'"
  | op_remove p => "remove '" +:+ p +:+ "'"
  | op_move_file_ex s d => "MoveFileExW '" +:+ s +:+ "' -> '" +:+ d +:+ "'"
  | op_makedirs p => "makedirs '" +:+ p +:+ "'"
  | op_listdir p => "listdir '" +:+ p +:+ "'"
  end.

(** [str(e)] *)
Definition str_exn (e : exn) : string :=
  match e with
  | HTTPException code detail => pretty code +:+ ": " +:+ detail
  | KeyError key => "'" +:+ key +:+ "'"
  | FileNotFoundError p => "[Errno 2] No such file or directory: '" +:+ p +:+ "'"
  | FileExistsError p => "[Errno 17] File exists: '" +:+ p +:+ "'"
  | OSError op => "[Errno 13] Permission denied: " +:+ op_text op
  | SafetensorError p => "Error while deserializing header: '" +:+ p +:+ "'"
  | ValueError p => "Cannot load file containing pickled data: '" +:+ p +:+ "'"
  | RuntimeError _ _ => "The size of tensor a must match the size of tensor b"
  end.

Inductive JobState := Queued | Running | Done | Error.

(** The string stored under ["state"]. *)
Definition state_name (s : JobState) : string :=
  match s with
  | Queued => "queued"
  | Running => "running"
  | Done => "done"
  | Error => "error"
  end.

Record Progress := { percent : Z; message : string }.

Record UnlearningRequest := {
  model_path : string;
  output_dir : string;
  target_text : string;
  method : string;
  max_steps : Z;
  lr : pyfloat;
  seed : Z;
}.

(** One value of the [jobs] dict. *)
Record Job := {
  job_state : JobState;
  job_progress : Progress;
  job_result : option (list (string * json));
  job_error : option string;
  job_request : UnlearningRequest;
}.

(** Locals of [process_unlearning] that are still needed once the
    method-specific artifacts are written. *)
Record Locals := {
  output_path : string;
  adapter_path : string;
  manifest : list (string * json);
  before_value : pyfloat;       (* before_similarity or before_logit *)
  after_value : pyfloat;        (* after_similarity or after_logit *)
}.

(** Where a [process_unlearning] coroutine is suspended: at its entry or
    in one of its [await asyncio.sleep(..)], with the locals it resumes
    with. *)
Inductive frame :=
| at_entry
| at_loading
| at_method (output_path : string) (target_text_hash : json) (text_seed : Z)
| at_verification (l : Locals)
| at_injection (l : Locals)
| finished.

(** A task made by [asyncio.create_task(process_unlearning(job_id, request))]. *)
Record Task := {
  task_job_id : string;
  task_request : UnlearningRequest;
  task_frame : frame;
}.

(** What [os], [sys] and [platform] report about the host. *)
Record Host := {
  os_name : string;
  cwd : string;
  python_version : string;
  uname : list (string * string);
  torch_version : string;
}.

Record Process := {
  files : gmap string blob;                  (* regular files by path *)
  fault : fs_op -> verdict;                  (* the fault plan *)
  journal : list (fs_op * gmap string blob); (* each change made, with the files before it *)
  secret : hash_secret;                      (* of the builtin hash *)
  np_random : rng;                           (* numpy's global generator *)
  jobs : gmap string Job;                    (* the module-level jobs dict *)
  tasks : list Task;                         (* the event loop's tasks, oldest first *)
  host : Host;
}.

Definition with_files (fs : gmap string blob) (log : list (fs_op * gmap string blob))
    (p : Process) : Process :=
  {| files := fs; fault := fault p; journal := log; secret := secret p;
     np_random := np_random p; jobs := jobs p; tasks := tasks p; host := host p |}.

Definition with_np_random (g : rng) (p : Process) : Process :=
  {| files := files p; fault := fault p; journal := journal p; secret := secret p;
     np_random := g; jobs := jobs p; tasks := tasks p; host := host p |}.

Definition with_jobs (js : gmap string Job) (p : Process) : Process :=
  {| files := files p; fault := fault p; journal := journal p; secret := secret p;
     np_random := np_random p; jobs := js; tasks := tasks p; host := host p |}.

Definition with_tasks (ts : list Task) (p : Process) : Process :=
  {| files := files p; fault := fault p; journal := journal p; secret := secret p;
     np_random := np_random p; jobs := jobs p; tasks := ts; host := host p |}.

(** ** Computations that change the process and may raise *)

Inductive outcome (A : Type) :=
| Return (a : A)
| Raise (e : exn).
Arguments Return {A} a.
Arguments Raise {A} e.

Definition io (A : Type) : Type := Process -> Process * outcome A.

Definition ret {A} (a : A) : io A := fun p => (p, Return a).
Definition raise {A} (e : exn) : io A := fun p => (p, Raise e).

Definition bind {A B} (m : io A) (k : A -> io B) : io B :=
  fun p =>
    match m p with
    | (p', Return a) => k a p'
    | (p', Raise e) => (p', Raise e)
    end.

(** [try: m  except Exception as e: h e] *)
Definition try_except {A} (m : io A) (h : exn -> io A) : io A :=
  fun p =>
    match m p with
    | (p', Return a) => (p', Return a)
    | (p', Raise e) => h e p'
    end.

Definition gets {A} (f : Process -> A) : io A := fun p => (p, Return (f p)).
Definition modify (f : Process -> Process) : io unit := fun p => (f p, Return tt).

#[global] Instance io_ret : MRet io := @ret.
#[global] Instance io_bind : MBind io := fun A B k m => bind m k.

(** ** File-system calls *)

(** Record a change of the files in the journal and make it. *)
Definition commit (op : fs_op) (fs' : gmap string blob) : io unit :=
  modify (fun p => with_files fs' (journal p ++ [(op, files p)]) p).

(** [os.path.isdir(path)]. Directories are not stored: a directory is a
    path under which a stored file lies, which is also how [os.listdir]
    finds its entries. The empty path names nothing. *)
Definition is_dir (fs : gmap string blob) (path : string) : bool :=
  negb (String.eqb path "")
  && existsb (Text.startswith (Text.path_join path "")) (map fst (map_to_list fs)).

(** Is there a file or a directory at [path]? *)
Definition path_exists (fs : gmap string blob) (path : string) : bool :=
  bool_decide (is_Some (fs !! path)) || is_dir fs path.
Arguments path_exists : simpl never.

(** [os.path.exists(path)] *)
Definition os_path_exists (path : string) : io bool :=
  gets (fun p => path_exists (files p) path).

(** [os.path.isfile(path)] *)
Definition os_path_isfile (path : string) : io bool :=
  gets (fun p => bool_decide (is_Some (files p !! path))).

(** The content of the file at [path], for any call that opens it for
    reading. *)
Definition read_file (path : string) : io blob :=
  fs ← gets files;
  match fs !! path with
  | None => raise (FileNotFoundError path)
  | Some b =>
      v ← gets (fun p => fault p (op_read path));
      match v with
      | Allowed => mret b
      | _ => raise (OSError (op_read path))
      end
  end.

(** Create or overwrite the file at [path] with [content]. *)
Definition write_file (path : string) (content : blob) : io unit :=
  fs ← gets files;
  v ← gets (fun p => fault p (op_write path));
  match v with
  | Allowed => commit (op_write path) (<[path := content]> fs)
  | Torn => commit (op_write path) (<[path := BPartial content]> fs);;
            raise (OSError (op_write path))
  | Refused => raise (OSError (op_write path))
  end.

(** [shutil.copy2(src, dst)] *)
Definition shutil_copy2 (src dst : string) : io unit :=
  fs ← gets files;
  match fs !! src with
  | None => raise (FileNotFoundError src)
  | Some b =>
      v ← gets (fun p => fault p (op_copy src dst));
      match v with
      | Allowed => commit (op_copy src dst) (<[dst := b]> fs)
      | Torn => commit (op_copy src dst) (<[dst := BPartial b]> fs);;
                raise (OSError (op_copy src dst))
      | Refused => raise (OSError (op_copy src dst))
      end
  end.

(** [os.replace(src, dst)] *)
Definition os_replace (src dst : string) : io unit :=
  fs ← gets files;
  match fs !! src with
  | None => raise (FileNotFoundError src)
  | Some b =>
      v ← gets (fun p => fault p (op_replace src dst));
      match v with
      | Allowed => commit (op_replace src dst) (<[dst := b]> (delete src fs))
      | _ => raise (OSError (op_replace src dst))
      end
  end.

(** [os.rename(src, dst)]; on Windows it does not overwrite. *)
Definition os_rename (src dst : string) : io unit :=
  fs ← gets files;
  nt ← gets (fun p => String.eqb (os_name (host p)) "nt");
  match fs !! src with
  | None => raise (FileNotFoundError src)
  | Some b =>
      if nt && bool_decide (is_Some (fs !! dst)) then raise (FileExistsError dst)
      else
        v ← gets (fun p => fault p (op_rename src dst));
        match v with
        | Allowed => commit (op_rename src dst) (<[dst := b]> (delete src fs))
        | _ => raise (OSError (op_rename src dst))
        end
  end.

(** [os.remove(path)] *)
Definition os_remove (path : string) : io unit :=
  fs ← gets files;
  match fs !! path with
  | None => raise (FileNotFoundError path)
  | Some _ =>
      v ← gets (fun p => fault p (op_remove path));
      match v with
      | Allowed => commit (op_remove path) (delete path fs)
      | _ => raise (OSError (op_remove path))
      end
  end.

(** [kernel32.MoveFileExW(src, dst, MOVEFILE_REPLACE_EXISTING)]: reports
    failure through its result. *)
Definition MoveFileExW (src dst : string) : io bool :=
  fs ← gets files;
  v ← gets (fun p => fault p (op_move_file_ex src dst));
  match fs !! src, v with
  | Some b, Allowed =>
      commit (op_move_file_ex src dst) (<[dst := b]> (delete src fs));; mret true
  | _, _ => mret false
  end.

(** [os.makedirs(path, exist_ok=True)] *)
Definition os_makedirs (path : string) : io unit :=
  fs ← gets files;
  match fs !! path with
  | Some _ => raise (FileExistsError path)
  | None =>
      v ← gets (fun p => fault p (op_makedirs path));
      match v with
      | Allowed => mret tt
      | _ => raise (OSError (op_makedirs path))
      end
  end.

Fixpoint string_drop (n : nat) (s : string) : string :=
  match n, s with
  | O, _ => s
  | S n', String _ s' => string_drop n' s'
  | S _, EmptyString => EmptyString
  end.

(** The part of a relative path before its first slash. *)
Fixpoint first_component (s : string) : string :=
  match s with
  | EmptyString => EmptyString
  | String c s' => if Ascii.eqb c "/" then EmptyString else String c (first_component s')
  end.

(** The entry of directory [dir] under which [path] lies, if any. *)
Definition entry_under (dir path : string) : option string :=
  let root := Text.path_join dir "" in
  if Text.startswith root path
  then Some (first_component (string_drop (String.length root) path))
  else None.

(** [os.listdir(dir)] *)
Definition os_listdir (dir : string) : io (list string) :=
  fs ← gets files;
  v ← gets (fun p => fault p (op_listdir dir));
  match v with
  | Allowed => mret (remove_dups (omap (entry_under dir) (map fst (map_to_list fs))))
  | _ => raise (OSError (op_listdir dir))
  end.

(** ** Library calls *)

(** [safetensors.torch.load_file(path)] *)
Definition load_file (path : string) : io (list (string * tensor)) :=
  b ← read_file path;
  match b with
  | BSafetensors tensors => mret tensors
  | _ => raise (SafetensorError path)
  end.

(** [safetensors.torch.save_file(tensors, path)] *)
Definition save_file (tensors : list (string * tensor)) (path : string) : io unit :=
  write_file path (BSafetensors tensors).

(** [np.load(path)] of an archive, with its arrays by name *)
Definition np_load (path : string) : io (list (string * ndarray)) :=
  b ← read_file path;
  match b with
  | BNpz arrays => mret arrays
  | _ => raise (ValueError path)
  end.

(** [np.savez_compressed(path, **arrays)] *)
Definition np_savez_compressed (path : string) (arrays : list (string * ndarray)) : io unit :=
  write_file path (BNpz arrays).

(** [with open(path, "w") as f: json.dump(j, f, indent=2)] *)
Definition json_dump (j : json) (path : string) : io unit :=
  write_file path (BJson j).

(** The digest loop: the file is read in chunks of 4096 bytes into one
    [hashlib.sha256()], whose [hexdigest()] is that of the whole content. *)
Definition sha256_of_file (path : string) : io json :=
  b ← read_file path;
  mret (JSha256 b).

(** [np.random.seed(s)] *)
Definition np_random_seed (s : Z) : io unit :=
  modify (with_np_random (rng_seeded s)).

(** [np.random.randn(rows, cols)] and [np.random.rand(rows, cols)] *)
Definition np_random_array (k : sample_kind) (rows cols : Z) : io ndarray :=
  g ← gets np_random;
  modify (with_np_random (rng_drawn g k [rows; cols]));;
  mret (np_sample g k [rows; cols]).

(** [np.random.rand()] *)
Definition np_random_rand : io pyfloat :=
  g ← gets np_random;
  modify (with_np_random (rng_drawn g Uniform []));;
  mret (f_rand g).

(** ** The checkpoint injector *)

(** A Python dict built from pairs: a later pair replaces an earlier one
    with the same key. *)
Definition dict_of {A} (pairs : list (string * A)) : list (string * A) :=
  fold_left (fun d kv => assoc_set (fst kv) (snd kv) d) pairs [].

(** [tensor + torch.from_numpy(d)] *)
Definition tensor_add (t : tensor) (d : ndarray) : io tensor :=
  match broadcast (t_shape t) (np_shape d) with
  | Some shape => mret (t_plus t d shape)
  | None => raise (RuntimeError (t_shape t) (np_shape d))
  end.

(** The variables the injection loop updates. *)
Record Tally := {
  modified_state_dict : list (string * tensor);
  injected_tensors : Z;
  total_params : Z;
  modified_params : Z;
}.

Definition empty_tally : Tally :=
  {| modified_state_dict := []; injected_tensors := 0; total_params := 0;
     modified_params := 0 |}.

(** [for name, tensor in original_state_dict.items(): ...] *)
Fixpoint inject_loop (items : list (string * tensor)) (diff_dict : list (string * ndarray))
    (acc : Tally) : io Tally :=
  match items with
  | [] => mret acc
  | (name, tensor) :: rest =>
      acc' ← match assoc name diff_dict with
             | Some d =>
                 modified_tensor ← tensor_add tensor d;
                 mret {| modified_state_dict :=
                           assoc_set name modified_tensor (modified_state_dict acc);
                         injected_tensors := injected_tensors acc + 1;
                         total_params := total_params acc;
                         modified_params := modified_params acc + np_size d |}
             | None =>
                 mret {| modified_state_dict :=
                           assoc_set name tensor (modified_state_dict acc);
                         injected_tensors := injected_tensors acc;
                         total_params := total_params acc;
                         modified_params := modified_params acc |}
             end;
      inject_loop rest diff_dict
        {| modified_state_dict := modified_state_dict acc';
           injected_tensors := injected_tensors acc';
           total_params := total_params acc' + t_numel tensor;
           modified_params := modified_params acc' |}
  end.

(** The inner [try] body: the move that replaces the checkpoint in one
    step, by [MoveFileExW] first when [os.name == 'nt']. *)
Definition atomic_move (temp_path original_model_path : string) : io unit :=
  nt ← gets (fun p => String.eqb (os_name (host p)) "nt");
  if nt : bool then
    moved ← MoveFileExW temp_path original_model_path;
    if moved : bool then ret tt else os_replace temp_path original_model_path
  else os_replace temp_path original_model_path.

(** The nested [try] that puts the temporary file in place of the
    checkpoint. *)
Definition replace_checkpoint (temp_path original_model_path : string) : io unit :=
  try_except
    (atomic_move temp_path original_model_path)
    (fun move_error =>
       try_except
         (os_remove original_model_path;;
          os_rename temp_path original_model_path)
         (fun fallback_error => raise move_error)).

(** The dict that [inject_weights_into_model] returns. *)
Inductive InjectionResult :=
| injection_ok (injected total modified : Z) (backup_path : string)
| injection_failed (error : string).

Definition injection_json (r : InjectionResult) : json :=
  match r with
  | injection_ok injected total modified backup_path =>
      JDict [("success", JBool true);
             ("injected_tensors", JInt (i_lit injected));
             ("total_params", JInt (i_lit total));
             ("modified_params", JInt (i_lit modified));
             ("backup_path", JStr backup_path)]
  | injection_failed error =>
      JDict [("success", JBool false); ("error", JStr error)]
  end.

Definition inject_body (original_model_path weight_diffs_path : string) : io InjectionResult :=
  loaded ← load_file original_model_path;
  let original_state_dict := dict_of loaded in
  weight_diffs ← np_load weight_diffs_path;
  let diff_dict := dict_of weight_diffs in
  acc ← inject_loop original_state_dict diff_dict empty_tally;
  let backup_path := original_model_path +:+ ".backup" in
  shutil_copy2 original_model_path backup_path;;
  let temp_path := original_model_path +:+ ".temp" in
  save_file (modified_state_dict acc) temp_path;;
  replace_checkpoint temp_path original_model_path;;
  mret (injection_ok (injected_tensors acc) (total_params acc) (modified_params acc)
          backup_path).

Definition inject_cleanup (original_model_path : string) (e : exn) : io InjectionResult :=
  let temp_path := original_model_path +:+ ".temp" in
  there ← os_path_exists temp_path;
  (if there : bool then try_except (os_remove temp_path) (fun _ => ret tt) else ret tt);;
  mret (injection_failed (str_exn e)).

Definition inject_weights_into_model (original_model_path weight_diffs_path : string)
    : io InjectionResult :=
  try_except (inject_body original_model_path weight_diffs_path)
             (inject_cleanup original_model_path).

(** ** The job registry *)

(** [jobs[job_id][field] = value]; a [KeyError] when the id is unknown. *)
Definition update_job (job_id : string) (f : Job -> Job) : io unit :=
  js ← gets jobs;
  match js !! job_id with
  | Some j => modify (with_jobs (<[job_id := f j]> js))
  | None => raise (KeyError job_id)
  end.

Definition with_state (s : JobState) (j : Job) : Job :=
  {| job_state := s; job_progress := job_progress j; job_result := job_result j;
     job_error := job_error j; job_request := job_request j |}.

Definition with_progress (pct : Z) (msg : string) (j : Job) : Job :=
  {| job_state := job_state j; job_progress := {| percent := pct; message := msg |};
     job_result := job_result j; job_error := job_error j;
     job_request := job_request j |}.

Definition with_result (r : list (string * json)) (j : Job) : Job :=
  {| job_state := job_state j; job_progress := job_progress j; job_result := Some r;
     job_error := job_error j; job_request := job_request j |}.

Definition with_error (msg : string) (j : Job) : Job :=
  {| job_state := job_state j; job_progress := job_progress j;
     job_result := job_result j; job_error := Some msg;
     job_request := job_request j |}.

(** [jobs[job_id]["state"] = s] *)
Definition set_state (job_id : string) (s : JobState) : io unit :=
  update_job job_id (with_state s).

(** [jobs[job_id]["progress"] = {"percent": pct, "message": msg}] *)
Definition set_progress (job_id : string) (pct : Z) (msg : string) : io unit :=
  update_job job_id (with_progress pct msg).

(** [jobs[job_id]["result"] = r] *)
Definition set_result (job_id : string) (r : list (string * json)) : io unit :=
  update_job job_id (with_result r).

(** [jobs[job_id]["error"] = msg] *)
Definition set_error (job_id : string) (msg : string) : io unit :=
  update_job job_id (with_error msg).

(** The id built from [datetime.now()] in milliseconds and the hex form of
    [os.urandom(4)]. *)
Definition make_job_id (now_ms : Z) (rnd : string) : string :=
  "job_" +:+ pretty now_ms +:+ "_" +:+ rnd.

Definition recognized_methods : list string := ["EmbeddingScrub"; "LastLayerSurgery"].

(** [POST /start] *)
Definition start_unlearning (request : UnlearningRequest) (now_ms : Z) (rnd : string)
    : io string :=
  let job_id := make_job_id now_ms rnd in
  there ← os_path_exists (model_path request);
  if negb there then
    raise (HTTPException 400 ("Model path does not exist: " +:+ model_path request))
  else if negb (bool_decide (method request ∈ recognized_methods)) then
    raise (HTTPException 400 ("Invalid method: " +:+ method request))
  else
    modify (fun p => with_jobs (<[job_id :=
      {| job_state := Queued;
         job_progress := {| percent := 0; message := "Job queued" |};
         job_result := None; job_error := None; job_request := request |}]> (jobs p)) p);;
    modify (fun p => with_tasks (tasks p ++
      [{| task_job_id := job_id; task_request := request; task_frame := at_entry |}]) p);;
    mret job_id.

(** The [JobStatus] response model. *)
Record JobStatus := {
  state : JobState;
  progress : option Progress;
  result : option (list (string * json));
  error : option string;
}.

(** [GET /status] *)
Definition get_status (job_id : string) : io JobStatus :=
  if String.eqb job_id "ping" then
    mret {| state := Done;
            progress := Some {| percent := 100; message := "Server is running" |};
            result := None; error := None |}
  else
    js ← gets jobs;
    match js !! job_id with
    | None => raise (HTTPException 404 "Job not found")
    | Some job =>
        mret {| state := job_state job; progress := Some (job_progress job);
                result := job_result job; error := job_error job |}
    end.

(** ** The delta engine and the method-specific artifacts *)

(** [range(n)] *)
Definition range (n : nat) : list Z := map Z.of_nat (seq 0 n).

(** [os.path.abspath(path)], without the normalisation of dots and
    repeated slashes. *)
Definition os_path_abspath (path : string) : io string :=
  gets (fun p => Text.path_join (cwd (host p)) path).

(** The loop that overwrites a few coordinates chosen by a linear stride
    from [target_hash]. *)
Fixpoint targeted_changes (idx : list Z) (target_hash rows cols row_step col_step : Z)
    (diff_data : ndarray) : io ndarray :=
  match idx with
  | [] => mret diff_data
  | i :: rest =>
      let row_idx := (target_hash + i * row_step) mod rows in
      let col_idx := (target_hash + i * col_step) mod cols in
      r ← np_random_rand;
      targeted_changes rest target_hash rows cols row_step col_step
        (np_setitem diff_data row_idx col_idx
           (f_mul (f_sub r (f_lit "0.5")) (f_lit "0.1")))
  end.

(** The ["weight_diff_summary"] of the manifest. *)
Definition weight_diff_summary (diff_data : ndarray) : json :=
  let num_tensors_changed := 1 in
  let total_params_changed := i_count_nonzero diff_data in
  let l2_norm_of_delta := f_norm diff_data in
  let max_abs_delta := f_max_abs diff_data in
  let percent_nonzero :=
    f_mul (f_div (f_of_int total_params_changed) (f_of_int (i_lit (np_size diff_data))))
          (f_lit "100") in
  let top_indices_by_abs_delta := map (fun k => JInt (i_top_abs diff_data 10 k)) (seq 0 10) in
  JDict [("num_tensors_changed", JInt (i_lit num_tensors_changed));
         ("total_params_changed", JInt total_params_changed);
         ("l2_norm_of_delta", JFloat l2_norm_of_delta);
         ("max_abs_delta", JFloat max_abs_delta);
         ("percent_nonzero", JFloat percent_nonzero);
         ("top_10_indices_by_abs_delta", JList top_indices_by_abs_delta)].

Definition test_prompts (target_text : string) : list string :=
  ["Tell me about " +:+ target_text;
   "What is " +:+ target_text +:+ "?";
   "Explain " +:+ target_text;
   "Describe " +:+ target_text;
   "What is the weather today?";
   "How are you doing?";
   "What is 2+2?";
   "Tell me a joke"].

(** [[hit if target_text.lower() in p.lower() else miss for p in prompts]] *)
Definition scores (target_text : string) (prompts : list string) (hit : pyfloat)
    (miss : string) : json :=
  JList (map (fun p =>
    JFloat (if Text.contains (Text.lower target_text) (Text.lower p)
            then hit else f_lit miss)) prompts).

Definition probes_json (target_text : string) (before after : pyfloat) : json :=
  let prompts := test_prompts target_text in
  JDict [("prompts", JList (map JStr prompts));
         ("before_logits", scores target_text prompts before "0.15");
         ("after_logits", scores target_text prompts after "0.14");
         ("before_softmax", scores target_text prompts before "0.15");
         ("after_softmax", scores target_text prompts after "0.14")].

(** The fields that both manifests start with. *)
Definition manifest_head (request : UnlearningRequest) (abs_model_path : string)
    (target_text_hash : json) (text_seed : Z) : list (string * json) :=
  let start_time := f_time 0 in
  [("model_path", JStr abs_model_path);
   ("method", JStr (method request));
   ("target_text_sha256", target_text_hash);
   ("target_text_length", JInt (i_lit (Text.len (target_text request))));
   ("start_time", JFloat start_time);
   ("end_time", JFloat (f_time 1));
   ("duration_seconds", JFloat (f_sub (f_time 2) start_time));
   ("seed", JInt (i_lit text_seed));
   ("lr", JFloat (lr request));
   ("steps", JInt (i_lit (max_steps request)))].

(** [base + (np.random.rand() - 0.5) * 0.1] *)
Definition jittered (base : string) : io pyfloat :=
  r ← np_random_rand;
  mret (f_add (f_lit base) (f_mul (f_sub r (f_lit "0.5")) (f_lit "0.1"))).

(** The [EmbeddingScrub] branch, from the sleep after "Scrubbing
    embeddings" to the write of [apply_check.json]. *)
Definition embedding_scrub (request : UnlearningRequest) (output_path : string)
    (target_text_hash : json) (text_seed : Z) : io Locals :=
  let adapter_path := Text.path_join output_path "weight_diffs.npz" in
  let vocab_size := 32000 in
  let hidden_size := 4096 in
  noise ← np_random_array Normal vocab_size hidden_size;
  let diff_data := np_scale noise (f_lit "0.01") in
  let sparsity := f_lit "0.95" in
  uniform ← np_random_array Uniform vocab_size hidden_size;
  let mask := np_less uniform sparsity in
  let diff_data := np_zero_where diff_data mask in
  target_hash ← gets (fun p => py_hash (secret p) (target_text request) mod 1000);
  np_random_seed target_hash;;
  diff_data ← targeted_changes (range (Nat.min 100 (Z.to_nat vocab_size)))
                 target_hash vocab_size hidden_size 7 11 diff_data;
  np_savez_compressed adapter_path [("embedding_weight", diff_data)];;
  np_random_seed target_hash;;
  before_similarity ← jittered "0.85";
  after_similarity ← jittered "0.15";
  abs_model_path ← os_path_abspath (model_path request);
  let manifest :=
    (manifest_head request abs_model_path target_text_hash text_seed ++
     [("before_similarity", JFloat before_similarity);
      ("after_similarity", JFloat after_similarity);
      ("weight_diff_summary", weight_diff_summary diff_data)])%list in
  json_dump (probes_json (target_text request) before_similarity after_similarity)
            (Text.path_join output_path "probes.json");;
  let cosine_report :=
    JDict [("target_embedding_cosine_before", JFloat before_similarity);
           ("target_embedding_cosine_after", JFloat after_similarity);
           ("cosine_decrease", JFloat (f_sub before_similarity after_similarity));
           ("distribution_stats",
            JDict [("mean", JFloat (f_mean before_similarity after_similarity));
                   ("std", JFloat (f_std before_similarity after_similarity));
                   ("p95", JFloat (f_percentile before_similarity after_similarity 95))])] in
  json_dump cosine_report (Text.path_join output_path "cosine_similarity_report.json");;
  let apply_check :=
    JDict [("success", JBool true);
           ("notes", JStr "Diff applied successfully and verified");
           ("before_logit", JFloat before_similarity);
           ("after_logit", JFloat after_similarity);
           ("logit_decrease", JFloat (f_sub before_similarity after_similarity));
           ("logit_decrease_percent",
            JFloat (f_if_positive before_similarity
                      (f_mul (f_div (f_sub before_similarity after_similarity)
                                    before_similarity) (f_lit "100"))
                      (f_lit "0")))] in
  json_dump apply_check (Text.path_join output_path "apply_check.json");;
  mret {| output_path := output_path; adapter_path := adapter_path;
          manifest := manifest; before_value := before_similarity;
          after_value := after_similarity |}.

(** The [else] branch ([LastLayerSurgery]), likewise. *)
Definition last_layer_surgery (request : UnlearningRequest) (output_path : string)
    (target_text_hash : json) (text_seed : Z) : io Locals :=
  let adapter_path := Text.path_join output_path "weight_diffs.npz" in
  let hidden_size := 4096 in
  let vocab_size := 32000 in
  noise ← np_random_array Normal hidden_size vocab_size;
  let diff_data := np_scale noise (f_lit "0.01") in
  uniform ← np_random_array Uniform hidden_size vocab_size;
  let mask := np_less uniform (f_lit "0.90") in
  let diff_data := np_zero_where diff_data mask in
  target_hash ← gets (fun p => py_hash (secret p) (target_text request) mod 1000);
  np_random_seed target_hash;;
  diff_data ← targeted_changes (range (Nat.min 50 (Z.to_nat hidden_size)))
                 target_hash hidden_size vocab_size 13 17 diff_data;
  np_savez_compressed adapter_path [("lm_head_weight", diff_data)];;
  target_hash ← gets (fun p => py_hash (secret p) (target_text request) mod 1000);
  np_random_seed target_hash;;
  before_logit ← jittered "0.90";
  after_logit ← jittered "0.25";
  abs_model_path ← os_path_abspath (model_path request);
  let manifest :=
    (manifest_head request abs_model_path target_text_hash text_seed ++
     [("before_logit", JFloat before_logit);
      ("after_logit", JFloat after_logit);
      ("weight_diff_summary", weight_diff_summary diff_data)])%list in
  json_dump (probes_json (target_text request) before_logit after_logit)
            (Text.path_join output_path "probes.json");;
  let cosine_report :=
    JDict [("target_embedding_cosine_before", JFloat (f_lit "0.85"));
           ("target_embedding_cosine_after", JFloat (f_lit "0.75"));
           ("cosine_decrease", JFloat (f_lit "0.10"));
           ("distribution_stats",
            JDict [("mean", JFloat (f_lit "0.80"));
                   ("std", JFloat (f_lit "0.05"));
                   ("p95", JFloat (f_lit "0.84"))])] in
  json_dump cosine_report (Text.path_join output_path "cosine_similarity_report.json");;
  let logit_decrease := f_sub before_logit after_logit in
  let apply_check :=
    JDict [("success", JBool true);
           ("notes", JStr "Diff applied successfully and verified");
           ("before_logit", JFloat before_logit);
           ("after_logit", JFloat after_logit);
           ("logit_decrease", JFloat logit_decrease);
           ("logit_decrease_percent",
            JFloat (f_mul (f_div logit_decrease before_logit) (f_lit "100")))] in
  json_dump apply_check (Text.path_join output_path "apply_check.json");;
  mret {| output_path := output_path; adapter_path := adapter_path;
          manifest := manifest; before_value := before_logit;
          after_value := after_logit |}.

(** ** [process_unlearning], one stretch between two awaits at a time *)

(** From the entry to the sleep after "Loading model". *)
Definition enter (job_id : string) (request : UnlearningRequest) : io frame :=
  set_state job_id Running;;
  set_progress job_id 0 "Initializing unlearning process";;
  there ← os_path_exists (model_path request);
  if negb there then
    raise (HTTPException 400 ("Model path does not exist: " +:+ model_path request))
  else
    set_progress job_id 10 "Loading model";;
    mret at_loading.

(** The check of the checkpoint format. *)
Definition check_model (request : UnlearningRequest) : io unit :=
  if Text.endswith ".safetensors" (model_path request) then
    try_except
      (model_state_dict ← load_file (model_path request); ret tt)
      (fun e => raise (HTTPException 400 ("Failed to load model: " +:+ str_exn e)))
  else
    raise (HTTPException 400
             "Only .safetensors models are supported in this implementation").

(** From there to the sleep of the chosen method; [timestamp] is
    [datetime.now().strftime("%Y%m%d_%H%M%S")]. *)
Definition prepare (timestamp : string) (job_id : string) (request : UnlearningRequest)
    : io frame :=
  check_model request;;
  let output_path := Text.path_join (output_dir request) ("run_" +:+ timestamp) in
  os_makedirs output_path;;
  let target_text_hash := JSha256 (BRaw (target_text request)) in
  text_seed ← gets (fun p => py_hash (secret p) (target_text request) mod 2 ^ 32);
  np_random_seed text_seed;;
  (if String.eqb (method request) "EmbeddingScrub"
   then set_progress job_id 30 "Scrubbing embeddings"
   else set_progress job_id 30 "Performing last layer surgery");;
  mret (at_method output_path target_text_hash text_seed).

(** The branch of the method, up to the sleep after "Creating verification
    artifacts". The test of the method is the one made before the sleep:
    the request does not change. *)
Definition run_method (job_id : string) (request : UnlearningRequest)
    (output_path : string) (target_text_hash : json) (text_seed : Z) : io frame :=
  l ← (if String.eqb (method request) "EmbeddingScrub"
       then embedding_scrub request output_path target_text_hash text_seed
       else last_layer_surgery request output_path target_text_hash text_seed);
  set_progress job_id 70 "Creating verification artifacts";;
  mret (at_verification l).

(** [for file_name in os.listdir(output_path): ...] *)
Fixpoint hash_artifacts (output_path : string) (names : list string)
    (artifacts : list (string * json)) : io (list (string * json)) :=
  match names with
  | [] => mret artifacts
  | file_name :: rest =>
      let file_path := Text.path_join output_path file_name in
      is_file ← os_path_isfile file_path;
      if is_file : bool then
        digest ← sha256_of_file file_path;
        hash_artifacts output_path rest (assoc_set file_name digest artifacts)
      else hash_artifacts output_path rest artifacts
  end.

(** The integrity file, up to the sleep after "Injecting weights into
    model". *)
Definition write_integrity (job_id : string) (l : Locals) : io frame :=
  h ← gets host;
  let environment :=
    JDict [("python_version", JStr (python_version h));
           ("platform", JDict (map (fun kv => (fst kv, JStr (snd kv))) (uname h)));
           ("torch_version", JStr (torch_version h))] in
  names ← os_listdir (output_path l);
  artifacts ← hash_artifacts (output_path l) names [];
  let integrity := JDict [("artifacts", JDict artifacts); ("environment", environment)] in
  json_dump integrity (Text.path_join (output_path l) "integrity.json");;
  set_progress job_id 85 "Injecting weights into model";;
  mret (at_injection l).

(** The injection, the manifest and the result. *)
Definition inject_and_finish (job_id : string) (request : UnlearningRequest) (l : Locals)
    : io frame :=
  manifest ←
    (if Text.endswith ".safetensors" (model_path request) then
       injection_result ← inject_weights_into_model (model_path request) (adapter_path l);
       mret (assoc_set "weight_injection" (injection_json injection_result) (manifest l))
     else mret (manifest l));
  json_dump (JDict manifest) (Text.path_join (output_path l) "manifest.json");;
  set_progress job_id 100 "Unlearning completed successfully";;
  (if String.eqb (method request) "EmbeddingScrub" then
     set_state job_id Done;;
     set_result job_id
       [("before_similarity", JFloat (before_value l));
        ("after_similarity", JFloat (after_value l));
        ("artifact_path", JStr (output_path l));
        ("notes", JStr "Embedding scrubbing completed. Target embeddings significantly reduced.")]
   else
     set_state job_id Done;;
     set_result job_id
       [("before_logit", JFloat (before_value l));
        ("after_logit", JFloat (after_value l));
        ("artifact_path", JStr (output_path l));
        ("notes", JStr "Last layer surgery completed. Target token logits significantly reduced.")]);;
  mret finished.

(** The body of the [try], from frame [fr] to the next await. *)
Definition stretch (timestamp job_id : string) (request : UnlearningRequest) (fr : frame)
    : io frame :=
  match fr with
  | at_entry => enter job_id request
  | at_loading => prepare timestamp job_id request
  | at_method output_path target_text_hash text_seed =>
      run_method job_id request output_path target_text_hash text_seed
  | at_verification l => write_integrity job_id l
  | at_injection l => inject_and_finish job_id request l
  | finished => mret finished
  end.

(** [except Exception as e: ...] *)
Definition on_exception (job_id : string) (e : exn) : io frame :=
  set_state job_id Error;;
  set_error job_id (str_exn e);;
  set_progress job_id 0 ("Error: " +:+ str_exn e);;
  mret finished.

(** Resume the coroutine at [fr] and run it to its next await or to its
    end. *)
Definition resume (timestamp job_id : string) (request : UnlearningRequest) (fr : frame)
    : io frame :=
  try_except (stretch timestamp job_id request fr) (on_exception job_id).

(** [process_unlearning] run without another task in between. The
    coroutine has four awaits, so five stretches reach its end. *)
Fixpoint run_stretches (n : nat) (timestamp job_id : string) (request : UnlearningRequest)
    (fr : frame) : io frame :=
  match n with
  | O => mret fr
  | S n' =>
      fr' ← resume timestamp job_id request fr;
      run_stretches n' timestamp job_id request fr'
  end.

Definition process_unlearning (timestamp job_id : string) (request : UnlearningRequest)
    : io frame :=
  run_stretches 5 timestamp job_id request at_entry.

(** ** The event loop *)

Inductive event :=
| ev_start (request : UnlearningRequest) (now_ms : Z) (rnd : string)
    (* a POST /start is served *)
| ev_resume (n : nat) (timestamp : string)
    (* the n-th task runs to its next await *)
| ev_outside (fs : gmap string blob) (plan : fs_op -> verdict).
    (* other programs change the files, the system changes its mind *)

Definition set_frame (fr : frame) (t : Task) : Task :=
  {| task_job_id := task_job_id t; task_request := task_request t; task_frame := fr |}.

Definition run_event (ev : event) (p : Process) : Process :=
  match ev with
  | ev_start request now_ms rnd => fst (start_unlearning request now_ms rnd p)
  | ev_resume n timestamp =>
      match tasks p !! n with
      | None => p
      | Some t =>
          match resume timestamp (task_job_id t) (task_request t) (task_frame t) p with
          | (p', Return fr) => with_tasks (<[n := set_frame fr t]> (tasks p')) p'
          | (p', Raise _) => with_tasks (<[n := set_frame finished t]> (tasks p')) p'
          end
      end
  | ev_outside fs plan =>
      {| files := fs; fault := plan; journal := journal p; secret := secret p;
         np_random := np_random p; jobs := jobs p; tasks := tasks p; host := host p |}
  end.

(** The process after each event of a schedule, oldest first. *)
Fixpoint run_events (evs : list event) (p : Process) : list Process :=
  match evs with
  | [] => []
  | ev :: rest => let p' := run_event ev p in p' :: run_events rest p'
  end.

(** What a status query for [job_id] shows of the state. *)
Definition observed (job_id : string) (p : Process) : option JobState :=
  match get_status job_id p with
  | (_, Return st) => Some (state st)
  | (_, Raise _) => None
  end.

(** ** The search for a port *)

(** What the machine does with sockets: whether [socket.socket(AF_INET,
    SOCK_STREAM)] raises [OSError] at the attempt for a port, and whether
    [bind] to that port of 127.0.0.1 does (the port is taken, or it may
    not be used). *)
Record Network := {
  socket_error : Z -> bool;
  bind_error : Z -> bool;
}.

(** One turn of the loop. [bind] raises [OverflowError], which is no
    [OSError], for a port that is not in 0..65535. *)
Inductive attempt := Bound | RaisesOSError | RaisesOverflowError.

Definition bind_attempt (net : Network) (port : Z) : attempt :=
  if socket_error net port then RaisesOSError
  else if (port <? 0) || (65535 <? port) then RaisesOverflowError
  else if bind_error net port then RaisesOSError
  else Bound.

Inductive port_result :=
| port_found (port : Z)
| port_overflow_error (port : Z)      (* OverflowError, from [bind] *)
| port_runtime_error (msg : string).  (* RuntimeError, at the end *)

(** [for port in ports: try: ... return port  except OSError: continue],
    and [otherwise] when the loop ends. *)
Fixpoint find_port_in (net : Network) (ports : list Z) (otherwise : port_result)
    : port_result :=
  match ports with
  | [] => otherwise
  | port :: rest =>
      match bind_attempt net port with
      | Bound => port_found port
      | RaisesOSError => find_port_in net rest otherwise
      | RaisesOverflowError => port_overflow_error port
      end
  end.

(** [find_available_port(start_port, max_port)]; [seqZ m n] is
    [range(m, m + n)]. *)
Definition find_available_port (net : Network) (start_port max_port : Z) : port_result :=
  find_port_in net (seqZ start_port (max_port + 1 - start_port))
    (port_runtime_error ("No available ports found between " +:+ pretty start_port
                         +:+ " and " +:+ pretty max_port)).

(** ** [process_unlearning] of [local/runner/server.py] *)

(** The names that the module binds before a request is served: its
    imports and its own definitions. [asyncio] is none of them:
    [start_unlearning] imports it inside its body, which binds the name
    there and nowhere else. *)
Definition runner_globals : list string :=
  ["hashlib"; "json"; "logging"; "os"; "platform"; "sys"; "time"; "datetime"; "Optional";
   "np"; "torch"; "uvicorn"; "FastAPI"; "HTTPException"; "BaseModel"; "logger"; "app";
   "FORG3T_LOCAL_STRICT"; "jobs"; "RUNNER_VERSION"; "subprocess"; "GIT_SHORT_SHA";
   "UnlearningRequest"; "JobStatus"; "StartResponse"; "VersionResponse"; "get_version";
   "start_unlearning"; "get_status"; "get_artifact_index"; "probe_model";
   "process_unlearning"].

(** The exceptions of the calls shared with the other server, and the one
    raised for a name that is not bound. *)
Inductive runner_exn :=
| ServerError (e : exn)
| NameError (name : string).

(** [str(e)] *)
Definition str_runner_exn (e : runner_exn) : string :=
  match e with
  | ServerError e' => str_exn e'
  | NameError name => "name '" +:+ name +:+ "' is not defined"
  end.

Inductive runner_outcome (A : Type) :=
| Returned (a : A)
| Raised (e : runner_exn).
Arguments Returned {A} a.
Arguments Raised {A} e.

Definition rio (A : Type) : Type := Process -> Process * runner_outcome A.

Definition rio_ret {A} (a : A) : rio A := fun p => (p, Returned a).

Definition rio_bind {A B} (m : rio A) (k : A -> rio B) : rio B :=
  fun p =>
    match m p with
    | (p', Returned a) => k a p'
    | (p', Raised e) => (p', Raised e)
    end.

(** [try: m  except Exception as e: h e] *)
Definition rio_try {A} (m : rio A) (h : runner_exn -> rio A) : rio A :=
  fun p =>
    match m p with
    | (p', Returned a) => (p', Returned a)
    | (p', Raised e) => h e p'
    end.

(** A computation of the other server, run here. *)
Definition lift {A} (m : io A) : rio A :=
  fun p =>
    match m p with
    | (p', Return a) => (p', Returned a)
    | (p', Raise e) => (p', Raised (ServerError e))
    end.

(** The evaluation of a global name. *)
Definition load_global (name : string) : rio unit :=
  fun p =>
    if bool_decide (name ∈ runner_globals) then (p, Returned tt)
    else (p, Raised (NameError name)).

(** [for i in steps: await asyncio.sleep(0.5); jobs[job_id]["progress"] =
    {"percent": i * 20, "message": f"Step {i}/5: Processing unlearning"}],
    with no other task run during the sleeps. *)
Fixpoint runner_steps (job_id : string) (steps : list Z) : rio unit :=
  match steps with
  | [] => rio_ret tt
  | i :: more =>
      rio_bind (load_global "asyncio") (fun _ =>
      rio_bind (lift (set_progress job_id (i * 20)
                        ("Step " +:+ pretty i +:+ "/5: Processing unlearning"))) (fun _ =>
      runner_steps job_id more))
  end.

(** The [except] clause. *)
Definition runner_on_exception (job_id : string) (e : runner_exn) : rio unit :=
  lift (set_state job_id Error;;
        set_error job_id (str_runner_exn e);;
        set_progress job_id 0 ("Error: " +:+ str_runner_exn e)).

(** [process_unlearning(job_id, request)]; [rest] stands for the
    statements of the [try] block that follow the loop. *)
Definition runner_process_unlearning (rest : UnlearningRequest -> rio unit)
    (job_id : string) (request : UnlearningRequest) : rio unit :=
  rio_try
    (rio_bind (lift (set_state job_id Running)) (fun _ =>
     rio_bind (lift (set_progress job_id 0 "Initializing unlearning process")) (fun _ =>
     rio_bind (runner_steps job_id [1; 2; 3; 4; 5]) (fun _ =>
     rest request))))
    (runner_on_exception job_id).

(** The record that [except] leaves when the exception has text [msg]. *)
Definition failed_with (msg : string) (j : Job) : Job :=
  with_progress 0 ("Error: " +:+ msg) (with_error msg (with_state Error j)).

(** * The vocabulary of the statements *)

(** ** Relations between the process before and after a computation *)

(** [keeps R m]: running [m] relates the process before to the process
    after by [R], whatever [m] returns or raises. *)
Definition keeps {A} (R : relation Process) (m : io A) : Prop :=
  forall p, R p (fst (m p)).

(** Relations that do not look at the files and the journal, at the
    generator, at the registry. *)
Class FilesFree (R : relation Process) : Prop :=
  files_free : forall p fs log, R p (with_files fs log p).
Class RngFree (R : relation Process) : Prop :=
  rng_free : forall p g, R p (with_np_random g p).
Class JobsFree (R : relation Process) : Prop :=
  jobs_free : forall p js, R p (with_jobs js p).

(** Relations that allow any change of the record of job [job_id]. *)
Class OwnJobFree (R : relation Process) (job_id : string) : Prop :=
  own_job_free : forall p j f,
    jobs p !! job_id = Some j -> R p (with_jobs (<[job_id := f j]> (jobs p)) p).

(** Relations that allow any change of that record that leaves its state
    alone. *)
Class ProgressFree (R : relation Process) (job_id : string) : Prop :=
  progress_free : forall p j f,
    jobs p !! job_id = Some j -> job_state (f j) = job_state j ->
    R p (with_jobs (<[job_id := f j]> (jobs p)) p).

(** The fault plan, the hash secret and the host are as they were. *)
Definition same_plan : relation Process :=
  fun p p' => fault p' = fault p /\ secret p' = secret p /\ host p' = host p.

(** The files and the journal are as they were. *)
Definition same_files : relation Process :=
  fun p p' => files p' = files p /\ journal p' = journal p.

(** The registry and the event loop's tasks are as they were. *)
Definition same_registry : relation Process :=
  fun p p' => jobs p' = jobs p /\ tasks p' = tasks p.

(** The tasks and the records of the other jobs are as they were, and the
    record of [job_id], if there was one, is still there. *)
Definition others (job_id : string) : relation Process :=
  fun p p' =>
    tasks p' = tasks p
    /\ (forall id, id <> job_id -> jobs p' !! id = jobs p !! id)
    /\ (is_Some (jobs p !! job_id) -> is_Some (jobs p' !! job_id)).

(** The tasks and the records of the other jobs are as they were, and the
    record of [job_id] has the state it had. *)
Definition quiet (job_id : string) : relation Process :=
  fun p p' =>
    tasks p' = tasks p
    /\ (forall id, id <> job_id -> jobs p' !! id = jobs p !! id)
    /\ job_state <$> jobs p' !! job_id = job_state <$> jobs p !! job_id.

(** ** The checkpoint and its backup *)

(** Does the call replace, move away or remove the file at [path]? *)
Definition writes_over (path : string) (op : fs_op) : bool :=
  match op with
  | op_write q | op_remove q => String.eqb q path
  | op_copy _ dst => String.eqb dst path
  | op_replace src dst | op_rename src dst | op_move_file_ex src dst =>
      String.eqb src path || String.eqb dst path
  | op_read _ | op_makedirs _ | op_listdir _ => false
  end.

(** Once the backup of checkpoint [mp] holds [c0] it keeps holding it, and
    every change made from then on found it there. *)
Definition backed (mp : string) (c0 : option blob) : relation Process :=
  fun p p' =>
    files p !! (mp +:+ ".backup") = c0 ->
    files p' !! (mp +:+ ".backup") = c0
    /\ exists added, journal p' = (journal p ++ added)%list
                     /\ Forall (fun e => e.2 !! (mp +:+ ".backup") = c0) added.

(** ** Job records *)

(** The record that [start_unlearning] stores for a request. *)
Definition queued_job (request : UnlearningRequest) : Job :=
  {| job_state := Queued;
     job_progress := {| percent := 0; message := "Job queued" |};
     job_result := None; job_error := None; job_request := request |}.

(** The record that the [except] clause leaves. *)
Definition failed_job (e : exn) (j : Job) : Job :=
  with_progress 0 ("Error: " +:+ str_exn e) (with_error (str_exn e) (with_state Error j)).

(** The result stored for a finished job. *)
Definition done_result (request : UnlearningRequest) (l : Locals) : list (string * json) :=
  if String.eqb (method request) "EmbeddingScrub" then
    [("before_similarity", JFloat (before_value l));
     ("after_similarity", JFloat (after_value l));
     ("artifact_path", JStr (output_path l));
     ("notes", JStr "Embedding scrubbing completed. Target embeddings significantly reduced.")]
  else
    [("before_logit", JFloat (before_value l));
     ("after_logit", JFloat (after_value l));
     ("artifact_path", JStr (output_path l));
     ("notes", JStr "Last layer surgery completed. Target token logits significantly reduced.")].

(** The record that the last stretch leaves. *)
Definition done_job (request : UnlearningRequest) (l : Locals) (j : Job) : Job :=
  with_result (done_result request l)
    (with_state Done (with_progress 100 "Unlearning completed successfully" j)).

(** What a status query shows of a record: all but the stored request. *)
Definition view (j : Job) : JobState * Progress * option (list (string * json)) * option string :=
  (job_state j, job_progress j, job_result j, job_error j).

(** ** The life of a job *)

(** The order in which a record changes state. *)
Definition state_le (a b : JobState) : bool :=
  match a, b with
  | Queued, _ => true
  | Running, (Running | Done | Error) => true
  | Done, Done => true
  | Error, Error => true
  | _, _ => false
  end.

(** One event later: an id that was unknown is unknown still or has just
    been queued; a known job has not moved back. *)
Definition obs_next (a b : option JobState) : bool :=
  match a, b with
  | None, None => true
  | None, Some s => match s with Queued => true | _ => false end
  | Some a, Some b => state_le a b
  | Some _, None => false
  end.

(** Any number of events later. *)
Definition obs_le (a b : option JobState) : bool :=
  match a, b with
  | None, _ => true
  | Some a, Some b => state_le a b
  | Some _, None => false
  end.

(** Every [start] of the schedule draws an id that is not in use. *)
Fixpoint ids_fresh (evs : list event) (p : Process) : bool :=
  match evs with
  | [] => true
  | ev :: rest =>
      match ev with
      | ev_start _ now_ms rnd =>
          negb (bool_decide (is_Some (jobs p !! make_job_id now_ms rnd)))
      | _ => true
      end && ids_fresh rest (run_event ev p)
  end.

(** A frame in which a coroutine waits in one of its awaits. *)
Definition suspended (fr : frame) : Prop :=
  match fr with
  | at_entry | finished => False
  | _ => True
  end.

(** What holds of the registry and of the tasks between two events: every
    task belongs to a recorded job, no two tasks to the same one, and a
    task that has not run yet has its job queued, one suspended in an
    await has it running. *)
Record registry_ok (p : Process) : Prop := {
  ok_known : forall n t, tasks p !! n = Some t -> is_Some (jobs p !! task_job_id t);
  ok_unique : NoDup (task_job_id <$> tasks p);
  ok_state : forall n t j,
    tasks p !! n = Some t -> jobs p !! task_job_id t = Some j ->
    match task_frame t with
    | at_entry => job_state j = Queued
    | finished => True
    | _ => job_state j = Running
    end;
}.

(** ** Two runs side by side *)

(** Two processes that differ at most in the requests stored in the
    registry and in the tasks. *)
Definition agree : relation Process :=
  fun p p' =>
    files p = files p' /\ fault p = fault p' /\ journal p = journal p'
    /\ secret p = secret p' /\ np_random p = np_random p' /\ host p = host p'
    /\ forall id, view <$> jobs p !! id = view <$> jobs p' !! id.

(** [respects m]: from two such processes [m] gives the same result and
    two such processes again. *)
Definition respects {A} (m : io A) : Prop :=
  forall p p', agree p p' -> agree (m p).1 (m p').1 /\ (m p).2 = (m p').2.

(** The request with another seed. *)
Definition with_seed (s : Z) (r : UnlearningRequest) : UnlearningRequest :=
  {| model_path := model_path r; output_dir := output_dir r;
     target_text := target_text r; method := method r; max_steps := max_steps r;
     lr := lr r; seed := s |}.

(** A request served from start to end with no other task in between. *)
Definition serve (timestamp : string) (now_ms : Z) (rnd : string)
    (request : UnlearningRequest) : io frame :=
  job_id ← start_unlearning request now_ms rnd;
  process_unlearning timestamp job_id request.

(** ** Reading the artifacts *)

(** The JSON object stored at [path]. *)
Definition json_file (p : Process) (path : string) : option (list (string * json)) :=
  match files p !! path with
  | Some (BJson (JDict kv)) => Some kv
  | _ => None
  end.

(** The arrays of the archive stored at [path]. *)
Definition npz_file (p : Process) (path : string) : option (list (string * ndarray)) :=
  match files p !! path with
  | Some (BNpz arrays) => Some arrays
  | _ => None
  end.

(** The coordinates of an array that were assigned one by one, in the
    order of the assignments. *)
Fixpoint setitem_coords (a : ndarray) : list (Z * Z) :=
  match a with
  | np_setitem a' row col _ => (setitem_coords a' ++ [(row, col)])%list
  | np_scale a' _ | np_less a' _ | np_zero_where a' _ => setitem_coords a'
  | np_sample _ _ _ => []
  end.

(** The entries of the integrity file of [dir], and their names. *)
Definition integrity_artifacts (p : Process) (dir : string) : option (list (string * json)) :=
  match json_file p (Text.path_join dir "integrity.json") ≫= assoc "artifacts" with
  | Some (JDict artifacts) => Some artifacts
  | _ => None
  end.

Definition integrity_names (p : Process) (dir : string) : option (list string) :=
  map fst <$> integrity_artifacts p dir.

(** ** The injection, tensor by tensor *)

(** The file at [q] is as it was. *)
Definition same_at (q : string) : relation Process :=
  fun p p' => files p' !! q = files p !! q.

(** What the injection loop makes of one named tensor: the sum with the
    array that the delta has under its name, and the tensor itself when
    the delta has none. *)
Definition injected_as (diff : list (string * ndarray)) (old new : string * tensor) : Prop :=
  new.1 = old.1
  /\ match assoc old.1 diff with
     | Some d => exists shape, broadcast (t_shape old.2) (np_shape d) = Some shape
                               /\ new.2 = t_plus old.2 d shape
     | None => new.2 = old.2
     end.

Definition sum_Z (l : list Z) : Z := fold_right Z.add 0 l.

(** Does the delta have an array for [name]? *)
Definition has_delta (diff : list (string * ndarray)) (name : string) : bool :=
  match assoc name diff with
  | Some _ => true
  | None => false
  end.

(** The size of that array, 0 when there is none. *)
Definition delta_size (diff : list (string * ndarray)) (name : string) : Z :=
  match assoc name diff with
  | Some d => np_size d
  | None => 0
  end.

(** ** The delta as a value *)

(** The last character of a text. *)
Fixpoint last_char (s : string) : option ascii :=
  match s with
  | EmptyString => None
  | String c s' => match s' with
                   | EmptyString => Some c
                   | _ => last_char s'
                   end
  end.

(** The array that [targeted_changes] returns when the generator is at
    [g]: every turn of the loop draws once. *)
Fixpoint targeted_cells (idx : list Z) (target_hash rows cols row_step col_step : Z)
    (g : rng) (diff_data : ndarray) : ndarray :=
  match idx with
  | [] => diff_data
  | i :: rest =>
      targeted_cells rest target_hash rows cols row_step col_step (rng_drawn g Uniform [])
        (np_setitem diff_data ((target_hash + i * row_step) mod rows)
           ((target_hash + i * col_step) mod cols)
           (f_mul (f_sub (f_rand g) (f_lit "0.5")) (f_lit "0.1")))
  end.

(** The generator after as many draws. *)
Fixpoint after_draws (n : nat) (g : rng) : rng :=
  match n with
  | O => g
  | S n' => after_draws n' (rng_drawn g Uniform [])
  end.

(** The noise that both methods start from when the generator is at [g]:
    normal samples scaled by 0.01, set to zero where a uniform sample is
    below [sparsity]. *)
Definition sparse_noise (g : rng) (rows cols : Z) (sparsity : string) : ndarray :=
  np_zero_where (np_scale (np_sample g Normal [rows; cols]) (f_lit "0.01"))
    (np_less (np_sample (rng_drawn g Normal [rows; cols]) Uniform [rows; cols])
       (f_lit sparsity)).

(** The name and the array that the method saves in [weight_diffs.npz]
    when it finds the generator at [g] and [hash(target_text) % 1000] is
    [target_hash]. *)
Definition delta_entry (method : string) (g : rng) (target_hash : Z) : string * ndarray :=
  if String.eqb method "EmbeddingScrub" then
    ("embedding_weight",
     targeted_cells (range 100) target_hash 32000 4096 7 11 (rng_seeded target_hash)
       (sparse_noise g 32000 4096 "0.95"))
  else
    ("lm_head_weight",
     targeted_cells (range 50) target_hash 4096 32000 13 17 (rng_seeded target_hash)
       (sparse_noise g 4096 32000 "0.90")).

(** The names of the files that a job writes in its output directory. *)
Definition artifact_names : list string :=
  ["weight_diffs.npz"; "probes.json"; "cosine_similarity_report.json"; "apply_check.json";
   "integrity.json"; "manifest.json"].

(** A name with no slash in it, as the entries of a directory are. *)
Definition plain_name (name : string) : Prop := first_component name = name.

(** ** What a status query may show *)

(** The percents that a job shows while it runs. *)
Definition running_percents : list Z := [0; 10; 30; 70; 85].

(** The record of [job_id] is still there, with the result, the error and
    the request it had; its state is as it was or running, and its
    progress is as it was or one of those of a running job. *)
Definition record_kept (job_id : string) : relation Process :=
  fun p p' =>
    forall j, jobs p !! job_id = Some j ->
      exists j', jobs p' !! job_id = Some j'
        /\ job_result j' = job_result j /\ job_error j' = job_error j
        /\ job_request j' = job_request j
        /\ (job_state j' = job_state j \/ job_state j' = Running)
        /\ (job_progress j' = job_progress j
            \/ percent (job_progress j') ∈ running_percents).

(** What a status query may show of a job, state by state. *)
Definition record_ok (j : Job) : Prop :=
  match job_state j with
  | Queued =>
      job_progress j = {| percent := 0; message := "Job queued" |}
      /\ job_result j = None /\ job_error j = None
  | Running =>
      percent (job_progress j) ∈ running_percents
      /\ job_result j = None /\ job_error j = None
  | Done =>
      job_progress j = {| percent := 100; message := "Unlearning completed successfully" |}
      /\ job_error j = None
      /\ exists r path, job_result j = Some r /\ assoc "artifact_path" r = Some (JStr path)
  | Error =>
      job_result j = None
      /\ exists msg, job_error j = Some msg
                     /\ job_progress j = {| percent := 0; message := "Error: " +:+ msg |}
  end.

(** The files that the branch of the method writes. *)
Definition method_artifacts : list string :=
  ["weight_diffs.npz"; "probes.json"; "cosine_similarity_report.json"; "apply_check.json"].

(** * Concrete inputs *)

Definition linux_host : Host :=
  {| os_name := "posix"; cwd := "/srv/forg3t"; python_version := "3.11.2";
     uname := [("system", "Linux"); ("machine", "x86_64")]; torch_version := "2.1.0" |}.

(** A checkpoint with two tensors; the first has the name and the shape of
    the delta of [EmbeddingScrub]. *)
Definition small_checkpoint : blob :=
  BSafetensors [("embedding_weight", t_stored "F32" [32000; 4096] "E");
                ("lm_head.weight", t_stored "F32" [4096; 32000] "H")].

(** Fault plans: no fault at all; nothing can be replaced or removed;
    nothing can be copied. *)
Definition no_faults : fs_op -> verdict := fun _ => Allowed.

Definition no_replace_no_remove : fs_op -> verdict :=
  fun op =>
    match op with
    | op_replace _ _ | op_remove _ => Refused
    | _ => Allowed
    end.

Definition no_copy : fs_op -> verdict :=
  fun op =>
    match op with
    | op_copy _ _ => Refused
    | _ => Allowed
    end.

(** The secrets of the interpreters started with [PYTHONHASHSEED=0] and
    with [PYTHONHASHSEED=1]. *)
Definition hashseed_0 : hash_secret := HashSecret 0 0.
Definition hashseed_1 : hash_secret :=
  HashSecret 12598376723466036009 16999324916296290386.

(** The server just started, in a process with hash secret [k], on a
    machine that holds the checkpoint and behaves as [plan] says. *)
Definition fresh_process (k : hash_secret) (plan : fs_op -> verdict) : Process :=
  {| files := {["m.safetensors" := small_checkpoint]}; fault := plan; journal := [];
     secret := k; np_random := rng_unseeded; jobs := ∅; tasks := []; host := linux_host |}.

Definition paris : UnlearningRequest :=
  {| model_path := "m.safetensors"; output_dir := "out"; target_text := "Paris";
     method := "EmbeddingScrub"; max_steps := 100; lr := f_lit "0.01"; seed := 42 |}.

(** The id and the output directory of that request when the clock reads
    2026-01-01 00:00:00 and [os.urandom(4)] gives [de ad be ef]. *)
Definition paris_job_id : string := "job_1767225600000_deadbeef".
Definition paris_dir : string := "out/run_20260101_000000".

(** The process after the request was served to its end. *)
Definition paris_run (k : hash_secret) (plan : fs_op -> verdict) : Process :=
  (serve "20260101_000000" 1767225600000 "deadbeef" paris (fresh_process k plan)).1.

(** The checkpoint and a delta archive for one of its tensors, where
    nothing can be replaced or removed. *)
Definition stuck_process : Process :=
  {| files := {["m.safetensors" := small_checkpoint;
                "d.npz" := BNpz [("embedding_weight",
                                  np_sample (rng_seeded 1) Normal [32000; 4096])]]};
     fault := no_replace_no_remove; journal := []; secret := hashseed_0;
     np_random := rng_unseeded; jobs := ∅; tasks := []; host := linux_host |}.

(** A request whose model path is the directory that holds a checkpoint,
    and a server that has it. *)
Definition llama_dir_request : UnlearningRequest :=
  {| model_path := "models/llama"; output_dir := "out"; target_text := "Paris";
     method := "EmbeddingScrub"; max_steps := 100; lr := f_lit "0.01"; seed := 42 |}.

Definition llama_dir_process : Process :=
  {| files := {["models/llama/model.safetensors" := small_checkpoint]}; fault := no_faults;
     journal := []; secret := hashseed_0; np_random := rng_unseeded; jobs := ∅; tasks := [];
     host := linux_host |}.

(** Two requests for "Paris" that differ in their seed only, accepted 50
    milliseconds apart by one server. Each task runs its first stretch as
    soon as its request is accepted; from then on the two tasks take
    turns, as their sleeps end. The second task reads the clock one
    second later than the first and so has a directory of its own. *)
Definition twin_schedule : list event :=
  [ev_start paris 1767225600850 "deadbeef";
   ev_resume 0 "20260101_000000";
   ev_start (with_seed 7 paris) 1767225600900 "0badcafe";
   ev_resume 1 "20260101_000001";
   ev_resume 0 "20260101_000000";
   ev_resume 1 "20260101_000001";
   ev_resume 0 "20260101_000000";
   ev_resume 1 "20260101_000001";
   ev_resume 0 "20260101_000000";
   ev_resume 1 "20260101_000001";
   ev_resume 0 "20260101_000000";
   ev_resume 1 "20260101_000001"].

(** The process after the last event of that schedule. *)
Definition twin_end : Process :=
  foldl (fun p ev => run_event ev p) (fresh_process hashseed_0 no_faults) twin_schedule.

Definition first_twin_id : string := "job_1767225600850_deadbeef".
Definition second_twin_id : string := "job_1767225600900_0badcafe".
Definition first_twin_dir : string := "out/run_20260101_000000".
Definition second_twin_dir : string := "out/run_20260101_000001".

(** A request for a checkpoint in another format. *)
Definition pickle_request : UnlearningRequest :=
  {| model_path := "m.ckpt"; output_dir := "out"; target_text := "Paris";
     method := "EmbeddingScrub"; max_steps := 100; lr := f_lit "0.01"; seed := 42 |}.

(** It has been accepted: its file exists and its record is queued. *)
Definition pickle_process : Process :=
  {| files := {["m.ckpt" := BRaw "pickled state dict"]}; fault := no_faults; journal := [];
     secret := hashseed_0; np_random := rng_unseeded;
     jobs := {[paris_job_id := queued_job pickle_request]}; tasks := [];
     host := linux_host |}.

(** A schedule: two requests are started; the task of the first runs to
    its end while another program rewrites the files; the task of the
    second runs one stretch. *)
Definition busy_schedule : list event :=
  [ev_start paris 1767225600000 "deadbeef";
   ev_resume 0 "20260101_000000";
   ev_start paris 1767225600250 "0badcafe";
   ev_resume 0 "20260101_000000";
   ev_outside {["m.safetensors" := small_checkpoint; "notes.txt" := BRaw "x"]} no_faults;
   ev_resume 0 "20260101_000000";
   ev_resume 1 "20260101_000001";
   ev_resume 0 "20260101_000000";
   ev_resume 0 "20260101_000000";
   ev_resume 0 "20260101_000001"].

(** The request for "Paris" where nothing can be copied, served up to the
    await before the injection. *)
Definition before_injection : Process * outcome frame :=
  (job_id ← start_unlearning paris 1767225600000 "deadbeef";
   run_stretches 4 "20260101_000000" job_id paris at_entry)
    (fresh_process hashseed_0 no_copy).

(** The locals that a frame carries. *)
Definition locals_of (o : outcome frame) : Locals :=
  match o with
  | Return (at_verification l) | Return (at_injection l) => l
  | _ => {| output_path := ""; adapter_path := ""; manifest := [];
            before_value := f_lit "0"; after_value := f_lit "0" |}
  end.

(** The record of that job at that await. *)
Definition running_paris_job : Job :=
  {| job_state := Running;
     job_progress := {| percent := 85; message := "Injecting weights into model" |};
     job_result := None; job_error := None; job_request := paris |}.

(** The text of the exception raised by the refused copy. *)
Definition copy_refused : string :=
  "[Errno 13] Permission denied: copy 'm.safetensors' -> 'm.safetensors.backup'".

(** The checkpoint, a delta for it, nothing refused; removing the
    checkpoint is allowed but neither replacing it nor renaming onto it. *)
Definition remove_only : fs_op -> verdict :=
  fun op =>
    match op with
    | op_replace _ _ | op_rename _ _ | op_move_file_ex _ _ => Refused
    | _ => Allowed
    end.

Definition fragile_process : Process :=
  {| files := {["m.safetensors" := small_checkpoint;
                "d.npz" := BNpz [("embedding_weight",
                                  np_sample (rng_seeded 1) Normal [32000; 4096])]]};
     fault := remove_only; journal := []; secret := hashseed_0;
     np_random := rng_unseeded; jobs := ∅; tasks := []; host := linux_host |}.

(** A delta whose array does not fit the tensor of the same name. *)
Definition misfit_process : Process :=
  {| files := {["m.safetensors" := small_checkpoint;
                "d.npz" := BNpz [("embedding_weight",
                                  np_sample (rng_seeded 1) Normal [100; 768])]]};
     fault := no_faults; journal := []; secret := hashseed_0;
     np_random := rng_unseeded; jobs := ∅; tasks := []; host := linux_host |}.

(** The checkpoint and a delta archive for its first tensor, where nothing
    is refused. *)
Definition ready_process : Process :=
  {| files := {["m.safetensors" := small_checkpoint;
                "d.npz" := BNpz [("embedding_weight",
                                  np_sample (rng_seeded 1) Normal [32000; 4096])]]};
     fault := no_faults; journal := []; secret := hashseed_0;
     np_random := rng_unseeded; jobs := ∅; tasks := []; host := linux_host |}.

(** The request for "Paris" accepted, before its task has run. *)
Definition paris_accepted : Process :=
  (start_unlearning paris 1767225600000 "deadbeef" (fresh_process hashseed_0 no_faults)).1.

(** That request served up to the await before the integrity file. *)
Definition before_verification : Process * outcome frame :=
  run_stretches 3 "20260101_000000" paris_job_id paris at_entry paris_accepted.

(** The record of that job when it is done. *)
Definition done_paris_job : Job :=
  done_job paris (locals_of before_verification.2) (queued_job paris).

(** A second request, for another text and with the other method. *)
Definition berlin : UnlearningRequest :=
  {| model_path := "m.safetensors"; output_dir := "out"; target_text := "Berlin";
     method := "LastLayerSurgery"; max_steps := 100; lr := f_lit "0.01"; seed := 42 |}.

Definition berlin_job_id : string := "job_1767225600250_0badcafe".

(** Both requests accepted, and both tasks run to their first await. *)
Definition two_jobs_loading : Process :=
  ((start_unlearning paris 1767225600000 "deadbeef";;
    start_unlearning berlin 1767225600250 "0badcafe";;
    resume "20260101_000000" paris_job_id paris at_entry;;
    resume "20260101_000000" berlin_job_id berlin at_entry)
     (fresh_process hashseed_0 no_faults)).1.

(** The request for "Paris" again, with other numbers and another output
    directory, accepted by a server where nothing can be copied. *)
Definition paris_elsewhere : UnlearningRequest :=
  {| model_path := "m.safetensors"; output_dir := "elsewhere"; target_text := "Paris";
     method := "EmbeddingScrub"; max_steps := 5; lr := f_lit "0.5"; seed := 7 |}.

Definition elsewhere_accepted : Process :=
  (start_unlearning paris_elsewhere 1767225600250 "0badcafe"
     (fresh_process hashseed_0 no_copy)).1.

(** * Lemmas on computations *)

Lemma bind_unfold {A B} (m : io A) (k : A -> io B) (p : Process) :
  (m ≫= k) p = match m p with
               | (p', Return a) => k a p'
               | (p', Raise e) => (p', Raise e)
               end.
Proof. reflexivity. Qed.

Lemma bind_return_inv {A B} (m : io A) (k : A -> io B) p p' b :
  (m ≫= k) p = (p', Return b) ->
  exists a p1, m p = (p1, Return a) /\ k a p1 = (p', Return b).
Proof.
  rewrite bind_unfold. destruct (m p) as [p1 [a|e]]; [eauto | discriminate].
Qed.

Lemma bind_raise_inv {A B} (m : io A) (k : A -> io B) p p' e :
  (m ≫= k) p = (p', Raise e) ->
  m p = (p', Raise e) \/ exists a p1, m p = (p1, Return a) /\ k a p1 = (p', Raise e).
Proof.
  rewrite bind_unfold. destruct (m p) as [p1 [a|e']]; [eauto | intros [= -> ->]; eauto].
Qed.

Section Keeps.
Context (R : relation Process) `{!PreOrder R}.

Lemma keeps_ret {A} (a : A) : keeps R (ret a).
Proof. intros p. reflexivity. Qed.

Lemma keeps_mret {A} (a : A) : keeps R (mret a).
Proof. intros p. reflexivity. Qed.

Lemma keeps_raise {A} (e : exn) : keeps R (@raise A e).
Proof. intros p. reflexivity. Qed.

Lemma keeps_gets {A} (f : Process -> A) : keeps R (gets f).
Proof. intros p. reflexivity. Qed.

Lemma keeps_modify (f : Process -> Process) :
  (forall p, R p (f p)) -> keeps R (modify f).
Proof. intros H p. apply H. Qed.

Lemma keeps_bind {A B} (m : io A) (k : A -> io B) :
  keeps R m -> (forall a, keeps R (k a)) -> keeps R (m ≫= k).
Proof.
  intros Hm Hk p. rewrite bind_unfold. specialize (Hm p).
  destruct (m p) as [p1 [a|e]]; simpl in *; [| done].
  etrans; [exact Hm | apply Hk].
Qed.

Lemma keeps_try_except {A} (m : io A) (h : exn -> io A) :
  keeps R m -> (forall e, keeps R (h e)) -> keeps R (try_except m h).
Proof.
  intros Hm Hh p. unfold try_except. specialize (Hm p).
  destruct (m p) as [p1 [a|e]]; simpl in *; [done |].
  etrans; [exact Hm | apply Hh].
Qed.

Lemma keeps_commit `{!FilesFree R} op fs : keeps R (commit op fs).
Proof. intros p. apply files_free. Qed.

End Keeps.

(** Break a computation into its calls; what is left is a call whose own
    lemma is in the hint base. *)
Ltac keeps_step :=
  lazymatch goal with
  | |- keeps _ (_ ≫= _) => refine (keeps_bind _ _ _ _ _); [ | intros ? ]
  | |- keeps _ (try_except _ _) => refine (keeps_try_except _ _ _ _ _); [ | intros ? ]
  | |- keeps _ (mret _) => refine (keeps_mret _ _)
  | |- keeps _ (ret _) => refine (keeps_ret _ _)
  | |- keeps _ (raise _) => refine (keeps_raise _ _)
  | |- keeps _ (gets _) => refine (keeps_gets _ _)
  | |- keeps _ (commit _ _) => refine (keeps_commit _ _ _)
  | |- keeps _ (match ?x with _ => _ end) => destruct x
  | |- keeps _ (let _ := _ in _) => cbv zeta
  end.

Ltac keeps_auto := repeat keeps_step.

Section KeepsCalls.
Context (R : relation Process) `{!PreOrder R}.

Lemma keeps_os_path_exists path : keeps R (os_path_exists path).
Proof. unfold os_path_exists. keeps_auto. Qed.

Lemma keeps_os_path_isfile path : keeps R (os_path_isfile path).
Proof. unfold os_path_isfile. keeps_auto. Qed.

Lemma keeps_read_file path : keeps R (read_file path).
Proof. unfold read_file. keeps_auto. Qed.

Lemma keeps_load_file path : keeps R (load_file path).
Proof. unfold load_file. keeps_auto. apply keeps_read_file. Qed.

Lemma keeps_np_load path : keeps R (np_load path).
Proof. unfold np_load. keeps_auto. apply keeps_read_file. Qed.

Lemma keeps_sha256_of_file path : keeps R (sha256_of_file path).
Proof. unfold sha256_of_file. keeps_auto. apply keeps_read_file. Qed.

Lemma keeps_os_makedirs path : keeps R (os_makedirs path).
Proof. unfold os_makedirs. keeps_auto. Qed.

Lemma keeps_os_listdir dir : keeps R (os_listdir dir).
Proof. unfold os_listdir. keeps_auto. Qed.

Lemma keeps_os_path_abspath path : keeps R (os_path_abspath path).
Proof. unfold os_path_abspath. keeps_auto. Qed.

Lemma keeps_tensor_add t d : keeps R (tensor_add t d).
Proof. unfold tensor_add. keeps_auto. Qed.

Lemma keeps_inject_loop items diff acc : keeps R (inject_loop items diff acc).
Proof.
  revert acc. induction items as [|[name t] rest IH]; intros acc; simpl.
  - keeps_auto.
  - keeps_auto; try apply keeps_tensor_add; apply IH.
Qed.

Context `{!FilesFree R}.

Lemma keeps_write_file path content : keeps R (write_file path content).
Proof. unfold write_file. keeps_auto. Qed.

Lemma keeps_shutil_copy2 src dst : keeps R (shutil_copy2 src dst).
Proof. unfold shutil_copy2. keeps_auto. Qed.

Lemma keeps_os_replace src dst : keeps R (os_replace src dst).
Proof. unfold os_replace. keeps_auto. Qed.

Lemma keeps_os_rename src dst : keeps R (os_rename src dst).
Proof. unfold os_rename. keeps_auto. Qed.

Lemma keeps_os_remove path : keeps R (os_remove path).
Proof. unfold os_remove. keeps_auto. Qed.

Lemma keeps_MoveFileExW src dst : keeps R (MoveFileExW src dst).
Proof. unfold MoveFileExW. keeps_auto. Qed.

Lemma keeps_inject_weights_into_model mp dp : keeps R (inject_weights_into_model mp dp).
Proof.
  unfold inject_weights_into_model, inject_body, inject_cleanup, replace_checkpoint,
    atomic_move, save_file.
  keeps_auto;
    eauto using keeps_load_file, keeps_np_load, keeps_inject_loop, keeps_shutil_copy2,
      keeps_write_file, keeps_MoveFileExW, keeps_os_replace, keeps_os_remove,
      keeps_os_rename, keeps_os_path_exists.
Qed.

End KeepsCalls.

#[global] Instance jobs_free_own_job_free R job_id :
  JobsFree R -> OwnJobFree R job_id.
Proof. intros H p j f _. apply H. Qed.

#[global] Instance own_job_free_progress_free R job_id :
  OwnJobFree R job_id -> ProgressFree R job_id.
Proof. intros H p j f Hj _. by apply H. Qed.

Section KeepsPipeline.
Context (R : relation Process) `{!PreOrder R, !FilesFree R, !RngFree R}.

Lemma keeps_np_random_seed s : keeps R (np_random_seed s).
Proof. intros p. apply rng_free. Qed.

Lemma keeps_np_random_array k rows cols : keeps R (np_random_array k rows cols).
Proof.
  unfold np_random_array. keeps_auto. intros p. apply rng_free.
Qed.

Lemma keeps_np_random_rand : keeps R np_random_rand.
Proof.
  unfold np_random_rand. keeps_auto. intros p. apply rng_free.
Qed.

Lemma keeps_jittered base : keeps R (jittered base).
Proof. unfold jittered. keeps_auto. apply keeps_np_random_rand. Qed.

Lemma keeps_targeted_changes idx th rows cols rs cs d :
  keeps R (targeted_changes idx th rows cols rs cs d).
Proof.
  revert d. induction idx as [|i rest IH]; intros d; simpl.
  - keeps_auto.
  - keeps_auto; [apply keeps_np_random_rand | apply IH].
Qed.

Lemma keeps_json_dump j path : keeps R (json_dump j path).
Proof. apply keeps_write_file; assumption. Qed.

Lemma keeps_np_savez_compressed path arrays : keeps R (np_savez_compressed path arrays).
Proof. apply keeps_write_file; assumption. Qed.

Lemma keeps_hash_artifacts out names acc : keeps R (hash_artifacts out names acc).
Proof.
  revert acc. induction names as [|n rest IH]; intros acc; simpl.
  - keeps_auto.
  - keeps_auto; [apply keeps_os_path_isfile | apply keeps_sha256_of_file | apply IH | apply IH];
      assumption.
Qed.

Lemma keeps_check_model request : keeps R (check_model request).
Proof. unfold check_model. keeps_auto. apply keeps_load_file; assumption. Qed.

Lemma keeps_embedding_scrub request out h s : keeps R (embedding_scrub request out h s).
Proof.
  unfold embedding_scrub. keeps_auto;
    eauto using keeps_np_random_array, keeps_np_random_seed, keeps_targeted_changes,
      keeps_np_savez_compressed, keeps_jittered, keeps_os_path_abspath, keeps_json_dump.
Qed.

Lemma keeps_last_layer_surgery request out h s :
  keeps R (last_layer_surgery request out h s).
Proof.
  unfold last_layer_surgery. keeps_auto;
    eauto using keeps_np_random_array, keeps_np_random_seed, keeps_targeted_changes,
      keeps_np_savez_compressed, keeps_jittered, keeps_os_path_abspath, keeps_json_dump.
Qed.

Section OneJob.
Context (job_id : string) `{!ProgressFree R job_id}.

Lemma keeps_update_job_quiet f :
  (forall j, job_state (f j) = job_state j) -> keeps R (update_job job_id f).
Proof.
  intros Hf p. unfold update_job. rewrite bind_unfold. simpl.
  destruct (jobs p !! job_id) as [j|] eqn:Hj; simpl; [| reflexivity].
  apply progress_free; auto.
Qed.

Lemma keeps_set_progress pct msg : keeps R (set_progress job_id pct msg).
Proof. apply keeps_update_job_quiet. reflexivity. Qed.

Lemma keeps_set_result r : keeps R (set_result job_id r).
Proof. apply keeps_update_job_quiet. reflexivity. Qed.

Lemma keeps_set_error msg : keeps R (set_error job_id msg).
Proof. apply keeps_update_job_quiet. reflexivity. Qed.

Lemma keeps_prepare timestamp request : keeps R (prepare timestamp job_id request).
Proof.
  unfold prepare. keeps_auto;
    eauto using keeps_check_model, keeps_os_makedirs, keeps_np_random_seed,
      keeps_set_progress.
Qed.

Lemma keeps_run_method request out h s : keeps R (run_method job_id request out h s).
Proof.
  unfold run_method. keeps_auto;
    eauto using keeps_embedding_scrub, keeps_last_layer_surgery, keeps_set_progress.
Qed.

Lemma keeps_write_integrity l : keeps R (write_integrity job_id l).
Proof.
  unfold write_integrity. keeps_auto;
    eauto using keeps_os_listdir, keeps_hash_artifacts, keeps_json_dump,
      keeps_set_progress.
Qed.

(** The part of the last stretch that comes before the state is set. *)
Lemma keeps_manifest_step request l :
  keeps R (manifest ←
             (if Text.endswith ".safetensors" (model_path request) then
                injection_result ←
                  inject_weights_into_model (model_path request) (adapter_path l);
                mret (assoc_set "weight_injection" (injection_json injection_result)
                        (manifest l))
              else mret (manifest l));
           json_dump (JDict manifest) (Text.path_join (output_path l) "manifest.json");;
           set_progress job_id 100 "Unlearning completed successfully").
Proof.
  keeps_auto;
    eauto using keeps_inject_weights_into_model, keeps_json_dump, keeps_set_progress.
Qed.

End OneJob.

Section OwnJob.
Context (job_id : string) `{!OwnJobFree R job_id}.

Lemma keeps_update_job f : keeps R (update_job job_id f).
Proof.
  intros p. unfold update_job. rewrite bind_unfold. simpl.
  destruct (jobs p !! job_id) eqn:Hj; simpl; [by apply own_job_free | reflexivity].
Qed.

Lemma keeps_stretch timestamp request fr :
  keeps R (stretch timestamp job_id request fr).
Proof.
  unfold stretch, enter, inject_and_finish, set_state.
  keeps_auto;
    eauto using keeps_update_job, keeps_set_progress, keeps_os_path_exists,
      keeps_prepare, keeps_run_method, keeps_write_integrity,
      keeps_inject_weights_into_model, keeps_json_dump, keeps_set_result,
      own_job_free_progress_free.
Qed.

Lemma keeps_on_exception e : keeps R (on_exception job_id e).
Proof.
  unfold on_exception, set_state, set_error.
  keeps_auto;
    eauto using keeps_update_job, keeps_set_progress, own_job_free_progress_free.
Qed.

Lemma keeps_resume timestamp request fr :
  keeps R (resume timestamp job_id request fr).
Proof.
  apply keeps_try_except; [done | apply keeps_stretch | apply keeps_on_exception].
Qed.

Lemma keeps_run_stretches n timestamp request fr :
  keeps R (run_stretches n timestamp job_id request fr).
Proof.
  revert fr. induction n as [|n IH]; intros fr; simpl.
  - keeps_auto.
  - keeps_auto; [apply keeps_resume | apply IH].
Qed.

End OwnJob.

End KeepsPipeline.

(** * The start operation *)

(** A stored file is there. *)
Lemma path_exists_file (fs : gmap string blob) path :
  is_Some (fs !! path) -> path_exists fs path = true.
Proof. intros H. unfold path_exists. by rewrite bool_decide_eq_true_2. Qed.

Lemma start_unlearning_cases request now_ms rnd p :
  start_unlearning request now_ms rnd p =
    if negb (path_exists (files p) (model_path request)) then
      (p, Raise (HTTPException 400 ("Model path does not exist: " +:+ model_path request)))
    else if negb (bool_decide (method request ∈ recognized_methods)) then
      (p, Raise (HTTPException 400 ("Invalid method: " +:+ method request)))
    else
      (with_tasks (tasks p ++ [{| task_job_id := make_job_id now_ms rnd;
                                  task_request := request; task_frame := at_entry |}])
         (with_jobs (<[make_job_id now_ms rnd := queued_job request]> (jobs p)) p),
       Return (make_job_id now_ms rnd)).
Proof.
  unfold start_unlearning. rewrite bind_unfold. simpl.
  destruct (path_exists (files p) (model_path request)); simpl; [| reflexivity].
  destruct (bool_decide (method request ∈ recognized_methods)); reflexivity.
Qed.

(** C8. [start_unlearning] answers 400 exactly when the model path does
    not exist, as a file or as a directory, or the method is not one of
    the two recognized ones; a rejected request leaves the process as it
    was, with no job record added; a valid request returns the new job id
    with a record stored in state queued, and the pipeline has only been
    scheduled: its task is still at its entry and the files are
    untouched. *)
Theorem start_unlearning_validates request now_ms rnd p :
  let out := start_unlearning request now_ms rnd p in
  let job_id := make_job_id now_ms rnd in
  let missing := path_exists (files p) (model_path request) = false in
  ((exists detail, out.2 = Raise (HTTPException 400 detail)) <->
     (missing \/ method request ∉ recognized_methods))
  /\ ((missing \/ method request ∉ recognized_methods) -> out.1 = p)
  /\ (~ missing -> method request ∈ recognized_methods ->
      out.2 = Return job_id
      /\ jobs out.1 !! job_id = Some (queued_job request)
      /\ tasks out.1 = (tasks p ++ [{| task_job_id := job_id; task_request := request;
                                       task_frame := at_entry |}])%list
      /\ files out.1 = files p /\ journal out.1 = journal p).
Proof.
  cbv zeta. rewrite start_unlearning_cases.
  destruct (path_exists (files p) (model_path request)) eqn:Hex;
    simpl; [destruct (bool_decide_reflect (method request ∈ recognized_methods)) as [Hm|Hm];
            simpl |].
  - split; [| split].
    + split; [intros [d [=]] | intros [[=] | H]; tauto].
    + intros [[=] | H]; tauto.
    + intros _ _. repeat split. apply lookup_insert_eq.
  - split; [| split]; [split; eauto | intros [[=] | H]; tauto | tauto].
  - split; [| split]; [split; [tauto | eauto] | tauto | intros H; by destruct H].
Qed.

(** * Dicts in insertion order *)

Section Assoc.
Context {A : Type}.
Implicit Types (d l : list (string * A)) (k : string) (v : A).

Lemma assoc_set_eq k v d : assoc k (assoc_set k v d) = Some v.
Proof.
  induction d as [|[k' x] d IH]; simpl.
  - by rewrite String.eqb_refl.
  - destruct (String.eqb k' k) eqn:E; simpl; rewrite E; [done | exact IH].
Qed.

Lemma assoc_set_ne k k' v d : k <> k' -> assoc k' (assoc_set k v d) = assoc k' d.
Proof.
  intros Hne. induction d as [|[k0 x] d IH]; simpl.
  - destruct (String.eqb_spec k k'); [contradiction | done].
  - destruct (String.eqb_spec k0 k) as [->|Hk]; simpl.
    + destruct (String.eqb_spec k k'); [contradiction | done].
    + destruct (String.eqb k0 k'); [done | exact IH].
Qed.

Lemma assoc_set_lookup k k' v d :
  assoc k' (assoc_set k v d) = if String.eqb k k' then Some v else assoc k' d.
Proof.
  destruct (String.eqb_spec k k') as [->|Hne].
  - apply assoc_set_eq.
  - by apply assoc_set_ne.
Qed.

Lemma assoc_app k l1 l2 :
  assoc k (l1 ++ l2) = match assoc k l1 with Some v => Some v | None => assoc k l2 end.
Proof.
  induction l1 as [|[k' x] l1 IH]; simpl; [done |].
  destruct (String.eqb k' k); [done | exact IH].
Qed.

Lemma assoc_None_keys k d : assoc k d = None <-> k ∉ map fst d.
Proof.
  induction d as [|[k' x] d IH]; simpl.
  - split; [intros _; apply not_elem_of_nil | done].
  - rewrite not_elem_of_cons. destruct (String.eqb_spec k' k) as [->|Hne].
    + split; [discriminate | intros [? _]; congruence].
    + rewrite IH. split; [intros ?; split; [congruence | done] | tauto].
Qed.

Lemma keys_assoc_set k v d :
  map fst (assoc_set k v d) =
    if bool_decide (k ∈ map fst d) then map fst d else (map fst d ++ [k])%list.
Proof.
  induction d as [|[k' x] d IH]; cbn [assoc_set map fst].
  - rewrite bool_decide_eq_false_2; [done | apply not_elem_of_nil].
  - destruct (String.eqb_spec k' k) as [->|Hne]; cbn [assoc_set map fst].
    + rewrite bool_decide_eq_true_2; [done | apply list_elem_of_here].
    + rewrite IH. destruct (bool_decide_reflect (k ∈ map fst d)) as [Hin|Hin].
      * rewrite bool_decide_eq_true_2; [done | by apply list_elem_of_further].
      * rewrite bool_decide_eq_false_2; [done |].
        rewrite not_elem_of_cons. split; [congruence | done].
Qed.

Lemma NoDup_keys_assoc_set k v d :
  NoDup (map fst d) -> NoDup (map fst (assoc_set k v d)).
Proof.
  intros Hd. rewrite keys_assoc_set.
  destruct (bool_decide_reflect (k ∈ map fst d)) as [Hin|Hin]; [done |].
  apply NoDup_app. split; [done |]. split; [| apply NoDup_singleton].
  intros x Hx Hx'. apply list_elem_of_singleton in Hx'. subst. contradiction.
Qed.

(** With each key once, the first and the last pair of a key are the
    same pair. *)
Lemma assoc_rev_NoDup k l : NoDup (map fst l) -> assoc k (rev l) = assoc k l.
Proof.
  induction l as [|[k' x] l IH]; simpl; [done |].
  intros Hnd. apply NoDup_cons in Hnd as [Hnotin Hnd].
  rewrite assoc_app, IH by done. simpl.
  destruct (String.eqb_spec k' k) as [->|Hne].
  - apply assoc_None_keys in Hnotin. by rewrite Hnotin.
  - by destruct (assoc k l).
Qed.

Lemma assoc_fold_assoc_set k l d :
  assoc k (fold_left (fun d kv => assoc_set (fst kv) (snd kv) d) l d) =
    match assoc k (rev l) with Some v => Some v | None => assoc k d end.
Proof.
  revert d. induction l as [|[k' x] l IH]; intros d; simpl; [done |].
  rewrite IH, assoc_app. destruct (assoc k (rev l)); [done |]. simpl.
  rewrite assoc_set_lookup. by destruct (String.eqb k' k).
Qed.

Lemma NoDup_keys_fold l d :
  NoDup (map fst d) ->
  NoDup (map fst (fold_left (fun d kv => assoc_set (fst kv) (snd kv) d) l d)).
Proof.
  revert d. induction l as [|kv l IH]; intros d Hd; simpl; [done |].
  apply IH. by apply NoDup_keys_assoc_set.
Qed.

Lemma NoDup_keys_dict_of l : NoDup (map fst (dict_of l)).
Proof. apply NoDup_keys_fold. apply NoDup_nil_2. Qed.

Lemma assoc_dict_of k l : assoc k (dict_of l) = assoc k (rev l).
Proof.
  unfold dict_of. rewrite assoc_fold_assoc_set. by destruct (assoc k (rev l)).
Qed.

(** A dict read back as a dict is itself, key by key. *)
Lemma assoc_dict_of_NoDup k l : NoDup (map fst l) -> assoc k (dict_of l) = assoc k l.
Proof. intros H. rewrite assoc_dict_of. by apply assoc_rev_NoDup. Qed.

End Assoc.

(** * Paths next to the checkpoint *)

Lemma append_empty_r (s : string) : s +:+ "" = s.
Proof.
  induction s as [|c s IH]; [done |].
  change (String c (s +:+ "") = String c s). by rewrite IH.
Qed.

Lemma append_suffix_ne (s t : string) : t <> "" -> s +:+ t <> s.
Proof.
  intros Ht H. rewrite <- (append_empty_r s) in H at 2.
  apply (inj (String.append s)) in H. contradiction.
Qed.

Lemma backup_ne_path (mp : string) : mp +:+ ".backup" <> mp.
Proof. by apply append_suffix_ne. Qed.

Lemma temp_ne_path (mp : string) : mp +:+ ".temp" <> mp.
Proof. by apply append_suffix_ne. Qed.

Lemma temp_ne_backup (mp : string) : mp +:+ ".temp" <> mp +:+ ".backup".
Proof. intros H. apply (inj (String.append mp)) in H. discriminate. Qed.

(** * What the file-system calls do *)

Lemma mret_run {A} (a : A) (p : Process) : (mret a : io A) p = (p, Return a).
Proof. reflexivity. Qed.

(** Run the calls at the head of a computation applied to a process. *)
Ltac io_run := repeat (first [rewrite bind_unfold | rewrite mret_run]; simpl).

Lemma read_file_run path p :
  read_file path p =
    (p, match files p !! path with
        | None => Raise (FileNotFoundError path)
        | Some b => match fault p (op_read path) with
                    | Allowed => Return b
                    | _ => Raise (OSError (op_read path))
                    end
        end).
Proof.
  unfold read_file. rewrite bind_unfold. simpl.
  destruct (files p !! path); [| done].
  rewrite bind_unfold. simpl. by destruct (fault p (op_read path)).
Qed.

Lemma load_file_return path p p' tensors :
  load_file path p = (p', Return tensors) ->
  p' = p /\ files p !! path = Some (BSafetensors tensors).
Proof.
  unfold load_file. rewrite bind_unfold, read_file_run.
  destruct (files p !! path) as [b|]; [| discriminate].
  destruct (fault p (op_read path)); try discriminate.
  destruct b; simpl; try discriminate. by intros [= -> ->].
Qed.

Lemma np_load_return path p p' arrays :
  np_load path p = (p', Return arrays) ->
  p' = p /\ files p !! path = Some (BNpz arrays).
Proof.
  unfold np_load. rewrite bind_unfold, read_file_run.
  destruct (files p !! path) as [b|]; [| discriminate].
  destruct (fault p (op_read path)); try discriminate.
  destruct b; simpl; try discriminate. by intros [= -> ->].
Qed.

Lemma write_file_run path content p :
  write_file path content p =
    match fault p (op_write path) with
    | Allowed => (with_files (<[path := content]> (files p))
                    (journal p ++ [(op_write path, files p)]) p, Return tt)
    | Torn => (with_files (<[path := BPartial content]> (files p))
                 (journal p ++ [(op_write path, files p)]) p, Raise (OSError (op_write path)))
    | Refused => (p, Raise (OSError (op_write path)))
    end.
Proof.
  unfold write_file. io_run. destruct (fault p (op_write path)); reflexivity.
Qed.

Lemma shutil_copy2_run src dst p :
  shutil_copy2 src dst p =
    match files p !! src with
    | None => (p, Raise (FileNotFoundError src))
    | Some b =>
        match fault p (op_copy src dst) with
        | Allowed => (with_files (<[dst := b]> (files p))
                        (journal p ++ [(op_copy src dst, files p)]) p, Return tt)
        | Torn => (with_files (<[dst := BPartial b]> (files p))
                     (journal p ++ [(op_copy src dst, files p)]) p,
                   Raise (OSError (op_copy src dst)))
        | Refused => (p, Raise (OSError (op_copy src dst)))
        end
    end.
Proof.
  unfold shutil_copy2. rewrite bind_unfold. simpl.
  destruct (files p !! src); [| done].
  rewrite bind_unfold. simpl. by destruct (fault p (op_copy src dst)).
Qed.

Lemma os_replace_run src dst p :
  os_replace src dst p =
    match files p !! src with
    | None => (p, Raise (FileNotFoundError src))
    | Some b =>
        match fault p (op_replace src dst) with
        | Allowed => (with_files (<[dst := b]> (delete src (files p)))
                        (journal p ++ [(op_replace src dst, files p)]) p, Return tt)
        | _ => (p, Raise (OSError (op_replace src dst)))
        end
    end.
Proof.
  unfold os_replace. rewrite bind_unfold. simpl.
  destruct (files p !! src); [| done].
  rewrite bind_unfold. simpl. by destruct (fault p (op_replace src dst)).
Qed.

Lemma os_rename_run src dst p :
  os_rename src dst p =
    match files p !! src with
    | None => (p, Raise (FileNotFoundError src))
    | Some b =>
        if String.eqb (os_name (host p)) "nt" && bool_decide (is_Some (files p !! dst))
        then (p, Raise (FileExistsError dst))
        else match fault p (op_rename src dst) with
             | Allowed => (with_files (<[dst := b]> (delete src (files p)))
                             (journal p ++ [(op_rename src dst, files p)]) p, Return tt)
             | _ => (p, Raise (OSError (op_rename src dst)))
             end
    end.
Proof.
  unfold os_rename. io_run.
  destruct (files p !! src); [| done].
  destruct (String.eqb (os_name (host p)) "nt" && bool_decide (is_Some (files p !! dst)));
    [done |].
  io_run. by destruct (fault p (op_rename src dst)).
Qed.

Lemma os_remove_run path p :
  os_remove path p =
    match files p !! path with
    | None => (p, Raise (FileNotFoundError path))
    | Some _ =>
        match fault p (op_remove path) with
        | Allowed => (with_files (delete path (files p))
                        (journal p ++ [(op_remove path, files p)]) p, Return tt)
        | _ => (p, Raise (OSError (op_remove path)))
        end
    end.
Proof.
  unfold os_remove. rewrite bind_unfold. simpl.
  destruct (files p !! path); [| done].
  rewrite bind_unfold. simpl. by destruct (fault p (op_remove path)).
Qed.

Lemma MoveFileExW_run src dst p :
  MoveFileExW src dst p =
    match files p !! src, fault p (op_move_file_ex src dst) with
    | Some b, Allowed =>
        (with_files (<[dst := b]> (delete src (files p)))
           (journal p ++ [(op_move_file_ex src dst, files p)]) p, Return true)
    | _, _ => (p, Return false)
    end.
Proof.
  unfold MoveFileExW. io_run.
  destruct (files p !! src); [| done].
  destruct (fault p (op_move_file_ex src dst)); reflexivity.
Qed.

Lemma os_path_exists_run path p :
  os_path_exists path p = (p, Return (path_exists (files p) path)).
Proof. reflexivity. Qed.

(** * The parts of the process that no call changes *)

#[global] Instance same_plan_preorder : PreOrder same_plan.
Proof.
  split.
  - intros p. done.
  - intros p1 p2 p3 (? & ? & ?) (? & ? & ?). unfold same_plan. split_and!; congruence.
Qed.
#[global] Instance same_plan_files_free : FilesFree same_plan.
Proof. intros p fs log. done. Qed.
#[global] Instance same_plan_rng_free : RngFree same_plan.
Proof. intros p g. done. Qed.
#[global] Instance same_plan_jobs_free : JobsFree same_plan.
Proof. intros p js. done. Qed.

(** * The checkpoint injector *)

Lemma inject_body_returns mp dp p p' r :
  inject_body mp dp p = (p', Return r) ->
  exists injected total modified, r = injection_ok injected total modified (mp +:+ ".backup").
Proof.
  unfold inject_body. intros H.
  repeat (apply bind_return_inv in H as (? & ? & _ & H)).
  injection H as _ <-. eauto.
Qed.

(** C5, as amended. [inject_weights_into_model] returns on every input and
    never raises: either the success result, with its counts and the
    path of the backup, or the failure result that carries the text of
    the exception raised in its body. After a failure the temporary file
    is gone, unless the operating system refused to remove it: that
    refusal is swallowed and the file stays. *)
Theorem inject_weights_into_model_total mp dp p :
  let out := inject_weights_into_model mp dp p in
  let temp_path := mp +:+ ".temp" in
  (exists injected total modified,
      out.2 = Return (injection_ok injected total modified (mp +:+ ".backup")))
  \/ (exists e,
        (inject_body mp dp p).2 = Raise e
        /\ out.2 = Return (injection_failed (str_exn e))
        /\ (files out.1 !! temp_path = None \/ fault p (op_remove temp_path) <> Allowed)).
Proof.
  cbv zeta. unfold inject_weights_into_model, try_except.
  pose proof (keeps_inject_weights_into_model same_plan mp dp p) as Hplan.
  unfold inject_weights_into_model, try_except in Hplan.
  destruct (inject_body mp dp p) as [p1 [r|e]] eqn:Hbody.
  - left. apply inject_body_returns in Hbody as (i & t & m & ->). eauto.
  - right. exists e. split; [done |].
    unfold inject_cleanup in *. revert Hplan. io_run.
    destruct (files p1 !! (mp +:+ ".temp")) as [b|] eqn:Hb.
    + rewrite (path_exists_file _ _ (mk_is_Some _ _ Hb)).
      unfold try_except. rewrite os_remove_run, Hb.
      destruct (fault p1 (op_remove (mp +:+ ".temp"))) eqn:Hf; simpl; intros Hplan.
      * split; [done |]. left. apply lookup_delete_eq.
      * split; [done |]. right. destruct Hplan as (<- & _). by rewrite Hf.
      * split; [done |]. right. destruct Hplan as (<- & _). by rewrite Hf.
    + destruct (path_exists (files p1) (mp +:+ ".temp"));
        [unfold try_except; rewrite os_remove_run, Hb |]; simpl; intros _;
        (split; [done | by left]).
Qed.

#[global] Instance backed_preorder mp c0 : PreOrder (backed mp c0).
Proof.
  split.
  - intros p Hb. split; [done |]. exists []. by rewrite app_nil_r.
  - intros p1 p2 p3 H12 H23 Hb.
    destruct (H12 Hb) as (Hb2 & a1 & E1 & Ha1).
    destruct (H23 Hb2) as (Hb3 & a2 & E2 & Ha2).
    split; [done |]. exists (a1 ++ a2)%list.
    split; [by rewrite E2, E1, app_assoc | by apply Forall_app].
Qed.

Section Backed.
Context (mp : string) (c0 : option blob).
Local Abbreviation backup := (mp +:+ ".backup").

(** A single change that leaves the backup alone. *)
Lemma backed_commit p op fs' :
  fs' !! backup = files p !! backup ->
  backed mp c0 p (with_files fs' (journal p ++ [(op, files p)]) p).
Proof.
  intros Hfs Hb. simpl. split; [by rewrite Hfs |].
  exists [(op, files p)]. split; [done |]. by apply Forall_singleton.
Qed.

Lemma backed_write_file path content :
  path <> backup -> keeps (backed mp c0) (write_file path content).
Proof.
  intros Hne p. rewrite write_file_run.
  destruct (fault p (op_write path)); simpl;
    [apply backed_commit; by rewrite lookup_insert_ne
    | reflexivity
    | apply backed_commit; by rewrite lookup_insert_ne].
Qed.

Lemma backed_os_replace src dst :
  src <> backup -> dst <> backup -> keeps (backed mp c0) (os_replace src dst).
Proof.
  intros Hs Hd p. rewrite os_replace_run.
  destruct (files p !! src); [| reflexivity].
  destruct (fault p (op_replace src dst)); simpl; try reflexivity.
  apply backed_commit. by rewrite lookup_insert_ne, lookup_delete_ne.
Qed.

Lemma backed_os_rename src dst :
  src <> backup -> dst <> backup -> keeps (backed mp c0) (os_rename src dst).
Proof.
  intros Hs Hd p. rewrite os_rename_run.
  destruct (files p !! src); [| reflexivity].
  destruct (_ && _); [reflexivity |].
  destruct (fault p (op_rename src dst)); simpl; try reflexivity.
  apply backed_commit. by rewrite lookup_insert_ne, lookup_delete_ne.
Qed.

Lemma backed_MoveFileExW src dst :
  src <> backup -> dst <> backup -> keeps (backed mp c0) (MoveFileExW src dst).
Proof.
  intros Hs Hd p. rewrite MoveFileExW_run.
  destruct (files p !! src); [| reflexivity].
  destruct (fault p (op_move_file_ex src dst)); simpl; try reflexivity.
  apply backed_commit. by rewrite lookup_insert_ne, lookup_delete_ne.
Qed.

Lemma backed_os_remove path :
  path <> backup -> keeps (backed mp c0) (os_remove path).
Proof.
  intros Hne p. rewrite os_remove_run.
  destruct (files p !! path); [| reflexivity].
  destruct (fault p (op_remove path)); simpl; try reflexivity.
  apply backed_commit. by rewrite lookup_delete_ne.
Qed.

Lemma backed_replace_checkpoint :
  keeps (backed mp c0) (replace_checkpoint (mp +:+ ".temp") mp).
Proof.
  pose proof (temp_ne_backup mp). pose proof (backup_ne_path mp).
  unfold replace_checkpoint, atomic_move. keeps_auto;
    first [ apply backed_MoveFileExW | apply backed_os_replace
          | apply backed_os_remove | apply backed_os_rename ]; done.
Qed.

Lemma backed_inject_cleanup e : keeps (backed mp c0) (inject_cleanup mp e).
Proof.
  pose proof (temp_ne_backup mp).
  unfold inject_cleanup. keeps_auto;
    first [ apply keeps_os_path_exists; apply _ | apply backed_os_remove; done ].
Qed.

End Backed.

(** Calls that only read leave the process as it is. *)
Lemma unchanged {A} (m : io A) p p' r : keeps eq m -> m p = (p', r) -> p' = p.
Proof. intros H E. specialize (H p). rewrite E in H. done. Qed.

(** The loop copies every tensor that has no entry in the delta. *)
Lemma inject_loop_passthrough items diff acc p p' acc' :
  inject_loop items diff acc p = (p', Return acc') ->
  NoDup (map fst (modified_state_dict acc)) ->
  NoDup (map fst (modified_state_dict acc'))
  /\ forall name, assoc name diff = None ->
       assoc name (modified_state_dict acc') =
         match assoc name (rev items) with
         | Some t => Some t
         | None => assoc name (modified_state_dict acc)
         end.
Proof.
  revert acc p. induction items as [|[n t] rest IH]; intros acc p; simpl.
  - intros [= <- <-] Hnd. done.
  - intros H Hnd. apply bind_return_inv in H as (acc1 & p1 & Hstep & H).
    assert (NoDup (map fst (modified_state_dict acc1))
            /\ forall name, assoc name diff = None ->
                 assoc name (modified_state_dict acc1) =
                   if String.eqb n name then Some t
                   else assoc name (modified_state_dict acc)) as [Hnd1 Hpass1].
    { destruct (assoc n diff) as [d|] eqn:Hd.
      - apply bind_return_inv in Hstep as (t' & p0 & _ & Hstep).
        injection Hstep as _ <-. simpl. split; [by apply NoDup_keys_assoc_set |].
        intros name Hname. rewrite assoc_set_lookup.
        destruct (String.eqb_spec n name) as [->|]; [congruence | done].
      - injection Hstep as _ <-. simpl. split; [by apply NoDup_keys_assoc_set |].
        intros name _. apply assoc_set_lookup. }
    apply IH in H as [Hnd' Hpass]; [| done]. split; [done |].
    intros name Hname. rewrite (Hpass name Hname), assoc_app. simpl.
    destruct (assoc name (rev rest)); [done |].
    rewrite (Hpass1 name Hname). by destruct (String.eqb n name).
Qed.

(** When the replacement succeeds, the checkpoint holds what the temporary
    file held and no other file but these two has changed. *)
Lemma replace_checkpoint_ok temp mp p p' c :
  replace_checkpoint temp mp p = (p', Return tt) ->
  temp <> mp ->
  files p !! temp = Some c ->
  files p' !! mp = Some c
  /\ forall q, q <> mp -> q <> temp -> files p' !! q = files p !! q.
Proof.
  intros H Hne Hc.
  assert (forall b p0, files p0 !! temp = Some b ->
            os_replace temp mp p0 = (p', Return tt) ->
            files p' !! mp = Some b
            /\ forall q, q <> mp -> q <> temp -> files p' !! q = files p0 !! q) as Hrep.
  { intros b p0 Hb. rewrite os_replace_run, Hb.
    destruct (fault p0 (op_replace temp mp)); intros [= <-]; simpl.
    split; [apply lookup_insert_eq |].
    intros q ? ?. by rewrite lookup_insert_ne, lookup_delete_ne. }
  assert (forall p0, files p0 !! temp = Some c ->
            (os_remove mp;; os_rename temp mp) p0 = (p', Return tt) ->
            files p' !! mp = Some c
            /\ forall q, q <> mp -> q <> temp -> files p' !! q = files p0 !! q) as Hfall.
  { intros p0 Hb. rewrite bind_unfold, os_remove_run.
    destruct (files p0 !! mp); [| discriminate].
    destruct (fault p0 (op_remove mp)); try discriminate.
    rewrite os_rename_run. simpl. rewrite lookup_delete_ne, Hb by done.
    destruct (_ && _); [discriminate |].
    destruct (fault p0 (op_rename temp mp)); intros [= <-]; simpl.
    split; [apply lookup_insert_eq |].
    intros q ? ?. by rewrite lookup_insert_ne, !lookup_delete_ne. }
  revert H. unfold replace_checkpoint, try_except, atomic_move. io_run.
  destruct (String.eqb (os_name (host p)) "nt").
  - rewrite bind_unfold, MoveFileExW_run, Hc.
    destruct (fault p (op_move_file_ex temp mp)) eqn:Hf; simpl.
    + intros [= <-]. simpl. split; [apply lookup_insert_eq |].
      intros q ? ?. by rewrite lookup_insert_ne, lookup_delete_ne.
    + destruct (os_replace temp mp p) as [p1 [[]|e]] eqn:Hr.
      * intros [= <-]. eauto.
      * assert (p1 = p) as ->.
        { revert Hr. rewrite os_replace_run, Hc.
          destruct (fault p (op_replace temp mp)); by intros [= <-]. }
        destruct ((os_remove mp;; os_rename temp mp) p) as [p2 [[]|e2]] eqn:Hfb;
          [intros [= <-]; eauto | discriminate].
    + destruct (os_replace temp mp p) as [p1 [[]|e]] eqn:Hr.
      * intros [= <-]. eauto.
      * assert (p1 = p) as ->.
        { revert Hr. rewrite os_replace_run, Hc.
          destruct (fault p (op_replace temp mp)); by intros [= <-]. }
        destruct ((os_remove mp;; os_rename temp mp) p) as [p2 [[]|e2]] eqn:Hfb;
          [intros [= <-]; eauto | discriminate].
  - destruct (os_replace temp mp p) as [p1 [[]|e]] eqn:Hr.
    + intros [= <-]. eauto.
    + assert (p1 = p) as ->.
      { revert Hr. rewrite os_replace_run, Hc.
        destruct (fault p (op_replace temp mp)); by intros [= <-]. }
      destruct ((os_remove mp;; os_rename temp mp) p) as [p2 [[]|e2]] eqn:Hfb;
        [intros [= <-]; eauto | discriminate].
Qed.

(** A successful injection, read off the files before and after. *)
Lemma inject_success mp dp p p' injected total modified backup_path :
  inject_weights_into_model mp dp p
    = (p', Return (injection_ok injected total modified backup_path)) ->
  exists orig delta new,
    backup_path = mp +:+ ".backup"
    /\ files p !! mp = Some (BSafetensors orig)
    /\ files p !! dp = Some (BNpz delta)
    /\ files p' !! (mp +:+ ".backup") = Some (BSafetensors orig)
    /\ files p' !! mp = Some (BSafetensors new)
    /\ forall name, assoc name (dict_of delta) = None ->
         assoc name (dict_of new) = assoc name (dict_of orig).
Proof.
  unfold inject_weights_into_model, try_except.
  destruct (inject_body mp dp p) as [p1 [r|e]] eqn:Hbody.
  - intros [= -> ->]. unfold inject_body in Hbody.
    apply bind_return_inv in Hbody as (orig & p2 & Hload & Hbody).
    apply load_file_return in Hload as [-> Horig].
    apply bind_return_inv in Hbody as (delta & p2 & Hdelta & Hbody).
    apply np_load_return in Hdelta as [-> Hdelta].
    apply bind_return_inv in Hbody as (acc & p2 & Hloop & Hbody).
    pose proof (unchanged _ _ _ _ (keeps_inject_loop eq _ _ _) Hloop) as ->.
    apply inject_loop_passthrough in Hloop as [Hnd Hpass]; [| apply NoDup_nil_2].
    apply bind_return_inv in Hbody as ([] & p2 & Hcopy & Hbody).
    rewrite shutil_copy2_run, Horig in Hcopy.
    destruct (fault p (op_copy mp (mp +:+ ".backup"))); try discriminate.
    injection Hcopy as <-.
    apply bind_return_inv in Hbody as ([] & p3 & Hsave & Hbody).
    unfold save_file in Hsave. rewrite write_file_run in Hsave. simpl in Hsave.
    destruct (fault p (op_write (mp +:+ ".temp"))); try discriminate.
    injection Hsave as <-.
    apply bind_return_inv in Hbody as ([] & p4 & Hrep & Hbody).
    injection Hbody as -> _ _ _ <-.
    eapply replace_checkpoint_ok in Hrep as [Hnew Hrest];
      [| apply temp_ne_path | simpl; apply lookup_insert_eq].
    exists orig, delta, (modified_state_dict acc). split_and!; try done.
    + rewrite Hrest by (apply backup_ne_path || (apply not_eq_sym, temp_ne_backup)).
      simpl. rewrite lookup_insert_ne by apply temp_ne_backup. apply lookup_insert_eq.
    + intros name Hname. rewrite (assoc_dict_of_NoDup _ _ Hnd), (Hpass name Hname).
      simpl. rewrite assoc_rev_NoDup by apply NoDup_keys_dict_of.
      by destruct (assoc name (dict_of orig)).
  - unfold inject_cleanup. io_run.
    destruct (path_exists _ _); simpl; [| discriminate].
    unfold try_except. destruct (os_remove _ p1) as [? [[]|?]]; discriminate.
Qed.

(** Until the copy has succeeded the injector leaves the checkpoint
    alone; from then on every change it makes finds the backup in place. *)
Lemma inject_journal mp dp p :
  exists added,
    journal (inject_weights_into_model mp dp p).1 = (journal p ++ added)%list
    /\ Forall (fun e => writes_over mp e.1 = true ->
                        is_Some (files p !! mp)
                        /\ e.2 !! (mp +:+ ".backup") = files p !! mp) added.
Proof.
  remember (files p !! mp) as c0 eqn:Hc0.
  assert (String.eqb (mp +:+ ".backup") mp = false) as Hbk
    by (apply String.eqb_neq, backup_ne_path).
  assert (String.eqb (mp +:+ ".temp") mp = false) as Htmp
    by (apply String.eqb_neq, temp_ne_path).
  (* the cleanup only ever removes the temporary file *)
  assert (forall e p1 (P : fs_op * gmap string blob -> Prop),
            (forall pre, P (op_remove (mp +:+ ".temp"), pre)) ->
            exists added, journal (inject_cleanup mp e p1).1 = (journal p1 ++ added)%list
                          /\ Forall P added) as Hclean.
  { intros e p1 P HP. unfold inject_cleanup. io_run.
    destruct (path_exists _ _); simpl; [| exists []; by rewrite app_nil_r].
    unfold try_except. rewrite os_remove_run.
    destruct (files p1 !! _); [| exists []; by rewrite app_nil_r].
    destruct (fault p1 _); simpl; try (exists []; by rewrite app_nil_r).
    eexists [_]. split; [done |]. by apply Forall_singleton. }
  (* failures before any change *)
  assert (forall e,
            exists added, journal (inject_cleanup mp e p).1 = (journal p ++ added)%list
              /\ Forall (fun e => writes_over mp e.1 = true ->
                           is_Some c0 /\ e.2 !! (mp +:+ ".backup") = c0) added) as Hearly.
  { intros e. apply Hclean. intros pre. simpl. rewrite Htmp. discriminate. }
  unfold inject_weights_into_model, try_except, inject_body. rewrite bind_unfold.
  destruct (load_file mp p) as [p1 [orig|e]] eqn:Hload;
    pose proof (unchanged _ _ _ _ (keeps_load_file eq _) Hload) as ->; [| apply Hearly].
  apply load_file_return in Hload as [_ Horig].
  rewrite bind_unfold.
  destruct (np_load dp p) as [p1 [delta|e]] eqn:Hdelta;
    pose proof (unchanged _ _ _ _ (keeps_np_load eq _) Hdelta) as ->; [| apply Hearly].
  cbv zeta. rewrite bind_unfold.
  destruct (inject_loop _ _ _ p) as [p1 [acc|e]] eqn:Hloop;
    pose proof (unchanged _ _ _ _ (keeps_inject_loop eq _ _ _) Hloop) as ->; [| apply Hearly].
  rewrite bind_unfold, shutil_copy2_run, Horig.
  rewrite Horig in Hc0. subst c0.
  destruct (fault p (op_copy mp (mp +:+ ".backup"))) eqn:Hf; [| apply Hearly |].
  - (* the copy succeeded *)
    set (pc := with_files _ _ p).
    set (rest := (save_file _ _ ≫= _)).
    assert (backed mp (Some (BSafetensors orig)) pc
              (match rest pc with
               | (p', Return a) => (p', Return a)
               | (p', Raise e) => inject_cleanup mp e p'
               end).1) as Hb.
    { pose proof (keeps_try_except (backed mp (Some (BSafetensors orig))) rest
                    (inject_cleanup mp)) as Hk.
      apply Hk; [| apply backed_inject_cleanup].
      subst rest. unfold save_file. keeps_auto.
      - apply backed_write_file, temp_ne_backup.
      - apply backed_replace_checkpoint. }
    destruct Hb as (_ & added & Hj & Hall); [apply lookup_insert_eq |].
    exists ((op_copy mp (mp +:+ ".backup"), files p) :: added). split.
    + rewrite Hj. subst pc. simpl. by rewrite <- app_assoc.
    + constructor; [simpl; rewrite Hbk; discriminate |].
      eapply Forall_impl; [exact Hall |]. intros [op pre] Hpre _. simpl in *.
      split; [eauto | done].
  - (* the copy broke half-way *)
    set (pc := with_files _ _ p).
    destruct (Hclean (OSError (op_copy mp (mp +:+ ".backup"))) pc
                (fun e => writes_over mp e.1 = true ->
                          is_Some (Some (BSafetensors orig))
                          /\ e.2 !! (mp +:+ ".backup") = Some (BSafetensors orig)))
      as (added & Hj & Hall).
    { intros pre. simpl. rewrite Htmp. discriminate. }
    exists ((op_copy mp (mp +:+ ".backup"), files p) :: added). split.
    + simpl. rewrite Hj. subst pc. simpl. by rewrite <- app_assoc.
    + constructor; [simpl; rewrite Hbk; discriminate | done].
Qed.

(** C4. Whatever [inject_weights_into_model] does to the checkpoint file
    (replacing it, moving a file onto it, removing it), it does with a
    copy of the original content already stored at [<path>.backup]; and
    when the run succeeds, the backup still holds that original content
    and the new checkpoint holds, under every tensor name that the delta
    does not have, the tensor that the original held: the two differ at
    names of the delta only. *)
Theorem injection_backup_safety mp dp p :
  let out := inject_weights_into_model mp dp p in
  let backup_path := mp +:+ ".backup" in
  (exists added,
      journal out.1 = (journal p ++ added)%list
      /\ forall op pre, (op, pre) ∈ added -> writes_over mp op = true ->
           is_Some (files p !! mp) /\ pre !! backup_path = files p !! mp)
  /\ (forall injected total modified bk,
        out.2 = Return (injection_ok injected total modified bk) ->
        bk = backup_path
        /\ files out.1 !! backup_path = files p !! mp
        /\ exists orig delta new,
             files p !! mp = Some (BSafetensors orig)
             /\ files p !! dp = Some (BNpz delta)
             /\ files out.1 !! mp = Some (BSafetensors new)
             /\ forall name, assoc name (dict_of delta) = None ->
                  assoc name (dict_of new) = assoc name (dict_of orig)).
Proof.
  cbv zeta. split.
  - destruct (inject_journal mp dp p) as (added & Hj & Hall).
    exists added. split; [done |]. intros op pre Hin.
    rewrite Forall_forall in Hall. apply (Hall (op, pre) Hin).
  - intros injected total modified bk Hout.
    destruct (inject_weights_into_model mp dp p) as [p' r] eqn:Hrun. simpl in *. subst r.
    apply inject_success in Hrun
      as (orig & delta & new & -> & Horig & Hdelta & Hbackup & Hnew & Hpass).
    split; [done |]. split; [by rewrite Hbackup, Horig |].
    exists orig, delta, new. done.
Qed.

(** * What the stretches do to the job record *)

Lemma update_job_run job_id f p j :
  jobs p !! job_id = Some j ->
  update_job job_id f p = (with_jobs (<[job_id := f j]> (jobs p)) p, Return tt).
Proof. intros Hj. unfold update_job. io_run. by rewrite Hj. Qed.

Lemma with_jobs_with_jobs js js' p : with_jobs js (with_jobs js' p) = with_jobs js p.
Proof. reflexivity. Qed.

(** Two assignments to fields of the same record, one after the other. *)
Lemma update_job_twice job_id f g p j :
  jobs p !! job_id = Some j ->
  (update_job job_id f;; update_job job_id g) p
    = (with_jobs (<[job_id := g (f j)]> (jobs p)) p, Return tt).
Proof.
  intros Hj. rewrite bind_unfold, (update_job_run _ _ _ _ Hj).
  erewrite update_job_run by (simpl; apply lookup_insert_eq).
  simpl. by rewrite insert_insert_eq.
Qed.

Lemma on_exception_run job_id e p j :
  jobs p !! job_id = Some j ->
  on_exception job_id e p
    = (with_jobs (<[job_id := failed_job e j]> (jobs p)) p, Return finished).
Proof.
  intros Hj. unfold on_exception, set_state, set_error, set_progress.
  rewrite bind_unfold, (update_job_run _ _ _ _ Hj).
  rewrite bind_unfold. erewrite update_job_run by (simpl; apply lookup_insert_eq).
  rewrite bind_unfold. erewrite update_job_run by (simpl; apply lookup_insert_eq).
  simpl. by rewrite !insert_insert_eq.
Qed.

Lemma resume_finished timestamp job_id request p :
  resume timestamp job_id request finished p = (p, Return finished).
Proof. reflexivity. Qed.

Lemma run_stretches_finished n timestamp job_id request p :
  run_stretches n timestamp job_id request finished p = (p, Return finished).
Proof.
  induction n as [|n IH]; simpl; [done |].
  by rewrite bind_unfold, resume_finished.
Qed.

(** A stretch that raises ends the job in state error. *)
Lemma resume_raise timestamp job_id request fr p p1 e j :
  stretch timestamp job_id request fr p = (p1, Raise e) ->
  jobs p1 !! job_id = Some j ->
  resume timestamp job_id request fr p
    = (with_jobs (<[job_id := failed_job e j]> (jobs p1)) p1, Return finished).
Proof.
  intros Hs Hj. unfold resume, try_except. rewrite Hs. by apply on_exception_run.
Qed.

Lemma resume_return timestamp job_id request fr p p1 fr' :
  stretch timestamp job_id request fr p = (p1, Return fr') ->
  resume timestamp job_id request fr p = (p1, Return fr').
Proof. intros Hs. unfold resume, try_except. by rewrite Hs. Qed.

(** [load_file] looks at the files and at the fault plan only. *)
Lemma load_file_run path p :
  load_file path p =
    (p, match files p !! path with
        | None => Raise (FileNotFoundError path)
        | Some b =>
            match fault p (op_read path) with
            | Allowed => match b with
                         | BSafetensors tensors => Return tensors
                         | _ => Raise (SafetensorError path)
                         end
            | _ => Raise (OSError (op_read path))
            end
        end).
Proof.
  unfold load_file. rewrite bind_unfold, read_file_run.
  destruct (files p !! path) as [b|]; [| done].
  destruct (fault p (op_read path)); try done. by destruct b.
Qed.

Lemma load_file_with_jobs path js p :
  (load_file path (with_jobs js p)).2 = (load_file path p).2.
Proof. by rewrite !load_file_run. Qed.

(** The first stretch. *)
Lemma enter_run job_id request p j :
  jobs p !! job_id = Some j ->
  enter job_id request p =
    if path_exists (files p) (model_path request) then
      (with_jobs (<[job_id := with_progress 10 "Loading model" (with_state Running j)]>
                    (jobs p)) p, Return at_loading)
    else
      (with_jobs (<[job_id := with_progress 0 "Initializing unlearning process"
                                (with_state Running j)]> (jobs p)) p,
       Raise (HTTPException 400 ("Model path does not exist: " +:+ model_path request))).
Proof.
  intros Hj. unfold enter, set_state, set_progress.
  rewrite bind_unfold, (update_job_run _ _ _ _ Hj).
  rewrite bind_unfold. erewrite update_job_run by (simpl; apply lookup_insert_eq).
  rewrite bind_unfold. simpl.
  destruct (path_exists (files p) (model_path request)); simpl.
  - rewrite bind_unfold. erewrite update_job_run by (simpl; apply lookup_insert_eq).
    simpl. by rewrite !insert_insert_eq.
  - by rewrite !insert_insert_eq.
Qed.

Lemma check_model_run request p :
  check_model request p =
    (p, if Text.endswith ".safetensors" (model_path request) then
          match (load_file (model_path request) p).2 with
          | Return _ => Return tt
          | Raise e => Raise (HTTPException 400 ("Failed to load model: " +:+ str_exn e))
          end
        else Raise (HTTPException 400
                      "Only .safetensors models are supported in this implementation")).
Proof.
  unfold check_model. destruct (Text.endswith _ _); [| done].
  unfold try_except. rewrite bind_unfold, load_file_run. simpl.
  destruct (files p !! model_path request) as [b|]; [| done].
  destruct (fault p (op_read (model_path request))); try done. by destruct b.
Qed.

(** * Unsupported checkpoints *)

Lemma unsupported_checkpoint_run timestamp job_id request p j :
  jobs p !! job_id = Some j ->
  (Text.endswith ".safetensors" (model_path request) = false
   \/ exists e, (load_file (model_path request) p).2 = Raise e) ->
  exists detail j1,
    process_unlearning timestamp job_id request p
      = (with_jobs (<[job_id := failed_job (HTTPException 400 detail) j1]> (jobs p)) p,
         Return finished)
    /\ (detail = "Model path does not exist: " +:+ model_path request
        \/ detail = "Only .safetensors models are supported in this implementation"
        \/ exists e, detail = "Failed to load model: " +:+ str_exn e).
Proof.
  intros Hj Hbad. unfold process_unlearning.
  change (run_stretches 5 timestamp job_id request at_entry)
    with (resume timestamp job_id request at_entry
            ≫= run_stretches 4 timestamp job_id request).
  rewrite bind_unfold. unfold resume at 1, try_except. simpl stretch.
  rewrite (enter_run _ _ _ _ Hj).
  destruct (path_exists (files p) (model_path request)).
  - change (run_stretches 4 timestamp job_id request at_loading)
      with (resume timestamp job_id request at_loading
              ≫= run_stretches 3 timestamp job_id request).
    rewrite bind_unfold.
    set (p1 := with_jobs _ p).
    assert (exists detail,
              stretch timestamp job_id request at_loading p1
                = (p1, Raise (HTTPException 400 detail))
              /\ (detail = "Only .safetensors models are supported in this implementation"
                  \/ exists e, detail = "Failed to load model: " +:+ str_exn e))
      as (detail & Hs & Hdetail).
    { simpl stretch. unfold prepare. rewrite bind_unfold, check_model_run.
      unfold p1. rewrite load_file_with_jobs.
      destruct (Text.endswith ".safetensors" (model_path request)).
      - destruct Hbad as [? | [e He]]; [discriminate |]. rewrite He. eauto.
      - eauto. }
    erewrite resume_raise; [| exact Hs | apply lookup_insert_eq].
    rewrite run_stretches_finished. exists detail. eexists.
    split; [| tauto]. unfold p1. simpl. by rewrite insert_insert_eq.
  - erewrite on_exception_run by (simpl; apply lookup_insert_eq).
    rewrite run_stretches_finished. eexists _, _.
    split; [| by left]. simpl. by rewrite insert_insert_eq.
Qed.

(** C6. A job whose model path does not end in [.safetensors], or whose
    checkpoint [load_file] cannot load, ends in state error: the record
    carries the text of the 400 exception as its error and, after
    "Error: ", as its progress message, with percent 0; and the run has
    changed no file at all, so the checkpoint is as it was and no backup
    has appeared. *)
Theorem unsupported_checkpoint_fails timestamp job_id request p j :
  jobs p !! job_id = Some j ->
  (Text.endswith ".safetensors" (model_path request) = false
   \/ exists e, (load_file (model_path request) p).2 = Raise e) ->
  let out := process_unlearning timestamp job_id request p in
  out.2 = Return finished
  /\ (exists detail j',
        jobs out.1 !! job_id = Some j'
        /\ job_state j' = Error
        /\ job_error j' = Some (str_exn (HTTPException 400 detail))
        /\ job_progress j' =
             {| percent := 0; message := "Error: " +:+ str_exn (HTTPException 400 detail) |}
        /\ (detail = "Model path does not exist: " +:+ model_path request
            \/ detail = "Only .safetensors models are supported in this implementation"
            \/ exists e, detail = "Failed to load model: " +:+ str_exn e))
  /\ files out.1 = files p
  /\ journal out.1 = journal p.
Proof.
  intros Hj Hbad. cbv zeta.
  destruct (unsupported_checkpoint_run timestamp job_id request p j Hj Hbad)
    as (detail & j1 & -> & Hdetail).
  simpl. split; [done |]. split; [| done].
  exists detail, (failed_job (HTTPException 400 detail) j1).
  rewrite lookup_insert_eq. done.
Qed.

(** * Injection failures *)

#[global] Instance same_registry_preorder : PreOrder same_registry.
Proof.
  split.
  - intros p. done.
  - intros p1 p2 p3 [? ?] [? ?]. split; congruence.
Qed.
#[global] Instance same_registry_files_free : FilesFree same_registry.
Proof. intros p fs log. done. Qed.
#[global] Instance same_registry_rng_free : RngFree same_registry.
Proof. intros p g. done. Qed.

(** The last stretch, given what the injection did. *)
Lemma inject_and_finish_run job_id request l p j :
  jobs p !! job_id = Some j ->
  Text.endswith ".safetensors" (model_path request) = true ->
  let inj := inject_weights_into_model (model_path request) (adapter_path l) p in
  let manifest_path := Text.path_join (output_path l) "manifest.json" in
  forall r, inj.2 = Return r ->
  fault p (op_write manifest_path) = Allowed ->
  inject_and_finish job_id request l p
    = (with_jobs (<[job_id := done_job request l j]> (jobs p))
         (with_files
            (<[manifest_path :=
                 BJson (JDict (assoc_set "weight_injection" (injection_json r) (manifest l)))]>
               (files inj.1))
            (journal inj.1 ++ [(op_write manifest_path, files inj.1)]) inj.1),
       Return finished).
Proof.
  intros Hj Hext inj manifest_path r Hr Hallowed.
  pose proof (keeps_inject_weights_into_model same_plan
                (model_path request) (adapter_path l) p) as (Hfault & _).
  pose proof (keeps_inject_weights_into_model same_registry
                (model_path request) (adapter_path l) p) as (Hjobs & _).
  fold inj in Hfault, Hjobs.
  unfold inject_and_finish. rewrite Hext.
  rewrite !bind_unfold. fold inj.
  destruct inj as [p1 r1] eqn:Hinj. simpl in Hr, Hfault, Hjobs. subst r1.
  simpl. rewrite ?mret_run, bind_unfold. unfold json_dump.
  rewrite write_file_run. fold manifest_path. rewrite Hfault, Hallowed.
  rewrite bind_unfold.
  assert (forall q, jobs q = jobs p ->
            (set_progress job_id 100 "Unlearning completed successfully" q).1 =
              with_jobs (<[job_id := with_progress 100 "Unlearning completed successfully" j]>
                           (jobs p)) q
            /\ (set_progress job_id 100 "Unlearning completed successfully" q).2 = Return tt)
    as Hprog.
  { intros q Hq. unfold set_progress. erewrite update_job_run by (rewrite Hq; exact Hj).
    simpl. by rewrite Hq. }
  set (p2 := with_files _ _ p1).
  destruct (Hprog p2) as [E1 E2]; [done |].
  destruct (set_progress job_id 100 "Unlearning completed successfully" p2) as [p3 o].
  simpl in E1, E2. subst p3 o.
  unfold done_job, done_result, set_state, set_result.
  destruct (String.eqb (method request) "EmbeddingScrub");
    rewrite bind_unfold;
    erewrite update_job_twice by (simpl; apply lookup_insert_eq);
    rewrite ?mret_run; simpl; by rewrite insert_insert_eq, ?Hjobs.
Qed.

(** C9. When the job of a [.safetensors] checkpoint reaches the injection
    step and the injection fails, the failure becomes data: the manifest
    is written with a ["weight_injection"] entry holding [success = false]
    and the error message, and the job ends in state done with no error
    recorded, not in state error. The one thing asked of the rest of the
    stretch is that the manifest can be written. *)
Theorem injection_failure_is_recorded timestamp job_id request l p j err :
  jobs p !! job_id = Some j ->
  Text.endswith ".safetensors" (model_path request) = true ->
  (inject_weights_into_model (model_path request) (adapter_path l) p).2
    = Return (injection_failed err) ->
  fault p (op_write (Text.path_join (output_path l) "manifest.json")) = Allowed ->
  let out := resume timestamp job_id request (at_injection l) p in
  out.2 = Return finished
  /\ (exists j', jobs out.1 !! job_id = Some j'
                 /\ job_state j' = Done /\ job_error j' = job_error j)
  /\ files out.1 !! Text.path_join (output_path l) "manifest.json"
       = Some (BJson (JDict (assoc_set "weight_injection"
                               (JDict [("success", JBool false); ("error", JStr err)])
                               (manifest l)))).
Proof.
  intros Hj Hext Hinj Hallowed. cbv zeta.
  erewrite resume_return;
    [| simpl stretch; eapply inject_and_finish_run; eauto].
  simpl. split; [done |]. split.
  - eexists. rewrite lookup_insert_eq. done.
  - apply lookup_insert_eq.
Qed.

(** * The life of a job *)

#[global] Instance others_preorder job_id : PreOrder (others job_id).
Proof.
  split.
  - intros p. done.
  - intros p1 p2 p3 (T1 & O1 & E1) (T2 & O2 & E2). split_and!.
    + congruence.
    + intros id Hid. rewrite O2, O1; done.
    + auto.
Qed.
#[global] Instance others_files_free job_id : FilesFree (others job_id).
Proof. intros p fs log. done. Qed.
#[global] Instance others_rng_free job_id : RngFree (others job_id).
Proof. intros p g. done. Qed.
#[global] Instance others_own_job_free job_id : OwnJobFree (others job_id) job_id.
Proof.
  intros p j f Hj. split_and!; simpl.
  - done.
  - intros id Hid. by rewrite lookup_insert_ne.
  - intros _. rewrite lookup_insert_eq. eauto.
Qed.

#[global] Instance quiet_preorder job_id : PreOrder (quiet job_id).
Proof.
  split.
  - intros p. done.
  - intros p1 p2 p3 (T1 & O1 & E1) (T2 & O2 & E2). split_and!.
    + congruence.
    + intros id Hid. rewrite O2, O1; done.
    + congruence.
Qed.
#[global] Instance quiet_files_free job_id : FilesFree (quiet job_id).
Proof. intros p fs log. done. Qed.
#[global] Instance quiet_rng_free job_id : RngFree (quiet job_id).
Proof. intros p g. done. Qed.
#[global] Instance quiet_progress_free job_id : ProgressFree (quiet job_id) job_id.
Proof.
  intros p j f Hj Hf. split_and!; simpl.
  - done.
  - intros id Hid. by rewrite lookup_insert_ne.
  - rewrite lookup_insert_eq, Hj. simpl. by rewrite Hf.
Qed.

Lemma prepare_returns timestamp job_id request p p' fr :
  prepare timestamp job_id request p = (p', Return fr) -> suspended fr.
Proof.
  unfold prepare. intros H.
  repeat (apply bind_return_inv in H as (? & ? & _ & H)).
  by injection H as _ <-.
Qed.

Lemma run_method_returns job_id request out h s p p' fr :
  run_method job_id request out h s p = (p', Return fr) -> suspended fr.
Proof.
  unfold run_method. intros H.
  repeat (apply bind_return_inv in H as (? & ? & _ & H)).
  by injection H as _ <-.
Qed.

Lemma write_integrity_returns job_id l p p' fr :
  write_integrity job_id l p = (p', Return fr) -> suspended fr.
Proof.
  unfold write_integrity. intros H.
  repeat (apply bind_return_inv in H as (? & ? & _ & H)).
  by injection H as _ <-.
Qed.

(** The last stretch, when it does not raise, leaves the job done. *)
Lemma inject_and_finish_returns job_id request l p p' fr j :
  jobs p !! job_id = Some j ->
  inject_and_finish job_id request l p = (p', Return fr) ->
  fr = finished /\ job_state <$> jobs p' !! job_id = Some Done.
Proof.
  intros Hj H. unfold inject_and_finish in H.
  apply bind_return_inv in H as (m & p1 & H1 & H).
  apply bind_return_inv in H as ([] & p2 & H2 & H).
  apply bind_return_inv in H as ([] & p3 & H3 & H).
  apply bind_return_inv in H as ([] & p4 & H4 & H).
  injection H as <- <-. split; [done |].
  destruct (String.eqb (method request) "EmbeddingScrub");
    apply bind_return_inv in H4 as ([] & p5 & Hs & Hr);
    unfold set_state, set_result, update_job in Hs, Hr;
    apply bind_return_inv in Hs as (js & ? & [= <- <-] & Hs);
    (destruct (jobs p3 !! job_id) as [j3|]; [| discriminate]);
    injection Hs as <-;
    apply bind_return_inv in Hr as (js & ? & [= <- <-] & Hr);
    simpl in Hr; rewrite lookup_insert_eq in Hr; injection Hr as <-;
    simpl; by rewrite lookup_insert_eq.
Qed.

Lemma fmap_job_state_Some (o : option Job) s :
  job_state <$> o = Some s -> exists j, o = Some j /\ job_state j = s.
Proof. destruct o as [j|]; simpl; [intros [= <-]; eauto | discriminate]. Qed.

(** A stretch that leaves the state alone either suspends with the state
    as it was or fails the job. *)
Lemma resume_of_quiet timestamp job_id request fr p j :
  keeps (quiet job_id) (stretch timestamp job_id request fr) ->
  (forall p' fr', stretch timestamp job_id request fr p = (p', Return fr') -> suspended fr') ->
  jobs p !! job_id = Some j ->
  let out := resume timestamp job_id request fr p in
  exists fr' j',
    out.2 = Return fr' /\ jobs out.1 !! job_id = Some j'
    /\ ((suspended fr' /\ job_state j' = job_state j)
        \/ (fr' = finished /\ job_state j' = Error)).
Proof.
  intros Hquiet Hret Hj. cbv zeta.
  pose proof (Hquiet p) as (_ & _ & Hstate).
  destruct (stretch timestamp job_id request fr p) as [p1 [fr'|e]] eqn:Hs; simpl in Hstate.
  - rewrite (resume_return _ _ _ _ _ _ _ Hs). simpl.
    rewrite Hj in Hstate. apply fmap_job_state_Some in Hstate as (j1 & Hj1 & Hst).
    exists fr', j1. split_and!; try done. left. eauto.
  - rewrite Hj in Hstate. apply fmap_job_state_Some in Hstate as (j1 & Hj1 & Hst).
    rewrite (resume_raise _ _ _ _ _ _ _ _ Hs Hj1). simpl.
    eexists _, _. rewrite lookup_insert_eq. split_and!; try done. by right.
Qed.

(** What one resumption does to the registry. *)
Lemma resume_spec timestamp job_id request fr p j :
  jobs p !! job_id = Some j ->
  let out := resume timestamp job_id request fr p in
  others job_id p out.1
  /\ exists fr' j',
       out.2 = Return fr' /\ jobs out.1 !! job_id = Some j'
       /\ match fr with
          | finished => fr' = finished /\ j' = j
          | at_entry =>
              (fr' = at_loading /\ job_state j' = Running)
              \/ (fr' = finished /\ job_state j' = Error)
          | at_injection _ =>
              fr' = finished /\ (job_state j' = Done \/ job_state j' = Error)
          | _ =>
              (suspended fr' /\ job_state j' = job_state j)
              \/ (fr' = finished /\ job_state j' = Error)
          end.
Proof.
  intros Hj. cbv zeta. split; [apply (keeps_resume (others job_id)); apply _ |].
  destruct fr as [| |out h s|l|l|].
  - unfold resume, try_except. simpl stretch. rewrite (enter_run _ _ _ _ Hj).
    destruct (path_exists _ _).
    + eexists _, _. simpl. rewrite lookup_insert_eq. split_and!; try done. by left.
    + erewrite on_exception_run by (simpl; apply lookup_insert_eq). simpl.
      eexists _, _. rewrite lookup_insert_eq. split_and!; try done. by right.
  - apply resume_of_quiet; [| | done].
    + apply (keeps_prepare (quiet job_id)); apply _.
    + intros p' fr'. apply prepare_returns.
  - apply resume_of_quiet; [| | done].
    + apply (keeps_run_method (quiet job_id)); apply _.
    + intros p' fr'. apply run_method_returns.
  - apply resume_of_quiet; [| | done].
    + apply (keeps_write_integrity (quiet job_id)); apply _.
    + intros p' fr'. apply write_integrity_returns.
  - pose proof (keeps_stretch (others job_id) job_id timestamp request (at_injection l) p)
      as (_ & _ & Hex).
    destruct (stretch timestamp job_id request (at_injection l) p) as [p1 [fr'|e]] eqn:Hs.
    + rewrite (resume_return _ _ _ _ _ _ _ Hs). simpl.
      eapply inject_and_finish_returns in Hs as [-> Hdone]; [| exact Hj].
      apply fmap_job_state_Some in Hdone as (j1 & Hj1 & Hst).
      exists finished, j1. split_and!; try done. by left.
    + destruct Hex as [j1 Hj1]; [eauto |]. simpl in Hj1.
      rewrite (resume_raise _ _ _ _ _ _ _ _ Hs Hj1). simpl.
      eexists _, _. rewrite lookup_insert_eq. split_and!; try done. by right.
  - rewrite resume_finished. simpl. by exists finished, j.
Qed.

Lemma observed_unfold job_id p :
  observed job_id p =
    if String.eqb job_id "ping" then Some Done else job_state <$> jobs p !! job_id.
Proof.
  unfold observed, get_status. destruct (String.eqb job_id "ping"); [done |].
  rewrite bind_unfold. simpl. by destruct (jobs p !! job_id).
Qed.

Lemma state_le_refl s : state_le s s = true.
Proof. by destruct s. Qed.

Lemma state_le_trans a b c : state_le a b = true -> state_le b c = true -> state_le a c = true.
Proof. by destruct a, b, c. Qed.

Lemma obs_next_refl o : obs_next o o = true.
Proof. destruct o as [s|]; [apply state_le_refl | done]. Qed.

Lemma obs_next_le a b : obs_next a b = true -> obs_le a b = true.
Proof. by destruct a, b. Qed.

Lemma obs_le_trans a b c : obs_le a b = true -> obs_le b c = true -> obs_le a c = true.
Proof.
  destruct a as [a|], b as [b|], c as [c|]; simpl; try done. apply state_le_trans.
Qed.

Lemma registry_ok_start request now_ms rnd p :
  registry_ok p ->
  jobs p !! make_job_id now_ms rnd = None ->
  registry_ok (run_event (ev_start request now_ms rnd) p)
  /\ forall id, obs_next (observed id p)
                  (observed id (run_event (ev_start request now_ms rnd) p)) = true.
Proof.
  intros [Hknown Huniq Hstate] Hfresh. simpl. rewrite start_unlearning_cases.
  destruct (negb _); [| destruct (negb _)]; simpl;
    try (split; [by constructor | intros id; apply obs_next_refl]).
  set (job_id := make_job_id now_ms rnd) in *.
  assert (forall n t, tasks p !! n = Some t -> task_job_id t <> job_id) as Hother.
  { intros n t Ht E. destruct (Hknown n t Ht) as [j Hj]. rewrite E in Hj. congruence. }
  split; [constructor; simpl |].
  - intros n t Ht. apply lookup_app_Some in Ht as [Ht | [_ Ht]].
    + rewrite lookup_insert_ne by (apply not_eq_sym; eauto). eauto.
    + apply list_lookup_singleton_Some in Ht as [_ <-]. simpl.
      rewrite lookup_insert_eq. eauto.
  - rewrite fmap_app. apply NoDup_app. split_and!; [done | | apply NoDup_singleton].
    intros id Hin Hin'. apply list_elem_of_singleton in Hin'. subst id.
    apply list_elem_of_fmap in Hin as (t & E & Hin).
    apply list_elem_of_lookup in Hin as [n Hn]. by eapply Hother.
  - intros n t j Ht Hj. apply lookup_app_Some in Ht as [Ht | [_ Ht]].
    + rewrite lookup_insert_ne in Hj by (apply not_eq_sym; eauto).
      exact (Hstate n t j Ht Hj).
    + apply list_lookup_singleton_Some in Ht as [_ <-]. simpl in *.
      rewrite lookup_insert_eq in Hj. by injection Hj as <-.
  - intros id. rewrite !observed_unfold. destruct (String.eqb id "ping"); [done |].
    simpl. destruct (decide (id = job_id)) as [->|Hne].
    + rewrite lookup_insert_eq, Hfresh. done.
    + rewrite lookup_insert_ne by done. apply obs_next_refl.
Qed.

Lemma registry_ok_resume n timestamp p :
  registry_ok p ->
  registry_ok (run_event (ev_resume n timestamp) p)
  /\ forall id, obs_next (observed id p)
                  (observed id (run_event (ev_resume n timestamp) p)) = true.
Proof.
  intros [Hknown Huniq Hstate]. simpl.
  destruct (tasks p !! n) as [t|] eqn:Ht;
    [| split; [by constructor | intros id; apply obs_next_refl]].
  destruct (Hknown n t Ht) as [j Hj].
  pose proof (Hstate n t j Ht Hj) as Hold.
  destruct (resume_spec timestamp (task_job_id t) (task_request t) (task_frame t) p j Hj)
    as ((Htasks & Hothers & _) & fr' & j' & Hret & Hj' & Hcase).
  destruct (resume timestamp (task_job_id t) (task_request t) (task_frame t) p)
    as [p' r]. simpl in Htasks, Hothers, Hret, Hj'. subst r. rewrite Htasks.
  assert (forall m t', m <> n -> tasks p !! m = Some t' -> task_job_id t' <> task_job_id t)
    as Hdiff.
  { intros m t' Hmn Ht' E. apply Hmn.
    eapply (NoDup_lookup _ m n (task_job_id t)); [exact Huniq | |];
      rewrite list_lookup_fmap; [rewrite Ht' | rewrite Ht]; simpl; congruence. }
  assert (match fr' with
          | at_entry => job_state j' = Queued
          | finished => True
          | _ => job_state j' = Running
          end) as Hnew.
  { destruct (task_frame t), fr'; simpl in *; try done; intuition congruence. }
  assert (state_le (job_state j) (job_state j') = true) as Hle.
  { destruct (task_frame t), fr'; simpl in *;
      try (destruct Hcase as [[? ?] | [? ?]]; try done; try discriminate);
      try (destruct Hcase as [? [? | ?]]; try done);
      try (destruct Hcase as [? ?]; subst; try apply state_le_refl);
      rewrite ?Hold in *; try congruence;
      repeat match goal with H : job_state j' = _ |- _ => rewrite H end;
      try rewrite Hold; try done; by destruct (job_state j). }
  split; [constructor; simpl |].
  - intros m t' Ht'. destruct (decide (m = n)) as [->|Hmn].
    + rewrite list_lookup_insert_eq in Ht' by (by eapply lookup_lt_Some).
      injection Ht' as <-. simpl. eauto.
    + rewrite list_lookup_insert_ne in Ht' by done.
      rewrite Hothers by eauto. exact (Hknown m t' Ht').
  - rewrite list_fmap_insert. simpl. rewrite list_insert_id; [done |].
    by rewrite list_lookup_fmap, Ht.
  - intros m t' j0 Ht' Hj0. destruct (decide (m = n)) as [->|Hmn].
    + rewrite list_lookup_insert_eq in Ht' by (by eapply lookup_lt_Some).
      injection Ht' as <-. simpl in *. rewrite Hj' in Hj0. by injection Hj0 as <-.
    + rewrite list_lookup_insert_ne in Ht' by done.
      rewrite Hothers in Hj0 by eauto. exact (Hstate m t' j0 Ht' Hj0).
  - intros id. rewrite !observed_unfold. destruct (String.eqb id "ping"); [done |].
    simpl. destruct (decide (id = task_job_id t)) as [->|Hne].
    + by rewrite Hj, Hj'.
    + rewrite Hothers by done. apply obs_next_refl.
Qed.

Lemma registry_ok_event ev p :
  registry_ok p ->
  match ev with
  | ev_start _ now_ms rnd => jobs p !! make_job_id now_ms rnd = None
  | _ => True
  end ->
  registry_ok (run_event ev p)
  /\ forall id, obs_next (observed id p) (observed id (run_event ev p)) = true.
Proof.
  intros Hok Hfresh. destruct ev as [request now_ms rnd | n timestamp | fs plan].
  - by apply registry_ok_start.
  - by apply registry_ok_resume.
  - split.
    + destruct Hok as [Hknown Huniq Hstate]. by constructor.
    + intros id. rewrite !observed_unfold. simpl. apply obs_next_refl.
Qed.

Lemma registry_ok_initial p : jobs p = ∅ -> tasks p = [] -> registry_ok p.
Proof.
  intros Hj Ht. constructor; rewrite Ht.
  - intros n t H. by rewrite lookup_nil in H.
  - apply NoDup_nil_2.
  - intros n t j H. by rewrite lookup_nil in H.
Qed.

(** From one observation to the next. *)
Lemma observations_step evs p job_id :
  registry_ok p -> ids_fresh evs p = true ->
  forall i a b,
    (observed job_id p :: map (observed job_id) (run_events evs p)) !! i = Some a ->
    (observed job_id p :: map (observed job_id) (run_events evs p)) !! S i = Some b ->
    obs_next a b = true.
Proof.
  revert p. induction evs as [|ev rest IH]; intros p Hok Hfresh i a b Ha Hb.
  - destruct i; discriminate.
  - simpl in Hfresh. apply andb_prop in Hfresh as [Hev Hrest].
    destruct (registry_ok_event ev p Hok) as [Hok' Hnext].
    { destruct ev; try done. apply negb_true_iff, bool_decide_eq_false in Hev.
      by apply eq_None_not_Some. }
    destruct i as [|i]; simpl in Ha, Hb.
    + injection Ha as <-. injection Hb as <-. apply Hnext.
    + by apply (IH (run_event ev p) Hok' Hrest i).
Qed.

(** C7. In every schedule of requests, task resumptions and outside
    changes that starts with an empty registry and in which each new job
    id is unused when it is drawn, the states that status queries for an
    id return, taken after each event, go one way only: unknown, queued,
    running, then done or error, with steps possibly skipped or repeated.
    From one event to the next an unknown id stays unknown or becomes
    queued; between any two queries, however far apart, the state has not
    moved back, and done and error are kept for good. *)
Theorem job_state_is_monotonic evs p job_id :
  jobs p = ∅ -> tasks p = [] -> ids_fresh evs p = true ->
  let obs := observed job_id p :: map (observed job_id) (run_events evs p) in
  (forall i a b, obs !! i = Some a -> obs !! S i = Some b -> obs_next a b = true)
  /\ (forall i k a b, obs !! i = Some a -> obs !! (i + k)%nat = Some b -> obs_le a b = true).
Proof.
  intros Hj Ht Hfresh obs.
  assert (forall i a b, obs !! i = Some a -> obs !! S i = Some b -> obs_next a b = true)
    as Hstep.
  { apply observations_step; [by apply registry_ok_initial | done]. }
  split; [exact Hstep |].
  intros i k. induction k as [|k IH]; intros a b Ha Hb.
  - rewrite Nat.add_0_r, Ha in Hb. injection Hb as <-.
    destruct a as [s|]; [apply state_le_refl | done].
  - replace (i + S k)%nat with (S (i + k)) in Hb by lia.
    destruct (obs !! (i + k)%nat) as [c|] eqn:Hc.
    + eapply obs_le_trans; [by apply IH |]. apply obs_next_le. by eapply Hstep.
    + apply lookup_ge_None in Hc. apply lookup_lt_Some in Hb. lia.
Qed.

(** * Two runs side by side *)

Lemma respects_ret {A} (a : A) : respects (ret a).
Proof. intros p p' H. done. Qed.

Lemma respects_mret {A} (a : A) : respects (mret a : io A).
Proof. intros p p' H. done. Qed.

Lemma respects_raise {A} (e : exn) : respects (@raise A e).
Proof. intros p p' H. done. Qed.

Lemma respects_gets {A} (f : Process -> A) :
  (forall p p', agree p p' -> f p = f p') -> respects (gets f).
Proof. intros Hf p p' H. simpl. split; [done |]. f_equal. by apply Hf. Qed.

Lemma respects_modify (f : Process -> Process) :
  (forall p p', agree p p' -> agree (f p) (f p')) -> respects (modify f).
Proof. intros Hf p p' H. simpl. split; [by apply Hf | done]. Qed.

Lemma respects_bind {A B} (m : io A) (k : A -> io B) :
  respects m -> (forall a, respects (k a)) -> respects (m ≫= k).
Proof.
  intros Hm Hk p p' H. rewrite !bind_unfold. destruct (Hm p p' H) as [Hag Hres].
  destruct (m p) as [p1 [a|e]], (m p') as [p1' [a'|e']]; simpl in *; try discriminate.
  - injection Hres as <-. by apply Hk.
  - injection Hres as <-. by split.
Qed.

Lemma respects_try_except {A} (m : io A) (h : exn -> io A) :
  respects m -> (forall e, respects (h e)) -> respects (try_except m h).
Proof.
  intros Hm Hh p p' H. unfold try_except. destruct (Hm p p' H) as [Hag Hres].
  destruct (m p) as [p1 [a|e]], (m p') as [p1' [a'|e']]; simpl in *; try discriminate.
  - by split.
  - injection Hres as <-. by apply Hh.
Qed.

Lemma respects_commit op fs : respects (commit op fs).
Proof.
  apply respects_modify. intros p p' (Hf & Hfa & Hj & Hs & Hr & Hh & Hv).
  unfold agree. simpl. rewrite Hf, Hj. done.
Qed.

Lemma respects_with_np_random g : respects (modify (with_np_random g)).
Proof.
  apply respects_modify. intros p p' (Hf & Hfa & Hj & Hs & Hr & Hh & Hv). done.
Qed.

(** An assignment to a field of a record other than its request. *)
Lemma respects_update_job job_id f :
  (forall j j', view j = view j' -> view (f j) = view (f j')) ->
  respects (update_job job_id f).
Proof.
  intros Hf p p' (Hfi & Hfa & Hj & Hs & Hr & Hh & Hv). unfold update_job.
  rewrite !bind_unfold. simpl. pose proof (Hv job_id) as Hid.
  destruct (jobs p !! job_id) as [j|], (jobs p' !! job_id) as [j'|]; simpl in *;
    try discriminate; [| done].
  assert (view j = view j') as Hview by congruence.
  split; [| done]. unfold agree. simpl. repeat (split; [done |]).
  intros id. destruct (decide (id = job_id)) as [->|Hne].
  - rewrite !lookup_insert_eq. pose proof (Hf j j' Hview) as E.
    change (Some (view (f j)) = Some (view (f j'))). by rewrite E.
  - rewrite !lookup_insert_ne by done. apply Hv.
Qed.

Ltac agree_side :=
  let H := fresh in
  intros ? ? H; destruct H as (?Hf & ?Hfa & ?Hj & ?Hs & ?Hr & ?Hh & ?Hv);
  repeat match goal with H : _ = _ |- _ => rewrite H end; reflexivity.

Ltac respects_step :=
  lazymatch goal with
  | |- respects (_ ≫= _) => apply respects_bind; [ | intros ? ]
  | |- respects (try_except _ _) => apply respects_try_except; [ | intros ? ]
  | |- respects (mret _) => apply respects_mret
  | |- respects (ret _) => apply respects_ret
  | |- respects (raise _) => apply respects_raise
  | |- respects (gets _) => apply respects_gets; agree_side
  | |- respects (commit _ _) => apply respects_commit
  | |- respects (modify (with_np_random _)) => apply respects_with_np_random
  | |- respects (update_job _ _) =>
      apply respects_update_job; intros ? ? [= ? ? ? ?]; unfold view; simpl; congruence
  | |- respects (match ?x with _ => _ end) => destruct x
  | |- respects (let _ := _ in _) => cbv zeta
  end.

Create HintDb respects discriminated.

Ltac respects_auto := repeat first [ respects_step | solve [ auto with respects ] ].

Lemma respects_os_path_exists path : respects (os_path_exists path).
Proof. unfold os_path_exists. respects_auto. Qed.
Lemma respects_os_path_isfile path : respects (os_path_isfile path).
Proof. unfold os_path_isfile. respects_auto. Qed.
Lemma respects_read_file path : respects (read_file path).
Proof. unfold read_file. respects_auto. Qed.
Lemma respects_write_file path c : respects (write_file path c).
Proof. unfold write_file. respects_auto. Qed.
Lemma respects_shutil_copy2 src dst : respects (shutil_copy2 src dst).
Proof. unfold shutil_copy2. respects_auto. Qed.
Lemma respects_os_replace src dst : respects (os_replace src dst).
Proof. unfold os_replace. respects_auto. Qed.
Lemma respects_os_rename src dst : respects (os_rename src dst).
Proof. unfold os_rename. respects_auto. Qed.
Lemma respects_os_remove path : respects (os_remove path).
Proof. unfold os_remove. respects_auto. Qed.
Lemma respects_MoveFileExW src dst : respects (MoveFileExW src dst).
Proof. unfold MoveFileExW. respects_auto. Qed.
Lemma respects_os_makedirs path : respects (os_makedirs path).
Proof. unfold os_makedirs. respects_auto. Qed.
Lemma respects_os_listdir dir : respects (os_listdir dir).
Proof. unfold os_listdir. respects_auto. Qed.
Lemma respects_os_path_abspath path : respects (os_path_abspath path).
Proof. unfold os_path_abspath. respects_auto. Qed.
Lemma respects_np_random_seed s : respects (np_random_seed s).
Proof. unfold np_random_seed. respects_auto. Qed.
Lemma respects_np_random_array k r c : respects (np_random_array k r c).
Proof. unfold np_random_array. respects_auto. Qed.
Lemma respects_np_random_rand : respects np_random_rand.
Proof. unfold np_random_rand. respects_auto. Qed.
Lemma respects_tensor_add t d : respects (tensor_add t d).
Proof. unfold tensor_add. respects_auto. Qed.

#[global] Hint Resolve respects_os_path_exists respects_os_path_isfile respects_read_file
  respects_write_file respects_shutil_copy2 respects_os_replace respects_os_rename
  respects_os_remove respects_MoveFileExW respects_os_makedirs respects_os_listdir
  respects_os_path_abspath respects_np_random_seed respects_np_random_array
  respects_np_random_rand respects_tensor_add : respects.

Lemma respects_load_file path : respects (load_file path).
Proof. unfold load_file. respects_auto. Qed.
Lemma respects_np_load path : respects (np_load path).
Proof. unfold np_load. respects_auto. Qed.
Lemma respects_save_file t path : respects (save_file t path).
Proof. unfold save_file. respects_auto. Qed.
Lemma respects_json_dump j path : respects (json_dump j path).
Proof. unfold json_dump. respects_auto. Qed.
Lemma respects_np_savez_compressed path a : respects (np_savez_compressed path a).
Proof. unfold np_savez_compressed. respects_auto. Qed.
Lemma respects_sha256_of_file path : respects (sha256_of_file path).
Proof. unfold sha256_of_file. respects_auto. Qed.
Lemma respects_jittered base : respects (jittered base).
Proof. unfold jittered. respects_auto. Qed.
Lemma respects_set_state job_id s : respects (set_state job_id s).
Proof. unfold set_state. respects_auto. Qed.
Lemma respects_set_progress job_id pct msg : respects (set_progress job_id pct msg).
Proof. unfold set_progress. respects_auto. Qed.
Lemma respects_set_result job_id r : respects (set_result job_id r).
Proof. unfold set_result. respects_auto. Qed.
Lemma respects_set_error job_id msg : respects (set_error job_id msg).
Proof. unfold set_error. respects_auto. Qed.

#[global] Hint Resolve respects_load_file respects_np_load respects_save_file
  respects_json_dump respects_np_savez_compressed respects_sha256_of_file
  respects_jittered respects_set_state respects_set_progress respects_set_result
  respects_set_error : respects.

Lemma respects_inject_loop items diff acc : respects (inject_loop items diff acc).
Proof.
  revert acc. induction items as [|[name t] rest IH]; intros acc; simpl; respects_auto.
Qed.

Lemma respects_targeted_changes idx th rows cols rs cs d :
  respects (targeted_changes idx th rows cols rs cs d).
Proof.
  revert d. induction idx as [|i rest IH]; intros d; simpl; respects_auto.
Qed.

Lemma respects_hash_artifacts out names acc : respects (hash_artifacts out names acc).
Proof.
  revert acc. induction names as [|n rest IH]; intros acc; simpl; respects_auto.
Qed.

#[global] Hint Resolve respects_inject_loop respects_targeted_changes
  respects_hash_artifacts : respects.

Lemma respects_inject_weights_into_model mp dp : respects (inject_weights_into_model mp dp).
Proof.
  unfold inject_weights_into_model, inject_body, inject_cleanup, replace_checkpoint,
    atomic_move.
  respects_auto.
Qed.

Lemma respects_check_model request : respects (check_model request).
Proof. unfold check_model. respects_auto. Qed.

Lemma respects_embedding_scrub request out h s : respects (embedding_scrub request out h s).
Proof. unfold embedding_scrub. respects_auto. Qed.

Lemma respects_last_layer_surgery request out h s :
  respects (last_layer_surgery request out h s).
Proof. unfold last_layer_surgery. respects_auto. Qed.

#[global] Hint Resolve respects_inject_weights_into_model respects_check_model
  respects_embedding_scrub respects_last_layer_surgery : respects.

Lemma respects_stretch timestamp job_id request fr :
  respects (stretch timestamp job_id request fr).
Proof.
  unfold stretch, enter, prepare, run_method, write_integrity, inject_and_finish.
  respects_auto.
Qed.

Lemma respects_on_exception job_id e : respects (on_exception job_id e).
Proof. unfold on_exception. respects_auto. Qed.

Lemma respects_resume timestamp job_id request fr :
  respects (resume timestamp job_id request fr).
Proof.
  apply respects_try_except; [apply respects_stretch | apply respects_on_exception].
Qed.

Lemma respects_run_stretches n timestamp job_id request fr :
  respects (run_stretches n timestamp job_id request fr).
Proof.
  revert fr. induction n as [|n IH]; intros fr; simpl; respects_auto.
  apply respects_resume.
Qed.

(** * The seed of the request *)

(** The pipeline never reads the seed of its request. *)
Lemma process_unlearning_ignores_seed timestamp job_id request s :
  process_unlearning timestamp job_id (with_seed s request)
    = process_unlearning timestamp job_id request.
Proof.
  unfold process_unlearning, run_stretches, resume, stretch, enter, prepare, check_model,
    run_method, embedding_scrub, last_layer_surgery, inject_and_finish, manifest_head.
  cbn [with_seed model_path output_dir target_text method max_steps lr].
  reflexivity.
Qed.

Lemma agree_after_start request s now_ms rnd p :
  agree (start_unlearning request now_ms rnd p).1
        (start_unlearning (with_seed s request) now_ms rnd p).1
  /\ (start_unlearning request now_ms rnd p).2
       = (start_unlearning (with_seed s request) now_ms rnd p).2.
Proof.
  rewrite !start_unlearning_cases. simpl.
  destruct (negb _); [done |]. destruct (negb _); [done |]. simpl.
  split; [| done]. unfold agree. simpl. repeat (split; [done |]).
  intros id. destruct (decide (id = make_job_id now_ms rnd)) as [->|Hne].
  - by rewrite !lookup_insert_eq.
  - by rewrite !lookup_insert_ne.
Qed.

Lemma serve_ignores_seed timestamp now_ms rnd request s p :
  agree (serve timestamp now_ms rnd request p).1
        (serve timestamp now_ms rnd (with_seed s request) p).1
  /\ (serve timestamp now_ms rnd request p).2
       = (serve timestamp now_ms rnd (with_seed s request) p).2.
Proof.
  unfold serve. rewrite !bind_unfold.
  destruct (agree_after_start request s now_ms rnd p) as [Hag Hres].
  destruct (start_unlearning request now_ms rnd p) as [p1 [id|e]],
           (start_unlearning (with_seed s request) now_ms rnd p) as [p1' [id'|e']];
    simpl in *; try discriminate.
  - injection Hres as <-. rewrite process_unlearning_ignores_seed.
    by apply respects_run_stretches.
  - injection Hres as <-. by split.
Qed.

Lemma run_stretches_S n timestamp job_id request fr p :
  run_stretches (S n) timestamp job_id request fr p =
    match resume timestamp job_id request fr p with
    | (p', Return fr') => run_stretches n timestamp job_id request fr' p'
    | (p', Raise e) => (p', Raise e)
    end.
Proof. reflexivity. Qed.

(** One resumption of the task of a recorded job: it returns, the record
    is still there, and either the stretch itself returned or the job has
    failed. *)
Lemma resume_step timestamp job_id request fr p j :
  jobs p !! job_id = Some j ->
  exists p' fr' j',
    resume timestamp job_id request fr p = (p', Return fr')
    /\ jobs p' !! job_id = Some j'
    /\ secret p' = secret p
    /\ (stretch timestamp job_id request fr p = (p', Return fr')
        \/ (fr' = finished /\ job_state j' = Error)).
Proof.
  intros Hj.
  pose proof (keeps_stretch (others job_id) job_id timestamp request fr p) as (_ & _ & Hex).
  pose proof (keeps_stretch same_plan job_id timestamp request fr p) as (_ & Hsec & _).
  destruct (stretch timestamp job_id request fr p) as [p1 [fr'|e]] eqn:Hs; simpl in *.
  - destruct Hex as [j1 Hj1]; [eauto |].
    exists p1, fr', j1. rewrite (resume_return _ _ _ _ _ _ _ Hs). eauto.
  - destruct Hex as [j1 Hj1]; [eauto |].
    rewrite (resume_raise _ _ _ _ _ _ _ _ Hs Hj1).
    eexists _, _, _. split; [done |]. simpl. rewrite lookup_insert_eq.
    split_and!; try done. right. done.
Qed.

Lemma enter_returns job_id request p p' fr :
  enter job_id request p = (p', Return fr) -> fr = at_loading.
Proof.
  unfold enter. intros H.
  apply bind_return_inv in H as (? & ? & _ & H).
  apply bind_return_inv in H as (? & ? & _ & H).
  apply bind_return_inv in H as (there & ? & _ & H).
  destruct (negb there); [discriminate |].
  apply bind_return_inv in H as (? & ? & _ & H). by injection H as _ <-.
Qed.

(** The seed that [prepare] hands on is the one derived from the target
    text. *)
Lemma prepare_returns_seed timestamp job_id request p p' fr :
  prepare timestamp job_id request p = (p', Return fr) ->
  fr = at_method (Text.path_join (output_dir request) ("run_" +:+ timestamp))
         (JSha256 (BRaw (target_text request)))
         (py_hash (secret p) (target_text request) mod 2 ^ 32).
Proof.
  unfold prepare. intros H.
  apply bind_return_inv in H as ([] & p1 & H1 & H).
  apply bind_return_inv in H as ([] & p2 & H2 & H).
  apply bind_return_inv in H as (text_seed & p3 & H3 & H).
  apply bind_return_inv in H as ([] & p4 & _ & H).
  apply bind_return_inv in H as ([] & p5 & _ & H).
  injection H as _ <-. injection H3 as _ <-.
  pose proof (keeps_check_model same_plan request p) as (_ & S1 & _).
  pose proof (keeps_os_makedirs same_plan
                (Text.path_join (output_dir request) ("run_" +:+ timestamp)) p1)
    as (_ & S2 & _).
  rewrite H1 in S1. rewrite H2 in S2. simpl in S1, S2. by rewrite S2, S1.
Qed.

(** The manifest that the branch of the method builds records that seed. *)
Lemma embedding_scrub_returns request out h s p p' l :
  embedding_scrub request out h s p = (p', Return l) ->
  output_path l = out /\ assoc "seed" (manifest l) = Some (JInt (i_lit s)).
Proof.
  unfold embedding_scrub. intros Hl.
  repeat (apply bind_return_inv in Hl as (? & ? & _ & Hl)).
  injection Hl as _ <-. cbn [output_path manifest]. split; reflexivity.
Qed.

Lemma last_layer_surgery_returns request out h s p p' l :
  last_layer_surgery request out h s p = (p', Return l) ->
  output_path l = out /\ assoc "seed" (manifest l) = Some (JInt (i_lit s)).
Proof.
  unfold last_layer_surgery. intros Hl.
  repeat (apply bind_return_inv in Hl as (? & ? & _ & Hl)).
  injection Hl as _ <-. cbn [output_path manifest]. split; reflexivity.
Qed.

Lemma run_method_returns_manifest job_id request out h s p p' fr :
  run_method job_id request out h s p = (p', Return fr) ->
  exists l, fr = at_verification l /\ output_path l = out
            /\ assoc "seed" (manifest l) = Some (JInt (i_lit s)).
Proof.
  unfold run_method. intros H.
  apply bind_return_inv in H as (l & p1 & Hl & H).
  apply bind_return_inv in H as ([] & p2 & _ & H).
  injection H as _ <-. exists l. split; [done |].
  destruct (String.eqb (method request) "EmbeddingScrub").
  - eapply embedding_scrub_returns, Hl.
  - eapply last_layer_surgery_returns, Hl.
Qed.

Lemma write_integrity_returns_locals job_id l p p' fr :
  write_integrity job_id l p = (p', Return fr) -> fr = at_injection l.
Proof.
  unfold write_integrity. intros H.
  repeat (apply bind_return_inv in H as (? & ? & _ & H)).
  by injection H as _ <-.
Qed.

#[global] Instance same_files_preorder : PreOrder same_files.
Proof.
  split.
  - intros p. done.
  - intros p1 p2 p3 [? ?] [? ?]. split; congruence.
Qed.
#[global] Instance same_files_rng_free : RngFree same_files.
Proof. intros p g. done. Qed.
#[global] Instance same_files_jobs_free : JobsFree same_files.
Proof. intros p js. done. Qed.

(** The last stretch, when it returns, has written the manifest, with the
    seed that the locals carry. *)
Lemma inject_and_finish_manifest job_id request l p p' fr :
  inject_and_finish job_id request l p = (p', Return fr) ->
  exists m, files p' !! Text.path_join (output_path l) "manifest.json"
              = Some (BJson (JDict m))
            /\ assoc "seed" m = assoc "seed" (manifest l).
Proof.
  intros H. unfold inject_and_finish in H.
  apply bind_return_inv in H as (m & p1 & H1 & H).
  apply bind_return_inv in H as ([] & p2 & H2 & H).
  exists m. split.
  - assert (files p' = files p2) as ->.
    { pose proof (keeps_set_progress same_files job_id 100
                    "Unlearning completed successfully" p2) as Hq.
      apply bind_return_inv in H as ([] & p3 & H3 & H). rewrite H3 in Hq.
      apply bind_return_inv in H as ([] & p4 & H4 & H). injection H as <- _.
      assert (same_files p3 p4) as [E _]; [| destruct Hq as [E' _]; simpl in *; congruence].
      destruct (String.eqb (method request) "EmbeddingScrub");
        apply bind_return_inv in H4 as ([] & p5 & Hs & Hr);
        pose proof (keeps_update_job same_files job_id (with_state Done) p3) as Q1;
        unfold set_state in Hs; rewrite Hs in Q1;
        unfold set_result in Hr;
        match type of Hr with update_job _ ?f _ = _ =>
          pose proof (keeps_update_job same_files job_id f p5) as Q2 end;
        rewrite Hr in Q2; simpl in Q1, Q2; by etrans. }
    unfold json_dump in H2. rewrite write_file_run in H2.
    destruct (fault p1 _); try discriminate. injection H2 as <-. simpl.
    apply lookup_insert_eq.
  - destruct (Text.endswith ".safetensors" (model_path request)).
    + apply bind_return_inv in H1 as (r & p0 & _ & H1). injection H1 as _ <-.
      by rewrite assoc_set_ne.
    + by injection H1 as _ <-.
Qed.

(** A job that ends done has gone through all five stretches, and its
    manifest records the seed derived from the target text. *)
Lemma done_manifest_seed timestamp job_id request p j jf :
  jobs p !! job_id = Some j ->
  jobs (process_unlearning timestamp job_id request p).1 !! job_id = Some jf ->
  job_state jf = Done ->
  exists m,
    files (process_unlearning timestamp job_id request p).1
      !! Text.path_join (Text.path_join (output_dir request) ("run_" +:+ timestamp))
           "manifest.json" = Some (BJson (JDict m))
    /\ assoc "seed" m
         = Some (JInt (i_lit (py_hash (secret p) (target_text request) mod 2 ^ 32))).
Proof.
  intros Hj. unfold process_unlearning.
  assert (forall n q jq, jobs q !! job_id = Some jq -> job_state jq = Error ->
            jobs (run_stretches n timestamp job_id request finished q).1 !! job_id = Some jf ->
            job_state jf = Done -> False) as Hfail.
  { intros n q jq Hq He. rewrite run_stretches_finished. simpl. congruence. }
  rewrite run_stretches_S.
  destruct (resume_step timestamp job_id request at_entry p j Hj)
    as (p1 & fr1 & j1 & -> & Hj1 & S1 & [H1 | [-> E1]]);
    [| intros; exfalso; eauto].
  apply enter_returns in H1 as ->.
  rewrite run_stretches_S.
  destruct (resume_step timestamp job_id request at_loading p1 j1 Hj1)
    as (p2 & fr2 & j2 & -> & Hj2 & S2 & [H2 | [-> E2]]);
    [| intros; exfalso; eauto].
  apply prepare_returns_seed in H2 as ->.
  rewrite run_stretches_S.
  destruct (resume_step timestamp job_id request
              (at_method (Text.path_join (output_dir request) ("run_" +:+ timestamp))
                 (JSha256 (BRaw (target_text request)))
                 (py_hash (secret p1) (target_text request) mod 2 ^ 32)) p2 j2 Hj2)
    as (p3 & fr3 & j3 & -> & Hj3 & S3 & [H3 | [-> E3]]);
    [| intros; exfalso; eauto].
  apply run_method_returns_manifest in H3 as (l & -> & Hout & Hseed).
  rewrite run_stretches_S.
  destruct (resume_step timestamp job_id request (at_verification l) p3 j3 Hj3)
    as (p4 & fr4 & j4 & -> & Hj4 & S4 & [H4 | [-> E4]]);
    [| intros; exfalso; eauto].
  apply write_integrity_returns_locals in H4 as ->.
  rewrite run_stretches_S.
  destruct (resume_step timestamp job_id request (at_injection l) p4 j4 Hj4)
    as (p5 & fr5 & j5 & -> & Hj5 & S5 & [H5 | [-> E5]]).
  - intros _ _. apply inject_and_finish_manifest in H5 as (m & Hm & Hs).
    exists m. rewrite <- Hout. split; [exact Hm |].
    rewrite Hs, Hseed, S1. reflexivity.
  - intros Hf Hd. simpl in Hf. rewrite Hj5 in Hf. injection Hf as <-. congruence.
Qed.

(** The seed of the request is never read. Serve a request, or serve the
    same request with any other seed, from the same process, at the same
    clock readings and with no other task in between: the two runs leave
    the same files (in particular the same delta archive and the same
    manifest, weight-diff summary included), return the same, and show
    the same job records to status queries. And when the job ends done,
    the ["seed"] of its manifest is [hash(target_text) % 2**32], whatever
    the seed of the request. *)
Theorem seed_has_no_effect timestamp now_ms rnd request s p :
  let a := serve timestamp now_ms rnd request p in
  let b := serve timestamp now_ms rnd (with_seed s request) p in
  files a.1 = files b.1
  /\ a.2 = b.2
  /\ (forall id, view <$> jobs a.1 !! id = view <$> jobs b.1 !! id)
  /\ (forall jf,
        a.2 = Return finished ->
        jobs a.1 !! make_job_id now_ms rnd = Some jf ->
        job_state jf = Done ->
        exists m,
          files a.1 !! Text.path_join
                         (Text.path_join (output_dir request) ("run_" +:+ timestamp))
                         "manifest.json" = Some (BJson (JDict m))
          /\ assoc "seed" m
               = Some (JInt (i_lit (py_hash (secret p) (target_text request) mod 2 ^ 32)))).
Proof.
  cbv zeta.
  destruct (serve_ignores_seed timestamp now_ms rnd request s p)
    as [(Hfiles & _ & _ & _ & _ & _ & Hview) Hres].
  split; [done |]. split; [done |]. split; [done |].
  intros jf. unfold serve. rewrite bind_unfold, start_unlearning_cases.
  destruct (negb _); [discriminate |]. destruct (negb _); [discriminate |].
  intros _ Hjf Hdone.
  eapply done_manifest_seed in Hjf as (m & Hm & Hseed); [| apply lookup_insert_eq | done].
  exists m. split; [exact Hm | exact Hseed].
Qed.

(** * The injector and the files *)

#[global] Instance same_at_preorder q : PreOrder (same_at q).
Proof.
  split.
  - intros p. done.
  - intros p1 p2 p3 H1 H2. unfold same_at in *. congruence.
Qed.
#[global] Instance same_at_rng_free q : RngFree (same_at q).
Proof. intros p g. done. Qed.
#[global] Instance same_at_jobs_free q : JobsFree (same_at q).
Proof. intros p js. done. Qed.

Section SameAt.
Context (q : string).

Lemma same_at_write_file path content :
  path <> q -> keeps (same_at q) (write_file path content).
Proof.
  intros Hne p. rewrite write_file_run. unfold same_at.
  destruct (fault p (op_write path)); simpl; by rewrite ?lookup_insert_ne.
Qed.

Lemma same_at_shutil_copy2 src dst :
  dst <> q -> keeps (same_at q) (shutil_copy2 src dst).
Proof.
  intros Hne p. rewrite shutil_copy2_run. unfold same_at.
  destruct (files p !! src); [| done].
  destruct (fault p (op_copy src dst)); simpl; by rewrite ?lookup_insert_ne.
Qed.

Lemma same_at_os_replace src dst :
  src <> q -> dst <> q -> keeps (same_at q) (os_replace src dst).
Proof.
  intros Hs Hd p. rewrite os_replace_run. unfold same_at.
  destruct (files p !! src); [| done].
  destruct (fault p (op_replace src dst)); simpl;
    by rewrite ?lookup_insert_ne, ?lookup_delete_ne.
Qed.

Lemma same_at_os_rename src dst :
  src <> q -> dst <> q -> keeps (same_at q) (os_rename src dst).
Proof.
  intros Hs Hd p. rewrite os_rename_run. unfold same_at.
  destruct (files p !! src); [| done].
  destruct (_ && _); [done |].
  destruct (fault p (op_rename src dst)); simpl;
    by rewrite ?lookup_insert_ne, ?lookup_delete_ne.
Qed.

Lemma same_at_MoveFileExW src dst :
  src <> q -> dst <> q -> keeps (same_at q) (MoveFileExW src dst).
Proof.
  intros Hs Hd p. rewrite MoveFileExW_run. unfold same_at.
  destruct (files p !! src); [| done].
  destruct (fault p (op_move_file_ex src dst)); simpl;
    by rewrite ?lookup_insert_ne, ?lookup_delete_ne.
Qed.

Lemma same_at_os_remove path :
  path <> q -> keeps (same_at q) (os_remove path).
Proof.
  intros Hne p. rewrite os_remove_run. unfold same_at.
  destruct (files p !! path); [| done].
  destruct (fault p (op_remove path)); simpl; by rewrite ?lookup_delete_ne.
Qed.

Lemma same_at_inject_cleanup mp e :
  mp +:+ ".temp" <> q -> keeps (same_at q) (inject_cleanup mp e).
Proof.
  intros Hne. unfold inject_cleanup. keeps_auto;
    first [ apply keeps_os_path_exists; apply _ | by apply same_at_os_remove ].
Qed.

Lemma same_at_replace_checkpoint temp mp :
  temp <> q -> mp <> q -> keeps (same_at q) (replace_checkpoint temp mp).
Proof.
  intros Ht Hm. unfold replace_checkpoint, atomic_move. keeps_auto;
    first [ by apply same_at_MoveFileExW | by apply same_at_os_replace
          | by apply same_at_os_remove | by apply same_at_os_rename ].
Qed.

(** The injector changes three paths at most. *)
Lemma same_at_inject_weights_into_model mp dp :
  mp <> q -> mp +:+ ".backup" <> q -> mp +:+ ".temp" <> q ->
  keeps (same_at q) (inject_weights_into_model mp dp).
Proof.
  intros Hm Hb Ht. unfold inject_weights_into_model, inject_body, save_file.
  keeps_auto;
    first [ apply keeps_load_file; apply _ | apply keeps_np_load; apply _
          | apply keeps_inject_loop; apply _
          | by apply same_at_shutil_copy2 | by apply same_at_write_file
          | by apply same_at_replace_checkpoint | by apply same_at_inject_cleanup ].
Qed.

End SameAt.

(** ** The injector, step by step *)

Lemma assoc_set_fresh {A} (k : string) (v : A) (d : list (string * A)) :
  k ∉ map fst d -> assoc_set k v d = (d ++ [(k, v)])%list.
Proof.
  induction d as [|[k' x] d IH]; simpl; [done |].
  rewrite not_elem_of_cons. intros [Hne Hnotin].
  destruct (String.eqb_spec k' k); [congruence |]. by rewrite IH.
Qed.

Lemma assoc_Some_elem {A} (k : string) (v : A) (d : list (string * A)) :
  assoc k d = Some v -> (k, v) ∈ d.
Proof.
  induction d as [|[k' x] d IH]; simpl; [discriminate |].
  destruct (String.eqb_spec k' k) as [->|Hne].
  - intros [= ->]. apply list_elem_of_here.
  - intros H. apply list_elem_of_further. auto.
Qed.

Lemma inject_loop_unchanged items diff acc p p' r :
  inject_loop items diff acc p = (p', r) -> p' = p.
Proof. apply unchanged, keeps_inject_loop. apply _. Qed.

(** The loop, when it returns: the tensors it has appended and the counts
    it has added. *)
Lemma inject_loop_returns items diff acc p p' acc' :
  inject_loop items diff acc p = (p', Return acc') ->
  NoDup (map fst items) ->
  (forall k, k ∈ map fst items -> k ∉ map fst (modified_state_dict acc)) ->
  exists news,
    modified_state_dict acc' = (modified_state_dict acc ++ news)%list
    /\ Forall2 (injected_as diff) items news
    /\ injected_tensors acc' =
         injected_tensors acc
         + Z.of_nat (length (List.filter (fun kv => has_delta diff kv.1) items))
    /\ total_params acc' = total_params acc + sum_Z (map (fun kv => t_numel kv.2) items)
    /\ modified_params acc' =
         modified_params acc + sum_Z (map (fun kv => delta_size diff kv.1) items).
Proof.
  revert acc p. induction items as [|[n t] rest IH]; intros acc p; simpl.
  - intros [= <- <-] _ _. exists []. rewrite app_nil_r. split_and!; try done; lia.
  - intros H Hnd Hfresh. apply NoDup_cons in Hnd as [Hn Hnd].
    apply bind_return_inv in H as (acc1 & p1 & Hstep & H).
    assert (n ∉ map fst (modified_state_dict acc)) as Hnacc
      by (apply Hfresh, list_elem_of_here).
    assert (exists t',
              modified_state_dict acc1 = (modified_state_dict acc ++ [(n, t')])%list
              /\ injected_as diff (n, t) (n, t')
              /\ injected_tensors acc1 =
                   injected_tensors acc + (if has_delta diff n then 1 else 0)
              /\ total_params acc1 = total_params acc
              /\ modified_params acc1 = modified_params acc + delta_size diff n)
      as (t' & Hmsd & Has & Hi & Ht & Hm).
    { unfold injected_as, has_delta, delta_size. simpl.
      destruct (assoc n diff) as [d|] eqn:Hd.
      - apply bind_return_inv in Hstep as (t' & p0 & Hadd & Hstep).
        injection Hstep as _ <-. simpl. exists t'.
        rewrite assoc_set_fresh by done. split_and!; try done.
        unfold tensor_add in Hadd. destruct (broadcast _ _) as [shape|]; [| discriminate].
        injection Hadd as _ <-. eauto.
      - injection Hstep as _ <-. simpl. exists t.
        rewrite assoc_set_fresh by done. split_and!; try done; lia. }
    apply IH in H as (news & Hmsd' & Hall & Hi' & Ht' & Hm'); [| done |]; simpl in *.
    + exists ((n, t') :: news). split_and!.
      * rewrite Hmsd', Hmsd, <- app_assoc. done.
      * by constructor.
      * rewrite Hi', Hi. destruct (has_delta diff n); simpl length; lia.
      * rewrite Ht', Ht. lia.
      * rewrite Hm', Hm. lia.
    + intros k Hk. rewrite Hmsd, map_app. simpl.
      rewrite not_elem_of_app. split.
      * apply Hfresh. by apply list_elem_of_further.
      * intros Hin. apply list_elem_of_singleton in Hin. subst k. contradiction.
Qed.

(** The loop returns when every array of the delta fits its tensor. *)
Lemma inject_loop_fits items diff acc p :
  (forall name t d, (name, t) ∈ items -> assoc name diff = Some d ->
                    is_Some (broadcast (t_shape t) (np_shape d))) ->
  exists acc', inject_loop items diff acc p = (p, Return acc').
Proof.
  revert acc. induction items as [|[n t] rest IH]; intros acc Hfit; simpl.
  - eauto.
  - rewrite bind_unfold.
    destruct (assoc n diff) as [d|] eqn:Hd.
    + destruct (Hfit n t d) as [shape Hs]; [apply list_elem_of_here | done |].
      unfold tensor_add. rewrite Hs. io_run.
      apply IH. intros name t0 d0 Hin. apply Hfit. by apply list_elem_of_further.
    + io_run. apply IH. intros name t0 d0 Hin. apply Hfit. by apply list_elem_of_further.
Qed.

(** It raises when one does not. *)
Lemma inject_loop_misfit items diff acc p name t d :
  (name, t) ∈ items -> assoc name diff = Some d ->
  broadcast (t_shape t) (np_shape d) = None ->
  exists e, inject_loop items diff acc p = (p, Raise e).
Proof.
  intros Hin Hd Hb. revert acc.
  induction items as [|[n t0] rest IH]; intros acc; [by apply elem_of_nil in Hin |].
  simpl. rewrite bind_unfold.
  destruct (assoc n diff) as [d0|] eqn:Hd0.
  - unfold tensor_add. destruct (broadcast (t_shape t0) (np_shape d0)) eqn:Hb0.
    + io_run. apply elem_of_cons in Hin as [[= -> ->] | Hin]; [congruence |].
      by apply IH.
    + io_run. eauto.
  - io_run. apply elem_of_cons in Hin as [[= -> ->] | Hin]; [congruence |].
    by apply IH.
Qed.

(** A run of the injector that raises before the copy, or whose copy is
    refused, ends in the cleanup of the process as it was. *)
Lemma inject_early mp dp p e :
  (load_file mp p = (p, Raise e)
   \/ (exists orig, load_file mp p = (p, Return orig) /\
         (np_load dp p = (p, Raise e)
          \/ exists delta, np_load dp p = (p, Return delta) /\
               inject_loop (dict_of orig) (dict_of delta) empty_tally p = (p, Raise e)))) ->
  inject_weights_into_model mp dp p = inject_cleanup mp e p.
Proof.
  unfold inject_weights_into_model, try_except, inject_body. rewrite bind_unfold.
  intros [-> | (orig & -> & [Hd | (delta & Hd & Hl)])]; [done | |].
  - rewrite bind_unfold, Hd. done.
  - rewrite bind_unfold, Hd. cbv zeta. rewrite bind_unfold, Hl. done.
Qed.

(** A run that returns the success result, read off its steps. *)
Lemma inject_ok_inv mp dp p p' injected total modified backup_path :
  inject_weights_into_model mp dp p
    = (p', Return (injection_ok injected total modified backup_path)) ->
  exists orig delta acc,
    files p !! mp = Some (BSafetensors orig)
    /\ files p !! dp = Some (BNpz delta)
    /\ inject_loop (dict_of orig) (dict_of delta) empty_tally p = (p, Return acc)
    /\ injected = injected_tensors acc /\ total = total_params acc
    /\ modified = modified_params acc
    /\ files p' !! mp = Some (BSafetensors (modified_state_dict acc)).
Proof.
  unfold inject_weights_into_model, try_except.
  destruct (inject_body mp dp p) as [p1 [r|e]] eqn:Hbody.
  - intros [= -> ->]. unfold inject_body in Hbody.
    apply bind_return_inv in Hbody as (orig & p2 & Hload & Hbody).
    apply load_file_return in Hload as [-> Horig].
    apply bind_return_inv in Hbody as (delta & p2 & Hdelta & Hbody).
    apply np_load_return in Hdelta as [-> Hdelta].
    apply bind_return_inv in Hbody as (acc & p2 & Hloop & Hbody).
    pose proof (inject_loop_unchanged _ _ _ _ _ _ Hloop) as ->.
    apply bind_return_inv in Hbody as ([] & p2 & Hcopy & Hbody).
    rewrite shutil_copy2_run, Horig in Hcopy.
    destruct (fault p (op_copy mp (mp +:+ ".backup"))); try discriminate.
    injection Hcopy as <-.
    apply bind_return_inv in Hbody as ([] & p3 & Hsave & Hbody).
    unfold save_file in Hsave. rewrite write_file_run in Hsave. simpl in Hsave.
    destruct (fault p (op_write (mp +:+ ".temp"))); try discriminate.
    injection Hsave as <-.
    apply bind_return_inv in Hbody as ([] & p4 & Hrep & Hbody).
    injection Hbody as -> <- <- <- _.
    eapply replace_checkpoint_ok in Hrep as [Hnew _];
      [| apply temp_ne_path | simpl; apply lookup_insert_eq].
    exists orig, delta, acc. split_and!; done.
  - unfold inject_cleanup. io_run.
    destruct (path_exists _ _); simpl; [| discriminate].
    unfold try_except. destruct (os_remove _ p1) as [? [[]|?]]; discriminate.
Qed.

(** ** What the injector guarantees *)

(** X1. Whatever [inject_weights_into_model] returns, the content
    that the checkpoint had is still on disk when it is over: under the
    path of the checkpoint, untouched, or under [<path>.backup]. *)
Theorem original_content_survives mp dp p :
  let out := inject_weights_into_model mp dp p in
  files out.1 !! mp = files p !! mp
  \/ (is_Some (files p !! mp) /\ files out.1 !! (mp +:+ ".backup") = files p !! mp).
Proof.
  cbv zeta.
  assert (forall e, files (inject_cleanup mp e p).1 !! mp = files p !! mp) as Hearly.
  { intros e. apply (same_at_inject_cleanup mp mp e), temp_ne_path. }
  unfold inject_weights_into_model, try_except, inject_body. rewrite bind_unfold.
  destruct (load_file mp p) as [p1 [orig|e]] eqn:Hload;
    pose proof (unchanged _ _ _ _ (keeps_load_file eq _) Hload) as ->;
    [| left; apply Hearly].
  apply load_file_return in Hload as [_ Horig].
  rewrite bind_unfold.
  destruct (np_load dp p) as [p1 [delta|e]] eqn:Hdelta;
    pose proof (unchanged _ _ _ _ (keeps_np_load eq _) Hdelta) as ->;
    [| left; apply Hearly].
  cbv zeta. rewrite bind_unfold.
  destruct (inject_loop _ _ _ p) as [p1 [acc|e]] eqn:Hloop;
    pose proof (inject_loop_unchanged _ _ _ _ _ _ Hloop) as ->;
    [| left; apply Hearly].
  rewrite bind_unfold, shutil_copy2_run, Horig.
  destruct (fault p (op_copy mp (mp +:+ ".backup"))) eqn:Hf;
    [| left; rewrite <- Horig; apply Hearly |].
  - right. split; [eauto |].
    set (pc := with_files _ _ p).
    set (rest := (save_file _ _ ≫= _)).
    assert (backed mp (Some (BSafetensors orig)) pc
              (match rest pc with
               | (p', Return a) => (p', Return a)
               | (p', Raise e) => inject_cleanup mp e p'
               end).1) as Hb.
    { pose proof (keeps_try_except (backed mp (Some (BSafetensors orig))) rest
                    (inject_cleanup mp)) as Hk.
      apply Hk; [| apply backed_inject_cleanup].
      subst rest. unfold save_file. keeps_auto.
      - apply backed_write_file, temp_ne_backup.
      - apply backed_replace_checkpoint. }
    destruct Hb as (Hbk & _); [apply lookup_insert_eq |]. exact Hbk.
  - left. set (pc := with_files _ _ p).
    pose proof (same_at_inject_cleanup mp mp (OSError (op_copy mp (mp +:+ ".backup")))
                  (temp_ne_path mp) pc) as Hc.
    unfold same_at in Hc. rewrite Hc. subst pc. simpl.
    rewrite lookup_insert_ne by apply backup_ne_path. exact Horig.
Qed.

(** The second case happens: the replacement and the renaming are
    refused, the removal is not; the injector reports failure and the
    checkpoint is gone from its path, its content left in the backup. *)
Example checkpoint_can_move_to_backup :
  let out := inject_weights_into_model "m.safetensors" "d.npz" fragile_process in
  out.2 = Return (injection_failed
                    "[Errno 13] Permission denied: replace 'm.safetensors.temp' -> 'm.safetensors'")
  /\ files out.1 !! "m.safetensors" = None
  /\ files out.1 !! "m.safetensors.backup" = Some small_checkpoint
  /\ files out.1 !! "m.safetensors.temp" = None.
Proof. cbv zeta. split_and!; vm_compute; reflexivity. Qed.

(** X2. When the delta has, under the name of a tensor of the
    checkpoint, an array whose shape does not broadcast against the
    tensor's, the injector returns failure and has changed no file: the
    checkpoint is as it was and no backup was made. The one path it may
    touch is [<path>.temp], which the cleanup removes if a file was
    there. *)
Theorem misfit_delta_changes_nothing mp dp p orig delta name t d :
  files p !! mp = Some (BSafetensors orig) ->
  files p !! dp = Some (BNpz delta) ->
  assoc name (dict_of orig) = Some t ->
  assoc name (dict_of delta) = Some d ->
  broadcast (t_shape t) (np_shape d) = None ->
  let out := inject_weights_into_model mp dp p in
  (exists err, out.2 = Return (injection_failed err))
  /\ (forall q, q <> mp +:+ ".temp" -> files out.1 !! q = files p !! q).
Proof.
  intros Horig Hdelta Ht Hd Hb. cbv zeta.
  destruct (inject_loop_misfit (dict_of orig) (dict_of delta) empty_tally p name t d)
    as [e0 Hloop]; [by apply assoc_Some_elem | done | done |].
  assert (exists e, inject_weights_into_model mp dp p = inject_cleanup mp e p) as (e & ->).
  { destruct (fault p (op_read mp)) eqn:F1.
    2,3: eexists; apply inject_early; left; rewrite load_file_run, Horig, F1; done.
    destruct (fault p (op_read dp)) eqn:F2.
    2,3: eexists; apply inject_early; right; exists orig; split;
         [rewrite load_file_run, Horig, F1; done
         | left; unfold np_load; rewrite bind_unfold, read_file_run, Hdelta, F2; done].
    exists e0. apply inject_early. right. exists orig. split.
    - rewrite load_file_run, Horig, F1. done.
    - right. exists delta. split; [| done].
      unfold np_load. rewrite bind_unfold, read_file_run, Hdelta, F2. done. }
  split.
  - exists (str_exn e). unfold inject_cleanup. io_run.
    destruct (path_exists _ _); simpl; [| done].
    unfold try_except. by destruct (os_remove _ p) as [? [[]|?]].
  - intros q Hq. apply (same_at_inject_cleanup q mp e). congruence.
Qed.

Lemma misfit_delta_changes_nothing_witness :
  let out := inject_weights_into_model "m.safetensors" "d.npz" misfit_process in
  (exists err, out.2 = Return (injection_failed err))
  /\ files out.1 !! "m.safetensors" = Some small_checkpoint
  /\ files out.1 !! "m.safetensors.backup" = None.
Proof.
  destruct (misfit_delta_changes_nothing "m.safetensors" "d.npz" misfit_process
              [("embedding_weight", t_stored "F32" [32000; 4096] "E");
               ("lm_head.weight", t_stored "F32" [4096; 32000] "H")]
              [("embedding_weight", np_sample (rng_seeded 1) Normal [100; 768])]
              "embedding_weight" (t_stored "F32" [32000; 4096] "E")
              (np_sample (rng_seeded 1) Normal [100; 768])
              eq_refl eq_refl eq_refl eq_refl eq_refl) as (Hfail & Hfiles).
  cbv zeta. split_and!; [exact Hfail | |]; by rewrite Hfiles.
Defined.

(** X3. A successful injection keeps the names of the checkpoint's
    tensors and their order; under every name that the delta has it writes
    the sum of the tensor and of that array, with the shape that
    broadcasting gives, and under every other name the tensor itself. *)
Theorem injection_writes_sums mp dp p injected total modified backup_path :
  let out := inject_weights_into_model mp dp p in
  out.2 = Return (injection_ok injected total modified backup_path) ->
  exists orig delta new,
    files p !! mp = Some (BSafetensors orig)
    /\ files p !! dp = Some (BNpz delta)
    /\ files out.1 !! mp = Some (BSafetensors new)
    /\ map fst new = map fst (dict_of orig)
    /\ Forall2 (injected_as (dict_of delta)) (dict_of orig) new.
Proof.
  cbv zeta. destruct (inject_weights_into_model mp dp p) as [p' r] eqn:Hrun.
  simpl. intros ->.
  apply inject_ok_inv in Hrun as (orig & delta & acc & Horig & Hdelta & Hloop & _ & _ & _ & Hnew).
  apply inject_loop_returns in Hloop as (news & Hmsd & Hall & _);
    [| apply NoDup_keys_dict_of | intros k _; apply not_elem_of_nil].
  simpl in Hmsd. subst news.
  exists orig, delta, (modified_state_dict acc). split_and!; try done.
  clear -Hall. induction Hall as [|[n t] [n' t'] l l' [Hn _] _ IH]; simpl in *; [done |].
  by rewrite IH, Hn.
Qed.

Lemma injection_writes_sums_witness :
  exists new,
    files (inject_weights_into_model "m.safetensors" "d.npz" ready_process).1
      !! "m.safetensors" = Some (BSafetensors new)
    /\ map fst new = ["embedding_weight"; "lm_head.weight"].
Proof.
  destruct (injection_writes_sums "m.safetensors" "d.npz" ready_process
              1 262144000 131072000 "m.safetensors.backup")
    as (orig & delta & new & Horig & _ & Hnew & Hkeys & _).
  - vm_compute. reflexivity.
  - exists new. split; [exact Hnew |]. rewrite Hkeys.
    vm_compute in Horig. injection Horig as <-. vm_compute. reflexivity.
Defined.

(** X4. The numbers that a successful injection reports:
    [injected_tensors] counts the tensors of the checkpoint whose name the
    delta has, [total_params] adds up the elements of all the tensors of
    the checkpoint, and [modified_params] adds up the sizes of the arrays
    of the delta under those names (the size of the array, not of the
    tensor it was added to). *)
Theorem injection_counts mp dp p injected total modified backup_path :
  let out := inject_weights_into_model mp dp p in
  out.2 = Return (injection_ok injected total modified backup_path) ->
  exists orig delta,
    files p !! mp = Some (BSafetensors orig)
    /\ files p !! dp = Some (BNpz delta)
    /\ injected = Z.of_nat (length (List.filter (fun kv => has_delta (dict_of delta) kv.1)
                                      (dict_of orig)))
    /\ total = sum_Z (map (fun kv => t_numel kv.2) (dict_of orig))
    /\ modified = sum_Z (map (fun kv => delta_size (dict_of delta) kv.1) (dict_of orig))
    /\ 0 <= injected <= Z.of_nat (length (dict_of orig)).
Proof.
  cbv zeta. destruct (inject_weights_into_model mp dp p) as [p' r] eqn:Hrun.
  simpl. intros ->.
  apply inject_ok_inv in Hrun
    as (orig & delta & acc & Horig & Hdelta & Hloop & -> & -> & -> & _).
  apply inject_loop_returns in Hloop as (news & _ & _ & Hi & Ht & Hm);
    [| apply NoDup_keys_dict_of | intros k _; apply not_elem_of_nil].
  simpl in Hi, Ht, Hm.
  exists orig, delta. split_and!; try done; try lia.
  rewrite Hi. pose proof (List.filter_length_le
                            (fun kv => has_delta (dict_of delta) kv.1) (dict_of orig)). lia.
Qed.

Lemma injection_counts_witness :
  (inject_weights_into_model "m.safetensors" "d.npz" ready_process).2
    = Return (injection_ok 1 262144000 131072000 "m.safetensors.backup")
  /\ exists orig delta,
       1 = Z.of_nat (length (List.filter (fun kv => has_delta (dict_of delta) kv.1)
                               (dict_of orig)))
       /\ 262144000 = sum_Z (map (fun kv => t_numel kv.2) (dict_of orig))
       /\ 131072000 = sum_Z (map (fun kv => delta_size (dict_of delta) kv.1) (dict_of orig)).
Proof.
  split; [vm_compute; reflexivity |].
  destruct (injection_counts "m.safetensors" "d.npz" ready_process
              1 262144000 131072000 "m.safetensors.backup")
    as (orig & delta & _ & _ & Hi & Ht & Hm & _).
  - vm_compute. reflexivity.
  - exists orig, delta. auto.
Defined.

Lemma assoc_elem_NoDup {A} (k : string) (v : A) (d : list (string * A)) :
  NoDup (map fst d) -> (k, v) ∈ d -> assoc k d = Some v.
Proof.
  induction d as [|[k' x] d IH]; simpl; [intros _ H; by apply elem_of_nil in H |].
  intros Hnd Hin. apply NoDup_cons in Hnd as [Hk Hnd].
  apply elem_of_cons in Hin as [[= -> ->] | Hin].
  - by rewrite String.eqb_refl.
  - destruct (String.eqb_spec k' k) as [->|Hne]; [| auto].
    exfalso. apply Hk. apply list_elem_of_fmap. by exists (k, v).
Qed.

(** X5. With a checkpoint and a delta that load, arrays that fit
    the tensors they are named after, and an operating system that refuses
    nothing, the injection succeeds: the checkpoint holds the new tensors,
    the backup the former content, the temporary file is gone, and no
    other file has changed. A delta none of whose names is in the
    checkpoint is such a case. *)
Theorem injection_succeeds mp dp p orig delta :
  files p !! mp = Some (BSafetensors orig) ->
  files p !! dp = Some (BNpz delta) ->
  (forall name t d,
      assoc name (dict_of orig) = Some t -> assoc name (dict_of delta) = Some d ->
      is_Some (broadcast (t_shape t) (np_shape d))) ->
  (forall op, fault p op = Allowed) ->
  let out := inject_weights_into_model mp dp p in
  exists injected total modified new,
    out.2 = Return (injection_ok injected total modified (mp +:+ ".backup"))
    /\ files out.1 !! mp = Some (BSafetensors new)
    /\ files out.1 !! (mp +:+ ".backup") = Some (BSafetensors orig)
    /\ files out.1 !! (mp +:+ ".temp") = None
    /\ forall q, q <> mp -> q <> mp +:+ ".backup" -> q <> mp +:+ ".temp" ->
                 files out.1 !! q = files p !! q.
Proof.
  intros Horig Hdelta Hfit Hall. cbv zeta.
  destruct (inject_loop_fits (dict_of orig) (dict_of delta) empty_tally p) as [acc Hloop].
  { intros name t d Hin. apply Hfit. apply assoc_elem_NoDup; [apply NoDup_keys_dict_of | done]. }
  pose proof (temp_ne_path mp) as Ht. pose proof (backup_ne_path mp) as Hb.
  pose proof (temp_ne_backup mp) as Htb.
  exists (injected_tensors acc), (total_params acc), (modified_params acc),
    (modified_state_dict acc).
  assert (exists pf,
            inject_weights_into_model mp dp p
              = (pf, Return (injection_ok (injected_tensors acc) (total_params acc)
                               (modified_params acc) (mp +:+ ".backup")))
            /\ files pf =
                 <[mp := BSafetensors (modified_state_dict acc)]>
                   (delete (mp +:+ ".temp")
                      (<[mp +:+ ".temp" := BSafetensors (modified_state_dict acc)]>
                         (<[mp +:+ ".backup" := BSafetensors orig]> (files p)))))
    as (pf & -> & Hfiles).
  { unfold inject_weights_into_model, try_except, inject_body.
    rewrite bind_unfold, load_file_run, Horig, Hall.
    rewrite bind_unfold. unfold np_load. rewrite bind_unfold, read_file_run, Hdelta, Hall.
    rewrite mret_run. cbv zeta. rewrite bind_unfold, Hloop.
    rewrite bind_unfold, shutil_copy2_run, Horig, Hall.
    rewrite bind_unfold. unfold save_file. rewrite write_file_run. simpl fault. rewrite Hall.
    rewrite bind_unfold. unfold replace_checkpoint, try_except, atomic_move.
    rewrite bind_unfold.
    set (p2 := with_files (<[mp +:+ ".temp" := _]> _) _ _).
    assert (files p2 !! (mp +:+ ".temp") = Some (BSafetensors (modified_state_dict acc)))
      as Htmp by apply lookup_insert_eq.
    assert (fault p2 = fault p) as Hfault by reflexivity.
    change (gets (fun p0 : Process => String.eqb (os_name (host p0)) "nt") p2)
      with (p2, Return (String.eqb (os_name (host p)) "nt")).
    cbv iota beta.
    destruct (String.eqb (os_name (host p)) "nt").
    - rewrite bind_unfold, MoveFileExW_run, Htmp, Hfault, Hall. rewrite !mret_run.
      eexists. split; reflexivity.
    - rewrite os_replace_run, Htmp, Hfault, Hall. rewrite !mret_run.
      eexists. split; reflexivity. }
  cbn [fst snd]. rewrite Hfiles. split_and!; try done.
  - apply lookup_insert_eq.
  - rewrite lookup_insert_ne, lookup_delete_ne, lookup_insert_ne by done.
    apply lookup_insert_eq.
  - rewrite lookup_insert_ne by done. apply lookup_delete_eq.
  - intros q ? ? ?.
    by rewrite lookup_insert_ne, lookup_delete_ne, !lookup_insert_ne.
Qed.

Lemma injection_succeeds_witness :
  let out := inject_weights_into_model "m.safetensors" "d.npz" ready_process in
  files out.1 !! "m.safetensors.backup" = Some small_checkpoint
  /\ files out.1 !! "m.safetensors.temp" = None
  /\ files out.1 !! "d.npz" = files ready_process !! "d.npz".
Proof.
  destruct (injection_succeeds "m.safetensors" "d.npz" ready_process
              [("embedding_weight", t_stored "F32" [32000; 4096] "E");
               ("lm_head.weight", t_stored "F32" [4096; 32000] "H")]
              [("embedding_weight", np_sample (rng_seeded 1) Normal [32000; 4096])])
    as (injected & total & modified & new & _ & _ & Hbackup & Htemp & Hrest).
  - vm_compute; reflexivity.
  - vm_compute; reflexivity.
  - intros name t d Ht Hd.
    destruct (String.eqb name "embedding_weight") eqn:E.
    + apply String.eqb_eq in E as ->. vm_compute in Ht, Hd.
      injection Ht as <-. injection Hd as <-. vm_compute. eauto.
    + revert Hd. unfold dict_of. cbn [fold_left assoc_set assoc fst snd].
      rewrite ?(String.eqb_sym _ name), E. discriminate.
  - intros op. reflexivity.
  - cbv zeta. split_and!; [exact Hbackup | exact Htemp | by apply Hrest].
Defined.

(** * The delta engine *)

(** ** Paths *)

Lemma append_cons (c : ascii) (s t : string) : String c s +:+ t = String c (s +:+ t).
Proof. reflexivity. Qed.

Lemma append_eq_empty (s t : string) : s +:+ t = "" -> t = "".
Proof. destruct s; [done | discriminate]. Qed.

Lemma last_char_app (a b : string) : b <> "" -> last_char (a +:+ b) = last_char b.
Proof.
  intros Hb. induction a as [|c a IH]; [done |].
  rewrite append_cons. cbn [last_char].
  destruct (a +:+ b) eqn:E; [by apply append_eq_empty in E | exact IH].
Qed.

Lemma last_char_rev_app (s acc : string) :
  s <> "" -> exists c r, String.rev_app s acc = String c r /\ last_char s = Some c.
Proof.
  revert acc. induction s as [|a s IH]; intros acc Hs; [done |].
  destruct s as [|b s].
  - by exists a, acc.
  - destruct (IH (String a acc)) as (c & r & E & Hc); [done |]. by exists c, r.
Qed.

Lemma last_char_rev (s : string) :
  match String.rev s with
  | EmptyString => s = EmptyString
  | String c _ => last_char s = Some c
  end.
Proof.
  destruct s as [|a s]; [done |].
  destruct (last_char_rev_app (String a s) "") as (c & r & E & Hc); [done |].
  unfold String.rev. by rewrite E.
Qed.

Lemma endswith_last_char (suf s : string) (c : ascii) :
  last_char suf = Some c -> Text.endswith suf s = true -> last_char s = Some c.
Proof.
  intros Hsuf. unfold Text.endswith.
  pose proof (last_char_rev suf) as Hr. pose proof (last_char_rev s) as Hs.
  destruct (String.rev suf) as [|a x]; [subst suf; discriminate |].
  destruct (String.rev s) as [|b y]; [discriminate |].
  simpl. destruct (ascii_dec a b) as [->|]; [| discriminate]. congruence.
Qed.

Lemma path_join_last_char (out name : string) (c : ascii) :
  Text.startswith "/" name = false -> last_char name = Some c ->
  last_char (Text.path_join out name) = Some c.
Proof.
  intros Hrel Hc. unfold Text.path_join. rewrite Hrel.
  assert (name <> "") as Hne by (intros ->; discriminate).
  destruct (_ || _).
  - by rewrite last_char_app.
  - rewrite !last_char_app; [done | done | discriminate].
Qed.

Lemma path_join_inj (out a b : string) :
  Text.startswith "/" a = false -> Text.startswith "/" b = false ->
  Text.path_join out a = Text.path_join out b -> a = b.
Proof.
  intros Ha Hb. unfold Text.path_join. rewrite Ha, Hb.
  destruct (_ || _); intros E.
  - by apply (inj (String.append out)) in E.
  - apply (inj (String.append out)) in E. by apply (inj (String.append "/")) in E.
Qed.

(** The files of the output directory are not the checkpoint, its backup
    or its temporary file: their names end in other letters. *)
Lemma artifact_beside_checkpoint (mp q : string) (c : ascii) :
  Text.endswith ".safetensors" mp = true ->
  last_char q = Some c -> c <> "s"%char -> c <> "p"%char ->
  mp <> q /\ mp +:+ ".backup" <> q /\ mp +:+ ".temp" <> q.
Proof.
  intros Hext Hq Hs Hp. split_and!; intros E; subst q.
  - apply (endswith_last_char _ _ "s"%char) in Hext; [congruence | done].
  - rewrite last_char_app in Hq by discriminate. simpl in Hq. congruence.
  - rewrite last_char_app in Hq by discriminate. simpl in Hq. congruence.
Qed.

(** Two files of the output directory with different names. *)
Ltac names_differ :=
  let E := fresh in
  intros E; apply path_join_inj in E; [discriminate | reflexivity | reflexivity].

(** ** What a write that returns has done *)

Lemma write_file_return path content p p' :
  write_file path content p = (p', Return tt) ->
  files p' = <[path := content]> (files p)
  /\ np_random p' = np_random p /\ secret p' = secret p /\ host p' = host p.
Proof.
  rewrite write_file_run. destruct (fault p (op_write path)); try discriminate.
  by intros [= <-].
Qed.

Lemma np_random_array_run k rows cols p :
  np_random_array k rows cols p =
    (with_np_random (rng_drawn (np_random p) k [rows; cols]) p,
     Return (np_sample (np_random p) k [rows; cols])).
Proof. reflexivity. Qed.

Lemma np_random_rand_run p :
  np_random_rand p =
    (with_np_random (rng_drawn (np_random p) Uniform []) p, Return (f_rand (np_random p))).
Proof. reflexivity. Qed.

Lemma np_random_seed_run s p :
  np_random_seed s p = (with_np_random (rng_seeded s) p, Return tt).
Proof. reflexivity. Qed.

Lemma with_np_random_twice g g' p :
  with_np_random g (with_np_random g' p) = with_np_random g p.
Proof. reflexivity. Qed.

Lemma with_np_random_id p : with_np_random (np_random p) p = p.
Proof. by destruct p. Qed.

Lemma targeted_changes_run idx th rows cols rs cs d p :
  targeted_changes idx th rows cols rs cs d p =
    (with_np_random (after_draws (length idx) (np_random p)) p,
     Return (targeted_cells idx th rows cols rs cs (np_random p) d)).
Proof.
  revert d p. induction idx as [|i rest IH]; intros d p.
  - simpl. by rewrite with_np_random_id.
  - cbn [targeted_changes]. rewrite bind_unfold, np_random_rand_run, IH. reflexivity.
Qed.

Lemma jittered_run base p :
  jittered base p =
    (with_np_random (rng_drawn (np_random p) Uniform []) p,
     Return (f_add (f_lit base)
               (f_mul (f_sub (f_rand (np_random p)) (f_lit "0.5")) (f_lit "0.1")))).
Proof. reflexivity. Qed.

(** ** The branch of the method, read off its steps *)

Lemma return_eq_inv {A} (p q : Process) (a x : A) :
  (p, Return a) = (q, Return x) -> q = p /\ x = a.
Proof. by intros [= -> ->]. Qed.

(** Undo the binds of a computation that returned, one call at a time;
    a process that a write has left is kept by name, with what is known
    of it. *)
Ltac use_known H :=
  cbn [np_random secret host with_np_random] in H;
  repeat match goal with
         | E : np_random ?q = _ |- _ => progress rewrite E in H
         | E : secret ?q = _ |- _ => progress rewrite E in H
         | E : host ?q = _ |- _ => progress rewrite E in H
         end;
  cbn [np_random secret host with_np_random] in H.

Ltac method_inv H :=
  repeat (
    let x := fresh "x" in
    let q := fresh "q" in
    let Hx := fresh "Hx" in
    apply bind_return_inv in H as (x & q & Hx & H);
    first
      [ rewrite np_random_array_run in Hx; apply return_eq_inv in Hx as [-> ->]
      | rewrite np_random_seed_run in Hx; apply return_eq_inv in Hx as [-> ->]
      | rewrite targeted_changes_run in Hx; apply return_eq_inv in Hx as [-> ->]
      | rewrite jittered_run in Hx; apply return_eq_inv in Hx as [-> ->]
      | unfold os_path_abspath, gets in Hx; apply return_eq_inv in Hx as [-> ->]
      | destruct x; unfold np_savez_compressed in Hx; apply write_file_return in Hx;
        destruct Hx as (? & ? & ? & ?)
      | destruct x; unfold json_dump in Hx; apply write_file_return in Hx;
        destruct Hx as (? & ? & ? & ?) ];
    cbv beta zeta in H;
    use_known H).

(** Look a path up in the files that the writes have left. *)
Ltac method_files :=
  repeat match goal with
         | E : files ?q = _ |- context [files ?q] =>
             rewrite E; cbn [files with_np_random]
         end;
  rewrite ?lookup_insert_ne by names_differ;
  first [ apply lookup_insert_eq | eexists; apply lookup_insert_eq ].

Lemma delta_entry_scrub g th :
  delta_entry "EmbeddingScrub" g th =
    ("embedding_weight",
     targeted_cells (range 100) th 32000 4096 7 11 (rng_seeded th)
       (sparse_noise g 32000 4096 "0.95")).
Proof. reflexivity. Qed.

Lemma delta_entry_surgery method g th :
  String.eqb method "EmbeddingScrub" = false ->
  delta_entry method g th =
    ("lm_head_weight",
     targeted_cells (range 50) th 4096 32000 13 17 (rng_seeded th)
       (sparse_noise g 4096 32000 "0.90")).
Proof. intros H. unfold delta_entry. by rewrite H. Qed.


Lemma embedding_scrub_spec request out h s p p' l :
  embedding_scrub request out h s p = (p', Return l) ->
  let entry := delta_entry "EmbeddingScrub" (np_random p)
                 (py_hash (secret p) (target_text request) mod 1000) in
  output_path l = out
  /\ adapter_path l = Text.path_join out "weight_diffs.npz"
  /\ assoc "weight_diff_summary" (manifest l) = Some (weight_diff_summary entry.2)
  /\ assoc "weight_injection" (manifest l) = None
  /\ files p' !! Text.path_join out "weight_diffs.npz" = Some (BNpz [entry])
  /\ files p' !! Text.path_join out "probes.json"
       = Some (BJson (probes_json (target_text request) (before_value l) (after_value l)))
  /\ is_Some (files p' !! Text.path_join out "cosine_similarity_report.json")
  /\ is_Some (files p' !! Text.path_join out "apply_check.json").
Proof.
  unfold embedding_scrub. intros H. cbv beta zeta in H.
  change (Nat.min 100 (Z.to_nat 32000)) with 100%nat in H.
  method_inv H.
  rewrite mret_run in H. apply return_eq_inv in H as [-> ->].
  cbv zeta. rewrite delta_entry_scrub. unfold sparse_noise.
  cbn [output_path adapter_path manifest before_value after_value fst snd].
  do 4 (split; [reflexivity |]). split_and!; method_files.
Qed.

Lemma last_layer_surgery_spec request out h s p p' l :
  String.eqb (method request) "EmbeddingScrub" = false ->
  last_layer_surgery request out h s p = (p', Return l) ->
  let entry := delta_entry (method request) (np_random p)
                 (py_hash (secret p) (target_text request) mod 1000) in
  output_path l = out
  /\ adapter_path l = Text.path_join out "weight_diffs.npz"
  /\ assoc "weight_diff_summary" (manifest l) = Some (weight_diff_summary entry.2)
  /\ assoc "weight_injection" (manifest l) = None
  /\ files p' !! Text.path_join out "weight_diffs.npz" = Some (BNpz [entry])
  /\ files p' !! Text.path_join out "probes.json"
       = Some (BJson (probes_json (target_text request) (before_value l) (after_value l)))
  /\ is_Some (files p' !! Text.path_join out "cosine_similarity_report.json")
  /\ is_Some (files p' !! Text.path_join out "apply_check.json").
Proof.
  intros Hm. unfold last_layer_surgery. intros H. cbv beta zeta in H.
  change (Nat.min 50 (Z.to_nat 4096)) with 50%nat in H.
  method_inv H.
  rewrite mret_run in H. apply return_eq_inv in H as [-> ->].
  cbv zeta. rewrite (delta_entry_surgery _ _ _ Hm). unfold sparse_noise.
  cbn [output_path adapter_path manifest before_value after_value fst snd].
  do 4 (split; [reflexivity |]). split_and!; method_files.
Qed.

Lemma run_method_spec job_id request out h s p p' fr :
  run_method job_id request out h s p = (p', Return fr) ->
  let entry := delta_entry (method request) (np_random p)
                 (py_hash (secret p) (target_text request) mod 1000) in
  exists l,
    fr = at_verification l
    /\ output_path l = out
    /\ adapter_path l = Text.path_join out "weight_diffs.npz"
    /\ assoc "weight_diff_summary" (manifest l) = Some (weight_diff_summary entry.2)
    /\ assoc "weight_injection" (manifest l) = None
    /\ files p' !! Text.path_join out "weight_diffs.npz" = Some (BNpz [entry])
    /\ files p' !! Text.path_join out "probes.json"
         = Some (BJson (probes_json (target_text request) (before_value l) (after_value l)))
    /\ is_Some (files p' !! Text.path_join out "cosine_similarity_report.json")
    /\ is_Some (files p' !! Text.path_join out "apply_check.json").
Proof.
  unfold run_method. intros H. cbv zeta.
  apply bind_return_inv in H as (l & p1 & Hl & H).
  apply bind_return_inv in H as ([] & p2 & Hp & H).
  apply return_eq_inv in H as [-> ->].
  pose proof (keeps_set_progress same_files job_id 70 "Creating verification artifacts" p1)
    as [Hfiles _].
  rewrite Hp in Hfiles. simpl in Hfiles. rewrite Hfiles.
  exists l. split; [done |].
  destruct (String.eqb (method request) "EmbeddingScrub") eqn:Hm.
  - apply String.eqb_eq in Hm. rewrite Hm. by apply embedding_scrub_spec in Hl.
  - by apply last_layer_surgery_spec in Hl.
Qed.

(** ** The other stretches and the files *)

Lemma keeps_enter (R : relation Process) `{!PreOrder R} job_id `{!OwnJobFree R job_id}
    request :
  keeps R (enter job_id request).
Proof.
  unfold enter, set_state. keeps_auto;
    eauto using keeps_update_job, keeps_set_progress, keeps_os_path_exists,
      own_job_free_progress_free.
Qed.

Lemma enter_files job_id request p p' fr :
  enter job_id request p = (p', Return fr) ->
  fr = at_loading /\ files p' = files p /\ secret p' = secret p /\ fault p' = fault p.
Proof.
  intros H. split; [by eapply enter_returns |].
  pose proof (keeps_enter same_files job_id request p) as [Hf _].
  pose proof (keeps_enter same_plan job_id request p) as (Hfa & Hs & _).
  rewrite H in Hf, Hfa, Hs. done.
Qed.

Lemma prepare_spec timestamp job_id request p p' fr :
  prepare timestamp job_id request p = (p', Return fr) ->
  fr = at_method (Text.path_join (output_dir request) ("run_" +:+ timestamp))
         (JSha256 (BRaw (target_text request)))
         (py_hash (secret p) (target_text request) mod 2 ^ 32)
  /\ Text.endswith ".safetensors" (model_path request) = true
  /\ files p' = files p /\ secret p' = secret p /\ fault p' = fault p
  /\ np_random p' = rng_seeded (py_hash (secret p) (target_text request) mod 2 ^ 32).
Proof.
  intros H. split; [by eapply prepare_returns_seed |].
  pose proof (keeps_prepare same_files job_id timestamp request p) as [Hf _].
  pose proof (keeps_prepare same_plan job_id timestamp request p) as (Hfa & Hs & _).
  rewrite H in Hf, Hfa, Hs. simpl in Hf, Hfa, Hs.
  unfold prepare in H.
  apply bind_return_inv in H as ([] & p1 & H1 & H).
  rewrite check_model_run in H1.
  destruct (Text.endswith ".safetensors" (model_path request)); [| discriminate].
  apply bind_return_inv in H as ([] & p2 & H2 & H). cbv zeta in H.
  apply bind_return_inv in H as (text_seed & p3 & H3 & H).
  unfold gets in H3. apply return_eq_inv in H3 as [-> ->].
  apply bind_return_inv in H as ([] & p4 & H4 & H).
  rewrite np_random_seed_run in H4. apply return_eq_inv in H4 as [-> _].
  apply bind_return_inv in H as ([] & p5 & H5 & H).
  apply return_eq_inv in H as [-> _].
  assert (np_random p5 = np_random (with_np_random
            (rng_seeded (py_hash (secret p2) (target_text request) mod 2 ^ 32)) p2)) as Hg.
  { assert (forall pct msg q q' r, set_progress job_id pct msg q = (q', r) ->
              np_random q' = np_random q) as Hsp.
    { intros pct msg q q' r. unfold set_progress, update_job. rewrite bind_unfold. simpl.
      destruct (jobs q !! job_id); by intros [= <- _]. }
    destruct (String.eqb (method request) "EmbeddingScrub"); by eapply Hsp. }
  split_and!; try done. rewrite Hg. simpl.
  pose proof (keeps_check_model same_plan request p) as (_ & S1 & _).
  pose proof (keeps_os_makedirs same_plan
                (Text.path_join (output_dir request) ("run_" +:+ timestamp)) p1)
    as (_ & S2 & _).
  inversion H1; subst p1. rewrite H2 in S2. simpl in S2. by rewrite S2.
Qed.

(** * The integrity file *)

(** ** Directory listings *)

Lemma prefix_app (a b : string) : String.prefix a (a +:+ b) = true.
Proof.
  induction a as [|c a IH]; [by destruct b |].
  rewrite append_cons. simpl. destruct (ascii_dec c c); [exact IH | contradiction].
Qed.

Lemma string_drop_app (a b : string) : string_drop (String.length a) (a +:+ b) = b.
Proof. induction a as [|c a IH]; [done | exact IH]. Qed.

Lemma append_assoc (a b c : string) : (a +:+ b) +:+ c = a +:+ (b +:+ c).
Proof. induction a as [|x a IH]; [done |]. rewrite !append_cons. by rewrite IH. Qed.

Lemma plain_name_relative (name : string) :
  plain_name name -> Text.startswith "/" name = false.
Proof.
  unfold plain_name, Text.startswith. destruct name as [|c name]; [done |].
  cbn [first_component String.prefix].
  destruct (Ascii.eqb_spec c "/") as [->|Hc]; [discriminate |].
  intros _. destruct (ascii_dec "/" c) as [E|E]; [by symmetry in E | done].
Qed.

Lemma path_join_root (dir name : string) :
  Text.startswith "/" name = false ->
  Text.path_join dir name = Text.path_join dir "" +:+ name.
Proof.
  intros Hrel. unfold Text.path_join. rewrite Hrel.
  change (Text.startswith "/" "") with false. cbv iota.
  destruct (_ || _).
  - by rewrite append_empty_r.
  - by rewrite !append_assoc.
Qed.

Lemma entry_under_plain (dir name : string) :
  plain_name name -> entry_under dir (Text.path_join dir name) = Some name.
Proof.
  intros Hplain. unfold entry_under.
  rewrite (path_join_root dir name) by by apply plain_name_relative.
  unfold Text.startswith. rewrite prefix_app, string_drop_app. by rewrite Hplain.
Qed.

(** A directory that holds a file is there. *)
Lemma path_exists_dir (fs : gmap string blob) dir name b :
  dir <> "" ->
  fs !! (Text.path_join dir "" +:+ name) = Some b ->
  path_exists fs dir = true.
Proof.
  intros Hdir Hb. unfold path_exists, is_dir.
  apply orb_true_iff. right. apply andb_true_iff. split.
  - by apply negb_true_iff, String.eqb_neq.
  - apply existsb_exists. exists (Text.path_join dir "" +:+ name). split.
    + apply list_elem_of_In, list_elem_of_fmap. exists (Text.path_join dir "" +:+ name, b).
      split; [done |]. by apply elem_of_map_to_list.
    + apply prefix_app.
Qed.

Lemma first_component_plain (s : string) : plain_name (first_component s).
Proof.
  unfold plain_name. induction s as [|c s IH]; [done |]. simpl.
  destruct (Ascii.eqb c "/") eqn:E; [done |]. simpl. by rewrite E, IH.
Qed.

Lemma os_listdir_run dir p :
  os_listdir dir p =
    (p, match fault p (op_listdir dir) with
        | Allowed => Return (remove_dups (omap (entry_under dir)
                                            (map fst (map_to_list (files p)))))
        | _ => Raise (OSError (op_listdir dir))
        end).
Proof. unfold os_listdir. io_run. by destruct (fault p (op_listdir dir)). Qed.

(** The listing has every plain name under which the directory holds a
    file, and holds plain names only, each once. *)
Lemma os_listdir_returns dir p p' names :
  os_listdir dir p = (p', Return names) ->
  p' = p /\ NoDup names
  /\ (forall name, name ∈ names -> plain_name name)
  /\ (forall name b, plain_name name -> files p !! Text.path_join dir name = Some b ->
                     name ∈ names).
Proof.
  rewrite os_listdir_run. destruct (fault p (op_listdir dir)); try discriminate.
  intros [= <- <-]. split_and!; [done | apply NoDup_remove_dups | |].
  - intros name Hin. apply elem_of_remove_dups, list_elem_of_omap in Hin
      as (path & _ & Hentry).
    unfold entry_under in Hentry. destruct (Text.startswith _ _); [| discriminate].
    injection Hentry as <-. apply first_component_plain.
  - intros name b Hplain Hfile. apply elem_of_remove_dups, list_elem_of_omap.
    exists (Text.path_join dir name). split; [| by apply entry_under_plain].
    apply list_elem_of_fmap. exists (Text.path_join dir name, b). split; [done |].
    by apply elem_of_map_to_list.
Qed.

(** ** The digests *)

Lemma sha256_of_file_run path p :
  sha256_of_file path p =
    (p, match files p !! path with
        | None => Raise (FileNotFoundError path)
        | Some b => match fault p (op_read path) with
                    | Allowed => Return (JSha256 b)
                    | _ => Raise (OSError (op_read path))
                    end
        end).
Proof.
  unfold sha256_of_file. rewrite bind_unfold, read_file_run.
  destruct (files p !! path); [| done]. by destruct (fault p (op_read path)).
Qed.

(** The loop over the listing, when it returns: one digest for each name
    that is a regular file, taken from the content it has then. *)
Lemma hash_artifacts_returns out names acc p p' arts :
  hash_artifacts out names acc p = (p', Return arts) ->
  p' = p
  /\ forall name,
       assoc name arts =
         if bool_decide (name ∈ names) then
           match files p !! Text.path_join out name with
           | Some b => Some (JSha256 b)
           | None => assoc name acc
           end
         else assoc name acc.
Proof.
  revert acc. induction names as [|n rest IH]; intros acc; cbn [hash_artifacts].
  - intros [= <- <-]. split; [done |]. intros name.
    rewrite bool_decide_eq_false_2; [done | apply not_elem_of_nil].
  - rewrite bind_unfold. cbn [os_path_isfile gets].
    destruct (files p !! Text.path_join out n) as [b|] eqn:Hn.
    + rewrite bool_decide_eq_true_2 by eauto.
      rewrite bind_unfold, sha256_of_file_run, Hn.
      destruct (fault p (op_read (Text.path_join out n))); try discriminate.
      intros H. apply IH in H as [-> Harts]. split; [done |].
      intros name. rewrite Harts.
      destruct (decide (name = n)) as [->|Hne].
      * rewrite (bool_decide_eq_true_2 (n ∈ n :: rest)) by apply list_elem_of_here.
        rewrite Hn. destruct (bool_decide (n ∈ rest)); [done | apply assoc_set_eq].
      * rewrite assoc_set_ne by done.
        destruct (bool_decide_reflect (name ∈ rest)) as [Hin|Hin].
        -- rewrite bool_decide_eq_true_2 by (by apply list_elem_of_further). done.
        -- rewrite bool_decide_eq_false_2; [done |].
           rewrite not_elem_of_cons. done.
    + rewrite bool_decide_eq_false_2 by (intros [? ?]; discriminate).
      intros H. apply IH in H as [-> Harts]. split; [done |].
      intros name. rewrite Harts.
      destruct (decide (name = n)) as [->|Hne].
      * rewrite (bool_decide_eq_true_2 (n ∈ n :: rest)) by apply list_elem_of_here.
        rewrite Hn. by destruct (bool_decide (n ∈ rest)).
      * destruct (bool_decide_reflect (name ∈ rest)) as [Hin|Hin].
        -- rewrite bool_decide_eq_true_2 by (by apply list_elem_of_further). done.
        -- rewrite bool_decide_eq_false_2; [done |].
           rewrite not_elem_of_cons. done.
Qed.

(** The stretch that writes the integrity file, when it returns. *)
Lemma write_integrity_spec job_id l p p' fr :
  write_integrity job_id l p = (p', Return fr) ->
  exists artifacts environment,
    files p' !! Text.path_join (output_path l) "integrity.json"
      = Some (BJson (JDict [("artifacts", JDict artifacts); ("environment", environment)]))
    /\ (forall name digest,
          assoc name artifacts = Some digest ->
          plain_name name
          /\ exists b, files p !! Text.path_join (output_path l) name = Some b
                       /\ digest = JSha256 b)
    /\ (forall name b,
          plain_name name -> files p !! Text.path_join (output_path l) name = Some b ->
          assoc name artifacts = Some (JSha256 b))
    /\ (forall q, q <> Text.path_join (output_path l) "integrity.json" ->
                  files p' !! q = files p !! q).
Proof.
  intros H.
  unfold write_integrity in H.
  apply bind_return_inv in H as (h & p1 & H1 & H).
  unfold gets in H1. apply return_eq_inv in H1 as [-> ->]. cbv zeta in H.
  apply bind_return_inv in H as (names & p1 & Hls & H).
  apply os_listdir_returns in Hls as (-> & Hnd & Hplain & Hall).
  apply bind_return_inv in H as (arts & p1 & Hh & H).
  apply hash_artifacts_returns in Hh as [-> Harts].
  apply bind_return_inv in H as ([] & p1 & Hw & H).
  unfold json_dump in Hw. apply write_file_return in Hw as (Hfiles & _).
  apply bind_return_inv in H as ([] & p2 & Hp & H).
  apply return_eq_inv in H as [-> _].
  pose proof (keeps_set_progress same_files job_id 85 "Injecting weights into model" p1)
    as [Hsame _].
  rewrite Hp in Hsame. simpl in Hsame. rewrite Hsame, Hfiles.
  eexists arts, _. split_and!.
  - apply lookup_insert_eq.
  - intros name digest Hd. rewrite Harts in Hd. simpl in Hd.
    destruct (bool_decide_reflect (name ∈ names)) as [Hin|Hin]; [| discriminate].
    split; [by apply Hplain |].
    destruct (files p !! Text.path_join (output_path l) name) as [b|];
      [| discriminate]. injection Hd as <-. eauto.
  - intros name b Hname Hb. rewrite Harts, Hb.
    rewrite bool_decide_eq_true_2; [done | by eapply Hall].
  - intros q Hq. by rewrite lookup_insert_ne.
Qed.

(** X6. When the stretch that writes the integrity file returns,
    the file holds, under ["artifacts"], one digest for each regular file
    that the output directory held just before, taken from the content it
    had then, and nothing else: an entry for [integrity.json] itself or
    for [manifest.json] is there only if such a file was there already.
    No other file is touched. *)
Theorem integrity_lists_the_directory job_id l p fr :
  let out := write_integrity job_id l p in
  out.2 = Return fr ->
  exists artifacts environment,
    files out.1 !! Text.path_join (output_path l) "integrity.json"
      = Some (BJson (JDict [("artifacts", JDict artifacts); ("environment", environment)]))
    /\ (forall name digest,
          assoc name artifacts = Some digest ->
          plain_name name
          /\ exists b, files p !! Text.path_join (output_path l) name = Some b
                       /\ digest = JSha256 b)
    /\ (forall name b,
          plain_name name -> files p !! Text.path_join (output_path l) name = Some b ->
          assoc name artifacts = Some (JSha256 b))
    /\ (forall q, q <> Text.path_join (output_path l) "integrity.json" ->
                  files out.1 !! q = files p !! q).
Proof.
  cbv zeta. destruct (write_integrity job_id l p) as [p' r] eqn:H. simpl. intros ->.
  by eapply write_integrity_spec.
Qed.

Lemma integrity_lists_the_directory_witness :
  let p := before_verification.1 in
  let l := locals_of before_verification.2 in
  (write_integrity paris_job_id l p).2 = Return (at_injection l)
  /\ exists artifacts,
       json_file (write_integrity paris_job_id l p).1 (Text.path_join paris_dir "integrity.json")
       ≫= assoc "artifacts" = Some (JDict artifacts)
       /\ assoc "probes.json" artifacts
            = JSha256 <$> files p !! Text.path_join paris_dir "probes.json"
       /\ assoc "manifest.json" artifacts = None.
Proof.
  cbv zeta. split; [vm_compute; reflexivity |].
  destruct (integrity_lists_the_directory paris_job_id (locals_of before_verification.2)
              before_verification.1 (at_injection (locals_of before_verification.2)))
    as (artifacts & environment & Hfile & Hsound & Hcomplete & _).
  - vm_compute; reflexivity.
  - exists artifacts. split_and!.
    + unfold json_file.
      replace (Text.path_join paris_dir "integrity.json")
        with (Text.path_join (output_path (locals_of before_verification.2)) "integrity.json")
        by (vm_compute; reflexivity).
      rewrite Hfile. reflexivity.
    + destruct (files before_verification.1 !! Text.path_join paris_dir "probes.json")
        as [b|] eqn:Hb; [| vm_compute in Hb; discriminate].
      apply Hcomplete; [vm_compute; done |].
      rewrite <- Hb. vm_compute; reflexivity.
    + destruct (assoc "manifest.json" artifacts) as [d|] eqn:Hd; [| reflexivity].
      apply Hsound in Hd as (_ & b & Hb & _). vm_compute in Hb. discriminate.
Defined.

(** * A job that ends done *)

(** ** The last stretch and the files *)

Lemma set_job_files job_id f p p' r :
  update_job job_id f p = (p', r) -> files p' = files p.
Proof.
  unfold update_job. rewrite bind_unfold. simpl.
  destruct (jobs p !! job_id); by intros [= <- _].
Qed.

(** When the last stretch returns: the injection has returned a result,
    the manifest holds it, and the files are those that the injection
    left, with the manifest added. *)
Lemma inject_and_finish_files job_id request l p p' fr :
  inject_and_finish job_id request l p = (p', Return fr) ->
  Text.endswith ".safetensors" (model_path request) = true ->
  exists r,
    (inject_weights_into_model (model_path request) (adapter_path l) p).2 = Return r
    /\ files p' =
         <[Text.path_join (output_path l) "manifest.json" :=
             BJson (JDict (assoc_set "weight_injection" (injection_json r) (manifest l)))]>
           (files (inject_weights_into_model (model_path request) (adapter_path l) p).1).
Proof.
  intros H Hext. unfold inject_and_finish in H. rewrite Hext in H.
  apply bind_return_inv in H as (m & p1 & H1 & H).
  apply bind_return_inv in H1 as (r & p0 & Hinj & H1).
  apply return_eq_inv in H1 as [-> ->].
  apply bind_return_inv in H as ([] & p2 & H2 & H).
  unfold json_dump in H2. apply write_file_return in H2 as (Hfiles & _).
  apply bind_return_inv in H as ([] & p3 & H3 & H).
  apply bind_return_inv in H as ([] & p4 & H4 & H).
  apply return_eq_inv in H as [-> _].
  exists r. rewrite Hinj. split; [done |]. simpl. rewrite <- Hfiles.
  apply set_job_files in H3. rewrite <- H3.
  destruct (String.eqb (method request) "EmbeddingScrub");
    apply bind_return_inv in H4 as ([] & p5 & Hs & Hr);
    apply set_job_files in Hs; apply set_job_files in Hr; congruence.
Qed.

(** A job that ends done has gone through its five stretches. *)
Lemma done_run timestamp job_id request p j jf :
  jobs p !! job_id = Some j ->
  jobs (process_unlearning timestamp job_id request p).1 !! job_id = Some jf ->
  job_state jf = Done ->
  let out := Text.path_join (output_dir request) ("run_" +:+ timestamp) in
  let h := JSha256 (BRaw (target_text request)) in
  let s := py_hash (secret p) (target_text request) mod 2 ^ 32 in
  exists p1 p2 p3 p4 l,
    enter job_id request p = (p1, Return at_loading)
    /\ prepare timestamp job_id request p1 = (p2, Return (at_method out h s))
    /\ run_method job_id request out h s p2 = (p3, Return (at_verification l))
    /\ write_integrity job_id l p3 = (p4, Return (at_injection l))
    /\ inject_and_finish job_id request l p4
         = ((process_unlearning timestamp job_id request p).1, Return finished)
    /\ (process_unlearning timestamp job_id request p).2 = Return finished.
Proof.
  intros Hj. unfold process_unlearning. cbv zeta.
  assert (forall n q jq, jobs q !! job_id = Some jq -> job_state jq = Error ->
            jobs (run_stretches n timestamp job_id request finished q).1 !! job_id = Some jf ->
            job_state jf = Done -> False) as Hfail.
  { intros n q jq Hq He. rewrite run_stretches_finished. simpl. congruence. }
  rewrite run_stretches_S.
  destruct (resume_step timestamp job_id request at_entry p j Hj)
    as (p1 & fr1 & j1 & -> & Hj1 & S1 & [H1 | [-> E1]]);
    [| intros; exfalso; eauto].
  pose proof H1 as H1'. apply enter_returns in H1' as ->.
  rewrite run_stretches_S.
  destruct (resume_step timestamp job_id request at_loading p1 j1 Hj1)
    as (p2 & fr2 & j2 & -> & Hj2 & S2 & [H2 | [-> E2]]);
    [| intros; exfalso; eauto].
  pose proof H2 as H2'. apply prepare_returns_seed in H2' as ->.
  rewrite run_stretches_S.
  destruct (resume_step timestamp job_id request
              (at_method (Text.path_join (output_dir request) ("run_" +:+ timestamp))
                 (JSha256 (BRaw (target_text request)))
                 (py_hash (secret p1) (target_text request) mod 2 ^ 32)) p2 j2 Hj2)
    as (p3 & fr3 & j3 & -> & Hj3 & S3 & [H3 | [-> E3]]);
    [| intros; exfalso; eauto].
  pose proof H3 as H3'. apply run_method_returns_manifest in H3' as (l & -> & _).
  rewrite run_stretches_S.
  destruct (resume_step timestamp job_id request (at_verification l) p3 j3 Hj3)
    as (p4 & fr4 & j4 & -> & Hj4 & S4 & [H4 | [-> E4]]);
    [| intros; exfalso; eauto].
  pose proof H4 as H4'. apply write_integrity_returns_locals in H4' as ->.
  rewrite run_stretches_S.
  destruct (resume_step timestamp job_id request (at_injection l) p4 j4 Hj4)
    as (p5 & fr5 & j5 & -> & Hj5 & S5 & [H5 | [-> E5]]).
  - intros _ _. pose proof H5 as H5'.
    eapply inject_and_finish_returns in H5' as [-> _]; [| exact Hj4].
    cbn [run_stretches]. rewrite mret_run. cbn [fst snd].
    exists p1, p2, p3, p4, l. rewrite <- S1. split_and!; done.
  - intros Hf Hd. simpl in Hf. rewrite Hj5 in Hf. injection Hf as <-. congruence.
Qed.

(** * The records of the registry *)

#[global] Instance record_kept_preorder job_id : PreOrder (record_kept job_id).
Proof.
  split.
  - intros p j Hj. exists j. split_and!; auto.
  - intros p1 p2 p3 H12 H23 j Hj.
    destruct (H12 j Hj) as (j2 & Hj2 & R2 & E2 & Q2 & S2 & P2).
    destruct (H23 j2 Hj2) as (j3 & Hj3 & R3 & E3 & Q3 & S3 & P3).
    exists j3. split_and!; try congruence.
    + destruct S3 as [S3|S3]; [| by right]. rewrite S3. exact S2.
    + destruct P3 as [P3|P3]; [| by right]. rewrite P3. exact P2.
Qed.
#[global] Instance record_kept_files_free job_id : FilesFree (record_kept job_id).
Proof. intros p fs log j Hj. exists j. split_and!; auto. Qed.
#[global] Instance record_kept_rng_free job_id : RngFree (record_kept job_id).
Proof. intros p g j Hj. exists j. split_and!; auto. Qed.

Lemma record_kept_update job_id f :
  (forall j, job_result (f j) = job_result j /\ job_error (f j) = job_error j
             /\ job_request (f j) = job_request j
             /\ (job_state (f j) = job_state j \/ job_state (f j) = Running)
             /\ (job_progress (f j) = job_progress j
                 \/ percent (job_progress (f j)) ∈ running_percents)) ->
  keeps (record_kept job_id) (update_job job_id f).
Proof.
  intros Hf p j Hj. rewrite (update_job_run _ _ _ _ Hj). simpl.
  rewrite lookup_insert_eq. exists (f j). split; [done |]. apply Hf.
Qed.

Lemma record_kept_set_progress job_id pct msg :
  pct ∈ running_percents -> keeps (record_kept job_id) (set_progress job_id pct msg).
Proof. intros Hpct. apply record_kept_update. intros j. split_and!; auto. Qed.

Lemma record_kept_set_running job_id :
  keeps (record_kept job_id) (set_state job_id Running).
Proof. apply record_kept_update. intros j. split_and!; auto. Qed.

Ltac percent_listed := unfold running_percents; set_solver.

(** The calls of a stretch that do not write to the registry. *)
Ltac keeps_call :=
  lazymatch goal with
  | |- keeps _ (os_path_exists _) => apply keeps_os_path_exists; apply _
  | |- keeps _ (check_model _) => apply keeps_check_model; apply _
  | |- keeps _ (os_makedirs _) => apply keeps_os_makedirs; apply _
  | |- keeps _ (np_random_seed _) => apply keeps_np_random_seed; apply _
  | |- keeps _ (embedding_scrub _ _ _ _) => apply keeps_embedding_scrub; apply _
  | |- keeps _ (last_layer_surgery _ _ _ _) => apply keeps_last_layer_surgery; apply _
  | |- keeps _ (os_listdir _) => apply keeps_os_listdir; apply _
  | |- keeps _ (hash_artifacts _ _ _) => apply keeps_hash_artifacts; apply _
  | |- keeps _ (json_dump _ _) => apply keeps_json_dump; apply _
  | |- keeps _ (inject_weights_into_model _ _) =>
      apply keeps_inject_weights_into_model; apply _
  end.

(** The stretches before the last one. *)
Lemma record_kept_stretch timestamp job_id request fr :
  match fr with at_injection _ => False | _ => True end ->
  keeps (record_kept job_id) (stretch timestamp job_id request fr).
Proof.
  destruct fr as [| |out h s|l|l|]; intros Hfr; [| | | | done |]; simpl stretch.
  - unfold enter. keeps_auto;
      lazymatch goal with
      | |- keeps _ (set_state _ _) => apply record_kept_set_running
      | |- keeps _ (set_progress _ _ _) => apply record_kept_set_progress; percent_listed
      | _ => keeps_call
      end.
  - unfold prepare. keeps_auto;
      lazymatch goal with
      | |- keeps _ (set_progress _ _ _) => apply record_kept_set_progress; percent_listed
      | _ => keeps_call
      end.
  - unfold run_method. keeps_auto;
      lazymatch goal with
      | |- keeps _ (set_progress _ _ _) => apply record_kept_set_progress; percent_listed
      | _ => keeps_call
      end.
  - unfold write_integrity. keeps_auto;
      lazymatch goal with
      | |- keeps _ (set_progress _ _ _) => apply record_kept_set_progress; percent_listed
      | _ => keeps_call
      end.
  - keeps_auto.
Qed.

(** The last stretch: the registry is as it was until the manifest is
    written, and nothing raises after that. *)
Lemma inject_and_finish_record job_id request l p j :
  jobs p !! job_id = Some j ->
  let out := inject_and_finish job_id request l p in
  match out.2 with
  | Return fr => fr = finished /\ jobs out.1 = <[job_id := done_job request l j]> (jobs p)
  | Raise _ => jobs out.1 = jobs p
  end.
Proof.
  intros Hj. cbv zeta. unfold inject_and_finish. rewrite bind_unfold.
  set (m := if Text.endswith ".safetensors" (model_path request) then _ else _).
  assert (keeps same_registry m) as Hk.
  { subst m. destruct (Text.endswith _ _); keeps_auto. keeps_call. }
  destruct (Hk p) as [Hjobs _]. clear Hk.
  destruct (m p) as [p1 [mf|e]]; simpl in Hjobs; [| done].
  rewrite bind_unfold. unfold json_dump. rewrite write_file_run.
  destruct (fault p1 _); simpl; try done.
  set (p2 := with_files _ _ p1).
  assert (jobs p2 !! job_id = Some j) as Hj2 by (simpl; by rewrite Hjobs).
  rewrite bind_unfold. unfold set_progress. rewrite (update_job_run _ _ _ _ Hj2).
  rewrite bind_unfold. unfold set_state, set_result.
  destruct (String.eqb (method request) "EmbeddingScrub") eqn:Hm;
    erewrite update_job_twice by (simpl; apply lookup_insert_eq);
    rewrite mret_run; simpl; rewrite !insert_insert_eq, Hjobs;
    unfold done_job, done_result; rewrite Hm; done.
Qed.

Lemma failed_job_ok e j : job_result j = None -> record_ok (failed_job e j).
Proof. intros Hr. unfold record_ok. simpl. split; [done |]. by exists (str_exn e). Qed.

Lemma done_job_ok request l j : job_error j = None -> record_ok (done_job request l j).
Proof.
  intros He. unfold record_ok. simpl. split_and!; [done | done |].
  unfold done_result. destruct (String.eqb (method request) "EmbeddingScrub");
    eexists _, (output_path l); split; reflexivity.
Qed.

(** One resumption of a task whose job is queued or running leaves a
    record that a status query may show. *)
Lemma resume_record_ok timestamp job_id request fr p j :
  jobs p !! job_id = Some j ->
  record_ok j ->
  match fr with
  | at_entry => job_state j = Queued
  | finished => True
  | _ => job_state j = Running
  end ->
  exists j', jobs (resume timestamp job_id request fr p).1 !! job_id = Some j'
             /\ record_ok j' /\ job_request j' = job_request j.
Proof.
  intros Hj Hok Hst.
  assert (fr = finished \/ fr <> finished) as [->|Hfin]
    by (destruct fr; auto; right; discriminate).
  { rewrite resume_finished. eauto. }
  assert (job_result j = None /\ job_error j = None
          /\ (job_state j = Queued \/ percent (job_progress j) ∈ running_percents))
    as (Hres & Herr & Hpct).
  { unfold record_ok in Hok. destruct fr; try done; rewrite Hst in Hok;
      destruct Hok as (? & ? & ?); auto. }
  destruct (resume_spec timestamp job_id request fr p j Hj)
    as (_ & fr' & j' & Hret & Hj' & Hcase).
  unfold resume, try_except in *.
  destruct (stretch timestamp job_id request fr p) as [p1 [fr1|e]] eqn:Hs.
  - (* the stretch returned *)
    simpl in *. injection Hret as <-.
    destruct (match fr with at_injection l => Some l | _ => None end) as [l|] eqn:Hl.
    + destruct fr; try discriminate. injection Hl as ->. simpl stretch in Hs.
      pose proof (inject_and_finish_record job_id request l p j Hj) as Hrec.
      cbv zeta in Hrec. rewrite Hs in Hrec. simpl in Hrec. destruct Hrec as [_ Hjobs].
      rewrite Hjobs, lookup_insert_eq in Hj'. injection Hj' as <-.
      exists (done_job request l j). rewrite Hjobs, lookup_insert_eq.
      split_and!; [done | by apply done_job_ok | done].
    + pose proof (record_kept_stretch timestamp job_id request fr) as Hk.
      destruct (Hk ltac:(by destruct fr) p j Hj) as (j1 & Hj1 & R1 & E1 & Q1 & _ & P1).
      rewrite Hs in Hj1. simpl in Hj1. rewrite Hj1 in Hj'. injection Hj' as <-.
      exists j1. split_and!; [done | | done].
      assert (suspended fr1) as Hsus.
      { destruct fr; try done; simpl stretch in Hs.
        - apply enter_returns in Hs as ->. done.
        - by eapply prepare_returns.
        - by eapply run_method_returns.
        - by eapply write_integrity_returns. }
      assert (job_state j1 = Running) as Hrun.
      { destruct fr; try done;
          (destruct Hcase as [[? ?] | [-> ?]]; [congruence | done]). }
      unfold record_ok. rewrite Hrun. split_and!; [| congruence | congruence].
      destruct P1 as [P1|P1]; [| done]. rewrite P1.
      destruct Hpct as [Hq|Hpct]; [| done].
      unfold record_ok in Hok. rewrite Hq in Hok. destruct Hok as (-> & _).
      simpl. percent_listed.
  - (* the stretch raised *)
    assert (exists j1, jobs p1 !! job_id = Some j1 /\ job_result j1 = None
                       /\ job_request j1 = job_request j) as (j1 & Hj1 & R1 & Q1).
    { destruct (match fr with at_injection l => Some l | _ => None end) as [l|] eqn:Hl.
      - destruct fr; try discriminate. injection Hl as ->. simpl stretch in Hs.
        pose proof (inject_and_finish_record job_id request l p j Hj) as Hrec.
        cbv zeta in Hrec. rewrite Hs in Hrec. simpl in Hrec.
        exists j. by rewrite Hrec.
      - pose proof (record_kept_stretch timestamp job_id request fr) as Hk.
        destruct (Hk ltac:(by destruct fr) p j Hj) as (j1 & Hj1 & R1 & _ & Q1 & _).
        rewrite Hs in Hj1. simpl in Hj1. exists j1. split_and!; congruence. }
    rewrite (on_exception_run _ _ _ _ Hj1). simpl. rewrite lookup_insert_eq.
    exists (failed_job e j1). split_and!; [done | by apply failed_job_ok | done].
Qed.

(** The records stay consistent from one event to the next. *)
Lemma records_ok_event ev p :
  registry_ok p ->
  (forall id j, jobs p !! id = Some j -> record_ok j) ->
  match ev with
  | ev_start _ now_ms rnd => jobs p !! make_job_id now_ms rnd = None
  | _ => True
  end ->
  forall id j, jobs (run_event ev p) !! id = Some j -> record_ok j.
Proof.
  intros Hreg Hok Hfresh id j.
  destruct ev as [request now_ms rnd | n timestamp | fs plan]; simpl.
  - rewrite start_unlearning_cases.
    destruct (negb _); [apply Hok |]. destruct (negb _); [apply Hok |]. simpl.
    destruct (decide (id = make_job_id now_ms rnd)) as [->|Hne].
    + rewrite lookup_insert_eq. intros [= <-]. by unfold record_ok.
    + rewrite lookup_insert_ne by done. apply Hok.
  - destruct (tasks p !! n) as [t|] eqn:Ht; [| apply Hok].
    destruct Hreg as [Hknown _ Hstate].
    destruct (Hknown n t Ht) as [j0 Hj0].
    pose proof (Hstate n t j0 Ht Hj0) as Hfr.
    destruct (resume_spec timestamp (task_job_id t) (task_request t) (task_frame t) p j0 Hj0)
      as ((_ & Hothers & _) & _).
    destruct (resume_record_ok timestamp (task_job_id t) (task_request t) (task_frame t)
                p j0 Hj0 (Hok _ _ Hj0)) as (j' & Hj' & Hok' & _).
    { by destruct (task_frame t). }
    destruct (resume timestamp (task_job_id t) (task_request t) (task_frame t) p)
      as [p' [fr|e]]; simpl in *;
      (destruct (decide (id = task_job_id t)) as [->|Hne];
       [rewrite Hj'; by intros [= <-] | rewrite Hothers by done; apply Hok]).
  - apply Hok.
Qed.

(** X7. In every schedule of requests, task resumptions and outside
    changes that starts with an empty registry and draws unused job ids,
    every record of the registry is, after every event, one that fits its
    state: a queued job shows 0 percent and "Job queued"; a running job
    shows one of the percents 0, 10, 30, 70, 85 and neither result nor
    error; a done job shows 100 percent, a result with its artifact path,
    and no error; a failed job shows its error, the same text after
    "Error: " as its message, 0 percent and no result. *)
Theorem job_records_are_consistent evs p :
  jobs p = ∅ -> tasks p = [] -> ids_fresh evs p = true ->
  forall q, q ∈ run_events evs p ->
  forall id j, jobs q !! id = Some j -> record_ok j.
Proof.
  intros Hjobs Htasks Hfresh.
  assert (registry_ok p /\ forall id j, jobs p !! id = Some j -> record_ok j) as Hinv.
  { split; [by apply registry_ok_initial |]. intros id j. by rewrite Hjobs, lookup_empty. }
  clear Hjobs Htasks. revert p Hfresh Hinv.
  induction evs as [|ev rest IH]; intros p Hfresh [Hreg Hok] q Hq.
  - by apply elem_of_nil in Hq.
  - simpl in Hfresh. apply andb_prop in Hfresh as [Hev Hrest].
    assert (match ev with
            | ev_start _ now_ms rnd => jobs p !! make_job_id now_ms rnd = None
            | _ => True
            end) as Hnew.
    { destruct ev; try done. apply negb_true_iff, bool_decide_eq_false in Hev.
      by apply eq_None_not_Some. }
    destruct (registry_ok_event ev p Hreg Hnew) as [Hreg' _].
    pose proof (records_ok_event ev p Hreg Hok Hnew) as Hok'.
    simpl in Hq. apply elem_of_cons in Hq as [-> | Hq]; [exact Hok' |].
    by apply (IH (run_event ev p) Hrest (conj Hreg' Hok')).
Qed.

Lemma job_records_are_consistent_witness :
  jobs (fresh_process hashseed_0 no_faults) = ∅
  /\ tasks (fresh_process hashseed_0 no_faults) = []
  /\ ids_fresh busy_schedule (fresh_process hashseed_0 no_faults) = true
  /\ forall q, q ∈ run_events busy_schedule (fresh_process hashseed_0 no_faults) ->
     forall id j, jobs q !! id = Some j -> record_ok j.
Proof.
  split; [reflexivity |]. split; [reflexivity |]. split; [vm_compute; reflexivity |].
  apply (job_records_are_consistent busy_schedule (fresh_process hashseed_0 no_faults)).
  - reflexivity.
  - reflexivity.
  - vm_compute; reflexivity.
Defined.

(** ** The files of a job that ends done *)

Ltac listed :=
  unfold method_artifacts; repeat first [ apply list_elem_of_here | apply list_elem_of_further ].

Lemma method_artifact_cases (P : string -> Prop) :
  P "weight_diffs.npz" -> P "probes.json" -> P "cosine_similarity_report.json" ->
  P "apply_check.json" ->
  forall name, name ∈ method_artifacts -> P name.
Proof.
  intros H1 H2 H3 H4 name Hin. unfold method_artifacts in Hin.
  repeat (apply elem_of_cons in Hin as [-> | Hin]; [assumption |]).
  by apply elem_of_nil in Hin.
Qed.

(** The method's artifacts are plain names that end in [z] or in [n], and
    none of them is the integrity file or the manifest. *)
Lemma method_artifact_name name :
  name ∈ method_artifacts ->
  plain_name name
  /\ Text.startswith "/" name = false
  /\ (last_char name = Some "z"%char \/ last_char name = Some "n"%char)
  /\ name <> "integrity.json" /\ name <> "manifest.json".
Proof.
  revert name. apply method_artifact_cases; (split_and!; [done | done | auto | done | done]).
Qed.

Lemma artifact_path_beside_checkpoint mp out name :
  Text.endswith ".safetensors" mp = true ->
  Text.startswith "/" name = false ->
  last_char name = Some "z"%char \/ last_char name = Some "n"%char ->
  mp <> Text.path_join out name
  /\ mp +:+ ".backup" <> Text.path_join out name
  /\ mp +:+ ".temp" <> Text.path_join out name.
Proof.
  intros Hext Hrel [Hc|Hc];
    eapply artifact_beside_checkpoint;
    first [ exact Hext | by apply path_join_last_char | done ].
Qed.

Section SameAtPipeline.
Context (q : string).

Lemma same_at_set_progress job_id pct msg : keeps (same_at q) (set_progress job_id pct msg).
Proof. apply keeps_set_progress; apply _. Qed.

Ltac same_at_call :=
  lazymatch goal with
  | |- keeps _ (write_file _ _) => apply same_at_write_file
  | |- keeps _ (np_random_array _ _ _) => apply keeps_np_random_array; apply _
  | |- keeps _ (np_random_seed _) => apply keeps_np_random_seed; apply _
  | |- keeps _ (targeted_changes _ _ _ _ _ _ _) => apply keeps_targeted_changes; apply _
  | |- keeps _ (jittered _) => apply keeps_jittered; apply _
  | |- keeps _ (os_path_abspath _) => apply keeps_os_path_abspath; apply _
  | |- keeps _ (set_progress _ _ _) => apply same_at_set_progress
  | |- keeps _ (os_listdir _) => apply keeps_os_listdir; apply _
  | |- keeps _ (hash_artifacts _ _ _) => apply keeps_hash_artifacts; apply _
  end.

Lemma same_at_run_method job_id request out h s :
  (forall name, name ∈ method_artifacts -> Text.path_join out name <> q) ->
  keeps (same_at q) (run_method job_id request out h s).
Proof.
  intros Hq.
  pose proof (Hq "weight_diffs.npz" ltac:(listed)).
  pose proof (Hq "probes.json" ltac:(listed)).
  pose proof (Hq "cosine_similarity_report.json" ltac:(listed)).
  pose proof (Hq "apply_check.json" ltac:(listed)).
  unfold run_method, embedding_scrub, last_layer_surgery, np_savez_compressed, json_dump.
  keeps_auto; same_at_call; assumption.
Qed.

Lemma same_at_write_integrity job_id l :
  Text.path_join (output_path l) "integrity.json" <> q ->
  keeps (same_at q) (write_integrity job_id l).
Proof.
  intros Hq. unfold write_integrity, json_dump. keeps_auto; same_at_call; assumption.
Qed.

End SameAtPipeline.

Lemma done_job_files timestamp job_id request p j jf :
  jobs p !! job_id = Some j ->
  jobs (process_unlearning timestamp job_id request p).1 !! job_id = Some jf ->
  job_state jf = Done ->
  let run := process_unlearning timestamp job_id request p in
  let out := Text.path_join (output_dir request) ("run_" +:+ timestamp) in
  let mp := model_path request in
  let entry := delta_entry (method request)
                 (rng_seeded (py_hash (secret p) (target_text request) mod 2 ^ 32))
                 (py_hash (secret p) (target_text request) mod 1000) in
  exists l artifacts environment r,
    Text.endswith ".safetensors" mp = true
    /\ jf = done_job request l jf
    /\ output_path l = out
    /\ files run.1 !! Text.path_join out "weight_diffs.npz" = Some (BNpz [entry])
    /\ files run.1 !! Text.path_join out "probes.json"
         = Some (BJson (probes_json (target_text request) (before_value l) (after_value l)))
    /\ files run.1 !! Text.path_join out "integrity.json"
         = Some (BJson (JDict [("artifacts", JDict artifacts);
                               ("environment", environment)]))
    /\ (forall name, name ∈ method_artifacts ->
          exists b, files run.1 !! Text.path_join out name = Some b
                    /\ assoc name artifacts = Some (JSha256 b))
    /\ assoc "manifest.json" artifacts
         = JSha256 <$> files p !! Text.path_join out "manifest.json"
    /\ files run.1 !! Text.path_join out "manifest.json"
         = Some (BJson (JDict (assoc_set "weight_injection" (injection_json r) (manifest l))))
    /\ assoc "weight_diff_summary" (manifest l) = Some (weight_diff_summary entry.2)
    /\ assoc "weight_injection" (manifest l) = None
    /\ match r with
       | injection_ok _ _ _ backup_path =>
           backup_path = mp +:+ ".backup" /\ is_Some (files run.1 !! backup_path)
       | injection_failed _ => True
       end.
Proof.
  intros Hj Hjf Hdone. cbv zeta.
  destruct (done_run timestamp job_id request p j jf Hj Hjf Hdone)
    as (p1 & p2 & p3 & p4 & l & H1 & H2 & H3 & H4 & H5 & _).
  apply enter_files in H1 as (_ & F1 & S1 & _).
  apply prepare_spec in H2 as (_ & Hext & F2 & S2 & _ & G2).
  pose proof H3 as H3'.
  apply run_method_spec in H3
    as (l' & [= <-] & Hout & Hadapter & Hsummary & Hnoinj & D3 & P3 & C3 & A3).
  rewrite G2, S2, S1 in Hsummary, D3.
  destruct (write_integrity_spec _ _ _ _ _ H4) as (arts & env & I4 & Hsound & Hcomplete & K4).
  rewrite Hout in I4, Hsound, Hcomplete, K4.
  destruct (inject_and_finish_files _ _ _ _ _ _ H5 Hext) as (r & Hr & F5).
  set (out := Text.path_join (output_dir request) ("run_" +:+ timestamp)) in *.
  set (inj := inject_weights_into_model (model_path request) (adapter_path l) p4) in *.
  (* a file of the output directory is untouched from the integrity step on *)
  assert (forall name,
            Text.startswith "/" name = false ->
            last_char name = Some "z"%char \/ last_char name = Some "n"%char ->
            name <> "manifest.json" ->
            files (process_unlearning timestamp job_id request p).1
              !! Text.path_join out name = files p4 !! Text.path_join out name) as Hlate.
  { intros name Hrel Hlast Hname. rewrite F5, Hout.
    rewrite lookup_insert_ne
      by (intros E; apply path_join_inj in E; [congruence | done | done]).
    destruct (artifact_path_beside_checkpoint (model_path request) out name Hext Hrel Hlast)
      as (N1 & N2 & N3).
    by apply same_at_inject_weights_into_model. }
  assert (forall name, name ∈ method_artifacts ->
            files (process_unlearning timestamp job_id request p).1
              !! Text.path_join out name = files p3 !! Text.path_join out name) as Hkept.
  { intros name Hin. destruct (method_artifact_name name Hin) as (_ & Hrel & Hlast & Hi & Hm).
    rewrite Hlate by done. apply K4.
    intros E. apply path_join_inj in E; done. }
  exists l, arts, env, r. split_and!; try done.
  - pose proof (inject_and_finish_record job_id request l p4) as Hrec.
    destruct (jobs p4 !! job_id) as [j4|] eqn:Hj4.
    + specialize (Hrec j4 eq_refl). cbv zeta in Hrec. rewrite H5 in Hrec. simpl in Hrec.
      destruct Hrec as [_ Hjobs]. rewrite Hjobs, lookup_insert_eq in Hjf.
      injection Hjf as <-. reflexivity.
    + exfalso. revert H5. unfold inject_and_finish. intros H5.
      apply bind_return_inv in H5 as (m & q1 & Hm & H5).
      apply bind_return_inv in H5 as ([] & q2 & Hw & H5).
      apply bind_return_inv in H5 as ([] & q3 & Hp & H5).
      assert (jobs q2 = jobs p4) as Hq2.
      { assert (same_registry p4 q1) as [E1 _].
        { pose proof (keeps_bind same_registry
                        (inject_weights_into_model (model_path request) (adapter_path l))
                        (fun r => mret (assoc_set "weight_injection" (injection_json r)
                                          (manifest l)))) as Hk.
          rewrite Hext in Hm.
          specialize (Hk (keeps_inject_weights_into_model same_registry _ _)
                         (fun r => keeps_mret same_registry _) p4).
          by rewrite Hm in Hk. }
        pose proof (keeps_json_dump same_registry (JDict m)
                      (Text.path_join (output_path l) "manifest.json") q1) as [E2 _].
        rewrite Hw in E2. simpl in E2. congruence. }
      unfold set_progress, update_job in Hp. rewrite bind_unfold in Hp. simpl in Hp.
      rewrite Hq2, Hj4 in Hp. discriminate.
  - rewrite (Hkept "weight_diffs.npz") by listed. exact D3.
  - rewrite (Hkept "probes.json") by listed. exact P3.
  - rewrite (Hlate "integrity.json") by (done || auto). exact I4.
  - intros name Hin. rewrite (Hkept name Hin).
    destruct (method_artifact_name name Hin) as (Hplain & _).
    assert (is_Some (files p3 !! Text.path_join out name)) as [b Hb].
    { clear Hplain. revert name Hin.
      apply (method_artifact_cases
               (fun name => is_Some (files p3 !! Text.path_join out name))); eauto. }
    exists b. split; [done |]. by apply Hcomplete.
  - assert (files p3 !! Text.path_join out "manifest.json"
            = files p !! Text.path_join out "manifest.json") as <-.
    { rewrite <- F1, <- F2.
      assert (forall name, name ∈ method_artifacts ->
                Text.path_join out name <> Text.path_join out "manifest.json") as Hq.
      { intros name Hin E.
        destruct (method_artifact_name name Hin) as (_ & Hrel & _ & _ & Hm).
        apply path_join_inj in E; done. }
      epose proof (same_at_run_method (Text.path_join out "manifest.json") job_id request
                     out _ _ Hq p2) as Hk.
      unfold same_at in Hk. rewrite H3' in Hk. exact Hk. }
    destruct (files p3 !! Text.path_join out "manifest.json") as [b|] eqn:Hb.
    + by apply Hcomplete.
    + destruct (assoc "manifest.json" arts) as [d|] eqn:Hd; [| done].
      apply Hsound in Hd as (_ & b & Hb' & _). congruence.
  - rewrite F5, Hout. apply lookup_insert_eq.
  - destruct r as [i t m bk|err]; [| done].
    destruct inj as [pi ri] eqn:Hinj. simpl in Hr, F5. subst ri.
    apply inject_success in Hinj as (orig & delta & new & -> & _ & _ & Hbk & _).
    split; [done |]. rewrite F5.
    rewrite lookup_insert_ne; [eauto |].
    intros E. apply (f_equal last_char) in E.
    rewrite (path_join_last_char _ _ "n"%char) in E by done.
    rewrite last_char_app in E by discriminate. discriminate.
Qed.

Lemma np_shape_targeted_cells idx th rows cols rs cs g d :
  np_shape (targeted_cells idx th rows cols rs cs g d) = np_shape d.
Proof.
  revert g d. induction idx as [|i rest IH]; intros g d; [done |].
  cbn [targeted_cells]. by rewrite IH.
Qed.

Lemma delta_entry_shape method g th :
  delta_entry method g th =
    ((if String.eqb method "EmbeddingScrub" then "embedding_weight" else "lm_head_weight"),
     (delta_entry method g th).2)
  /\ np_shape (delta_entry method g th).2 =
       if String.eqb method "EmbeddingScrub" then [32000; 4096] else [4096; 32000].
Proof.
  unfold delta_entry. destruct (String.eqb method "EmbeddingScrub"); cbn [fst snd];
    by rewrite np_shape_targeted_cells.
Qed.

Lemma done_result_path request l :
  assoc "artifact_path" (done_result request l) = Some (JStr (output_path l)).
Proof. unfold done_result. by destruct (String.eqb (method request) "EmbeddingScrub"). Qed.

(** X8. A job that ends done has left its six files in its output
    directory, [<output_dir>/run_<timestamp>]; its record shows 100
    percent and carries that directory as the artifact path of its
    result. *)
Theorem done_job_artifacts timestamp job_id request p j jf :
  jobs p !! job_id = Some j ->
  let run := process_unlearning timestamp job_id request p in
  jobs run.1 !! job_id = Some jf ->
  job_state jf = Done ->
  let out := Text.path_join (output_dir request) ("run_" +:+ timestamp) in
  (forall name, name ∈ artifact_names -> is_Some (files run.1 !! Text.path_join out name))
  /\ (job_result jf ≫= assoc "artifact_path") = Some (JStr out)
  /\ job_progress jf = {| percent := 100; message := "Unlearning completed successfully" |}.
Proof.
  intros Hj run Hjf Hdone out.
  destruct (done_job_files timestamp job_id request p j jf Hj Hjf Hdone)
    as (l & arts & env & r & _ & Hrec & Hout & D & P & I & Hall & _ & M & _).
  fold run out in D, P, I, Hall, M, Hout.
  split_and!.
  - intros name Hin. unfold artifact_names in Hin.
    repeat (apply elem_of_cons in Hin as [-> | Hin];
            [first [ by eexists
                   | match goal with
                     | |- is_Some (files _ !! Text.path_join _ ?n) =>
                         destruct (Hall n ltac:(listed)) as (b & Hb & _); by exists b
                     end ] |]).
    by apply elem_of_nil in Hin.
  - rewrite Hrec. simpl. by rewrite done_result_path, Hout.
  - by rewrite Hrec.
Qed.

Lemma done_job_artifacts_witness :
  let run := process_unlearning "20260101_000000" paris_job_id paris paris_accepted in
  jobs paris_accepted !! paris_job_id = Some (queued_job paris)
  /\ jobs run.1 !! paris_job_id = Some done_paris_job
  /\ job_state done_paris_job = Done
  /\ (forall name, name ∈ artifact_names ->
        is_Some (files run.1 !! Text.path_join paris_dir name))
  /\ (job_result done_paris_job ≫= assoc "artifact_path") = Some (JStr paris_dir).
Proof.
  cbv zeta. split; [vm_compute; reflexivity |]. split; [vm_compute; reflexivity |].
  split; [reflexivity |].
  destruct (done_job_artifacts "20260101_000000" paris_job_id paris paris_accepted
              (queued_job paris) done_paris_job) as (Hfiles & Hpath & _).
  - vm_compute; reflexivity.
  - vm_compute; reflexivity.
  - reflexivity.
  - split; [exact Hfiles | exact Hpath].
Defined.

(** X9. In the files of a job that ends done, the manifest
    describes the delta that lies next to it: the archive holds one array,
    named [embedding_weight] with shape 32000 x 4096 for [EmbeddingScrub]
    and [lm_head_weight] with shape 4096 x 32000 otherwise, whatever the
    checkpoint; the ["weight_diff_summary"] of the manifest is the summary
    of that very array; and the manifest has a ["weight_injection"] entry
    with what the injection returned. When that entry reports success, the
    backup it names exists. *)
Theorem manifest_describes_the_delta timestamp job_id request p j jf :
  jobs p !! job_id = Some j ->
  let run := process_unlearning timestamp job_id request p in
  jobs run.1 !! job_id = Some jf ->
  job_state jf = Done ->
  let out := Text.path_join (output_dir request) ("run_" +:+ timestamp) in
  let scrub := String.eqb (method request) "EmbeddingScrub" in
  exists arr m r,
    files run.1 !! Text.path_join out "weight_diffs.npz"
      = Some (BNpz [(if scrub then "embedding_weight" else "lm_head_weight", arr)])
    /\ np_shape arr = (if scrub then [32000; 4096] else [4096; 32000])
    /\ files run.1 !! Text.path_join out "manifest.json" = Some (BJson (JDict m))
    /\ assoc "weight_diff_summary" m = Some (weight_diff_summary arr)
    /\ assoc "weight_injection" m = Some (injection_json r)
    /\ match r with
       | injection_ok _ _ _ backup_path =>
           backup_path = model_path request +:+ ".backup"
           /\ is_Some (files run.1 !! backup_path)
       | injection_failed _ => True
       end.
Proof.
  intros Hj run Hjf Hdone out scrub.
  destruct (done_job_files timestamp job_id request p j jf Hj Hjf Hdone)
    as (l & arts & env & r & _ & _ & _ & D & _ & _ & _ & _ & M & Hsum & _ & Hr).
  fold run out in D, M, Hr.
  destruct (delta_entry_shape (method request)
              (rng_seeded (py_hash (secret p) (target_text request) mod 2 ^ 32))
              (py_hash (secret p) (target_text request) mod 1000)) as [Hentry Hshape].
  rewrite Hentry in D. fold scrub in D, Hshape.
  eexists _, _, r. split_and!; [exact D | exact Hshape | exact M | | | exact Hr].
  - by rewrite assoc_set_ne.
  - apply assoc_set_eq.
Qed.

Lemma manifest_describes_the_delta_witness :
  let run := process_unlearning "20260101_000000" paris_job_id paris paris_accepted in
  jobs paris_accepted !! paris_job_id = Some (queued_job paris)
  /\ jobs run.1 !! paris_job_id = Some done_paris_job
  /\ job_state done_paris_job = Done
  /\ exists arr m,
       npz_file run.1 (Text.path_join paris_dir "weight_diffs.npz")
         = Some [("embedding_weight", arr)]
       /\ json_file run.1 (Text.path_join paris_dir "manifest.json") = Some m
       /\ assoc "weight_diff_summary" m = Some (weight_diff_summary arr).
Proof.
  cbv zeta. split; [vm_compute; reflexivity |]. split; [vm_compute; reflexivity |].
  split; [reflexivity |].
  destruct (manifest_describes_the_delta "20260101_000000" paris_job_id paris paris_accepted
              (queued_job paris) done_paris_job) as (arr & m & r & Hd & _ & Hm & Hs & _).
  - vm_compute; reflexivity.
  - vm_compute; reflexivity.
  - reflexivity.
  - exists arr, m. unfold npz_file, json_file.
    change (Text.path_join (output_dir paris) ("run_" +:+ "20260101_000000"))
      with paris_dir in Hd, Hm.
    rewrite Hd, Hm. split_and!; [reflexivity | reflexivity | exact Hs].
Defined.

(** X10. The delta that a job leaves when no other task runs between its
    stretches depends on the interpreter's hash secret, on the target text
    and on the method, and on nothing else: two such jobs that end done,
    in processes with the same secret, for requests with the same target
    text and method, leave the same delta archive, whatever the
    checkpoints, the other fields of the requests, the files, the clock
    and the state of the generator were. *)
Theorem delta_is_a_function_of_the_text
    timestamp job_id request p j jf timestamp' job_id' request' p' j' jf' :
  jobs p !! job_id = Some j ->
  jobs p' !! job_id' = Some j' ->
  let run := process_unlearning timestamp job_id request p in
  let run' := process_unlearning timestamp' job_id' request' p' in
  jobs run.1 !! job_id = Some jf -> job_state jf = Done ->
  jobs run'.1 !! job_id' = Some jf' -> job_state jf' = Done ->
  secret p = secret p' ->
  target_text request = target_text request' ->
  method request = method request' ->
  files run.1 !! Text.path_join (Text.path_join (output_dir request) ("run_" +:+ timestamp))
                   "weight_diffs.npz"
  = files run'.1 !! Text.path_join
                      (Text.path_join (output_dir request') ("run_" +:+ timestamp'))
                      "weight_diffs.npz".
Proof.
  intros Hj Hj' run run' Hjf Hdone Hjf' Hdone' Hsecret Htext Hmethod.
  destruct (done_job_files timestamp job_id request p j jf Hj Hjf Hdone)
    as (l & arts & env & r & _ & _ & _ & D & _).
  destruct (done_job_files timestamp' job_id' request' p' j' jf' Hj' Hjf' Hdone')
    as (l' & arts' & env' & r' & _ & _ & _ & D' & _).
  fold run in D. fold run' in D'. rewrite D, D', Hsecret, Htext, Hmethod. reflexivity.
Qed.

Lemma delta_is_a_function_of_the_text_witness :
  let run := process_unlearning "20260101_000000" paris_job_id paris paris_accepted in
  let run' := process_unlearning "20260102_120000" berlin_job_id paris_elsewhere
                elsewhere_accepted in
  job_state <$> jobs run.1 !! paris_job_id = Some Done
  /\ job_state <$> jobs run'.1 !! berlin_job_id = Some Done
  /\ files run.1 !! Text.path_join paris_dir "weight_diffs.npz"
     = files run'.1 !! Text.path_join "elsewhere/run_20260102_120000" "weight_diffs.npz".
Proof.
  cbv zeta. split; [vm_compute; reflexivity |]. split; [vm_compute; reflexivity |].
  destruct (jobs (process_unlearning "20260102_120000" berlin_job_id paris_elsewhere
                    elsewhere_accepted).1 !! berlin_job_id) as [jf'|] eqn:Hjf';
    [| vm_compute in Hjf'; discriminate].
  apply (delta_is_a_function_of_the_text
           "20260101_000000" paris_job_id paris paris_accepted (queued_job paris)
           done_paris_job
           "20260102_120000" berlin_job_id paris_elsewhere elsewhere_accepted
           (queued_job paris_elsewhere) jf').
  - vm_compute; reflexivity.
  - vm_compute; reflexivity.
  - vm_compute; reflexivity.
  - reflexivity.
  - exact Hjf'.
  - vm_compute in Hjf'. injection Hjf' as <-. reflexivity.
  - reflexivity.
  - reflexivity.
  - reflexivity.
Defined.

(** X11. In the files of a job that ends done, the integrity file
    has an entry for each of the four files that the method wrote, and
    each is the SHA-256 of the content that the file has at the end. Its
    entry for [manifest.json] is not: it is the digest of the manifest
    that lay in the directory before the job, and is missing when there
    was none. *)
Theorem integrity_of_a_done_job timestamp job_id request p j jf :
  jobs p !! job_id = Some j ->
  let run := process_unlearning timestamp job_id request p in
  jobs run.1 !! job_id = Some jf ->
  job_state jf = Done ->
  let out := Text.path_join (output_dir request) ("run_" +:+ timestamp) in
  exists artifacts environment,
    files run.1 !! Text.path_join out "integrity.json"
      = Some (BJson (JDict [("artifacts", JDict artifacts); ("environment", environment)]))
    /\ (forall name, name ∈ method_artifacts ->
          exists b, files run.1 !! Text.path_join out name = Some b
                    /\ assoc name artifacts = Some (JSha256 b))
    /\ assoc "manifest.json" artifacts
         = JSha256 <$> files p !! Text.path_join out "manifest.json".
Proof.
  intros Hj run Hjf Hdone out.
  destruct (done_job_files timestamp job_id request p j jf Hj Hjf Hdone)
    as (l & arts & env & r & _ & _ & _ & _ & _ & I & Hall & Hman & _).
  by exists arts, env.
Qed.

Lemma integrity_of_a_done_job_witness :
  let run := process_unlearning "20260101_000000" paris_job_id paris paris_accepted in
  jobs paris_accepted !! paris_job_id = Some (queued_job paris)
  /\ jobs run.1 !! paris_job_id = Some done_paris_job
  /\ job_state done_paris_job = Done
  /\ exists artifacts,
       json_file run.1 (Text.path_join paris_dir "integrity.json") ≫= assoc "artifacts"
         = Some (JDict artifacts)
       /\ assoc "weight_diffs.npz" artifacts
            = JSha256 <$> files run.1 !! Text.path_join paris_dir "weight_diffs.npz"
       /\ assoc "manifest.json" artifacts = None.
Proof.
  cbv zeta. split; [vm_compute; reflexivity |]. split; [vm_compute; reflexivity |].
  split; [reflexivity |].
  destruct (integrity_of_a_done_job "20260101_000000" paris_job_id paris paris_accepted
              (queued_job paris) done_paris_job) as (artifacts & env & Hi & Hall & Hm).
  - vm_compute; reflexivity.
  - vm_compute; reflexivity.
  - reflexivity.
  - exists artifacts.
    change (Text.path_join (output_dir paris) ("run_" +:+ "20260101_000000"))
      with paris_dir in Hi, Hall, Hm.
    unfold json_file. rewrite Hi. split_and!; [reflexivity | |].
    + destruct (Hall "weight_diffs.npz") as (b & Hb & Ha);
        [apply list_elem_of_here |]. by rewrite Hb, Ha.
    + rewrite Hm. vm_compute. reflexivity.
Defined.

(** * Runs, queries and the registry *)

(** ** A job run to its end *)

(** X12. [process_unlearning] run to its end for a job of the
    registry returns, and leaves that job done or failed, never queued or
    running; the records of the other jobs and the tasks are as they
    were. *)
Theorem job_always_settles timestamp job_id request p j :
  jobs p !! job_id = Some j ->
  let run := process_unlearning timestamp job_id request p in
  run.2 = Return finished
  /\ (exists jf, jobs run.1 !! job_id = Some jf
                 /\ (job_state jf = Done \/ job_state jf = Error))
  /\ (forall id, id <> job_id -> jobs run.1 !! id = jobs p !! id)
  /\ tasks run.1 = tasks p.
Proof.
  intros Hj run.
  pose proof (keeps_run_stretches (others job_id) job_id 5 timestamp request at_entry p)
    as (Htasks & Hothers & _).
  fold (process_unlearning timestamp job_id request) in Htasks, Hothers. fold run in Htasks, Hothers.
  assert (run.2 = Return finished
          /\ exists jf, jobs run.1 !! job_id = Some jf
                        /\ (job_state jf = Done \/ job_state jf = Error)) as [Hret Hjf];
    [| by split_and!].
  subst run. unfold process_unlearning.
  rewrite run_stretches_S.
  destruct (resume_step timestamp job_id request at_entry p j Hj)
    as (p1 & fr1 & j1 & -> & Hj1 & _ & [H1 | [-> E1]]);
    [| rewrite run_stretches_finished; simpl; eauto].
  apply enter_returns in H1 as ->.
  rewrite run_stretches_S.
  destruct (resume_step timestamp job_id request at_loading p1 j1 Hj1)
    as (p2 & fr2 & j2 & -> & Hj2 & _ & [H2 | [-> E2]]);
    [| rewrite run_stretches_finished; simpl; eauto].
  apply prepare_returns_seed in H2 as ->.
  rewrite run_stretches_S.
  destruct (resume_step timestamp job_id request
              (at_method (Text.path_join (output_dir request) ("run_" +:+ timestamp))
                 (JSha256 (BRaw (target_text request)))
                 (py_hash (secret p1) (target_text request) mod 2 ^ 32)) p2 j2 Hj2)
    as (p3 & fr3 & j3 & -> & Hj3 & _ & [H3 | [-> E3]]);
    [| rewrite run_stretches_finished; simpl; eauto].
  apply run_method_returns_manifest in H3 as (l & -> & _).
  rewrite run_stretches_S.
  destruct (resume_step timestamp job_id request (at_verification l) p3 j3 Hj3)
    as (p4 & fr4 & j4 & -> & Hj4 & _ & [H4 | [-> E4]]);
    [| rewrite run_stretches_finished; simpl; eauto].
  apply write_integrity_returns_locals in H4 as ->.
  rewrite run_stretches_S.
  destruct (resume_step timestamp job_id request (at_injection l) p4 j4 Hj4)
    as (p5 & fr5 & j5 & -> & Hj5 & _ & [H5 | [-> E5]]);
    [| simpl; eauto].
  eapply inject_and_finish_returns in H5 as [-> Hdone]; [| exact Hj4].
  apply fmap_job_state_Some in Hdone as (jd & Hjd & Hst).
  simpl. eauto.
Qed.

Lemma job_always_settles_witness :
  jobs paris_accepted !! paris_job_id = Some (queued_job paris)
  /\ (process_unlearning "20260101_000000" paris_job_id paris paris_accepted).2
       = Return finished.
Proof.
  split; [vm_compute; reflexivity |].
  destruct (job_always_settles "20260101_000000" paris_job_id paris paris_accepted
              (queued_job paris)) as (Hret & _).
  - vm_compute; reflexivity.
  - exact Hret.
Defined.

(** X13. Run for an id that the registry does not have,
    [process_unlearning] raises [KeyError]: the first assignment to the
    record raises it inside the [try], and the handler, which assigns to
    the same record, raises it again. Nothing has changed. *)
Theorem unknown_job_raises_key_error timestamp job_id request p :
  jobs p !! job_id = None ->
  process_unlearning timestamp job_id request p = (p, Raise (KeyError job_id)).
Proof.
  intros Hnone. unfold process_unlearning. rewrite run_stretches_S.
  unfold resume, try_except. simpl stretch.
  unfold enter, on_exception, set_state, update_job.
  rewrite !bind_unfold. simpl. rewrite Hnone. simpl.
  rewrite !bind_unfold. simpl. by rewrite Hnone.
Qed.

Lemma unknown_job_raises_key_error_witness :
  jobs (fresh_process hashseed_0 no_faults) !! paris_job_id = None
  /\ process_unlearning "20260101_000000" paris_job_id paris (fresh_process hashseed_0 no_faults)
     = (fresh_process hashseed_0 no_faults, Raise (KeyError paris_job_id)).
Proof.
  split; [reflexivity |].
  apply (unknown_job_raises_key_error "20260101_000000" paris_job_id paris
           (fresh_process hashseed_0 no_faults)).
  reflexivity.
Defined.

(** ** Status queries *)

Lemma make_job_id_not_ping now_ms rnd : String.eqb (make_job_id now_ms rnd) "ping" = false.
Proof. reflexivity. Qed.

Lemma get_status_run job_id p :
  get_status job_id p =
    (p, if String.eqb job_id "ping" then
          Return {| state := Done;
                    progress := Some {| percent := 100; message := "Server is running" |};
                    result := None; error := None |}
        else match jobs p !! job_id with
             | None => Raise (HTTPException 404 "Job not found")
             | Some job =>
                 Return {| state := job_state job; progress := Some (job_progress job);
                           result := job_result job; error := job_error job |}
             end).
Proof.
  unfold get_status. destruct (String.eqb job_id "ping"); [done |].
  rewrite bind_unfold. simpl. by destruct (jobs p !! job_id).
Qed.

(** X14. A request that is accepted, whether its model path is a file or
    a directory, can be queried at once under the id that was returned:
    the answer is the queued record, 0 percent, "Job queued", no result
    and no error; the id is never the one of the health check. The
    answers for all other ids are as they were. *)
Theorem status_after_start request now_ms rnd p job_id :
  let started := start_unlearning request now_ms rnd p in
  started.2 = Return job_id ->
  job_id <> "ping"
  /\ (get_status job_id started.1).2
       = Return {| state := Queued;
                   progress := Some {| percent := 0; message := "Job queued" |};
                   result := None; error := None |}
  /\ forall id, id <> job_id -> (get_status id started.1).2 = (get_status id p).2.
Proof.
  cbv zeta. rewrite start_unlearning_cases.
  destruct (path_exists (files p) (model_path request)); simpl; [| discriminate].
  destruct (bool_decide (method request ∈ recognized_methods)); simpl; [| discriminate].
  intros [= <-]. split_and!.
  - intros E. pose proof (make_job_id_not_ping now_ms rnd) as H. rewrite E in H. discriminate.
  - rewrite get_status_run, make_job_id_not_ping. simpl. by rewrite lookup_insert_eq.
  - intros id Hid. rewrite !get_status_run. simpl. by rewrite lookup_insert_ne.
Qed.

Lemma status_after_start_witness :
  let started := start_unlearning llama_dir_request 1767225600000 "deadbeef"
                   llama_dir_process in
  started.2 = Return paris_job_id
  /\ (get_status paris_job_id started.1).2
       = Return {| state := Queued;
                   progress := Some {| percent := 0; message := "Job queued" |};
                   result := None; error := None |}.
Proof.
  cbv zeta. split; [vm_compute; reflexivity |].
  apply (status_after_start llama_dir_request 1767225600000 "deadbeef" llama_dir_process
           paris_job_id).
  vm_compute; reflexivity.
Defined.

(** ** Tasks that take turns *)

Lemma on_exception_returns job_id e p p' fr :
  on_exception job_id e p = (p', Return fr) -> fr = finished.
Proof.
  unfold on_exception. intros H.
  apply bind_return_inv in H as ([] & p1 & _ & H).
  apply bind_return_inv in H as ([] & p2 & _ & H).
  apply bind_return_inv in H as ([] & p3 & _ & H).
  by apply return_eq_inv in H as [_ ->].
Qed.

(** A task that is suspended after a turn has run its stretch to the
    await: the handler was not entered. *)
Lemma resume_suspended timestamp job_id request fr p p' fr' :
  resume timestamp job_id request fr p = (p', Return fr') ->
  suspended fr' ->
  stretch timestamp job_id request fr p = (p', Return fr').
Proof.
  unfold resume, try_except. intros H Hs.
  destruct (stretch timestamp job_id request fr p) as [p1 [x | e]]; [done |].
  apply on_exception_returns in H as ->. destruct Hs.
Qed.

(** X15. Two tasks that take turns share numpy's generator. When
    the task of job A has seeded it from its text and waits, the task of
    job B seeds it from its own text and waits, and the task of A then
    runs its method, the noise in the delta archive of A is drawn from the
    generator as B has seeded it. *)
Theorem overlapping_jobs_share_the_generator
    timestamp_a id_a request_a timestamp_b id_b request_b p fr_a :
  let a1 := resume timestamp_a id_a request_a at_loading p in
  let b1 := resume timestamp_b id_b request_b at_loading a1.1 in
  let a2 := resume timestamp_a id_a request_a fr_a b1.1 in
  a1.2 = Return fr_a ->
  suspended fr_a ->
  (exists fr_b, b1.2 = Return fr_b /\ suspended fr_b) ->
  (exists fr_a', a2.2 = Return fr_a' /\ suspended fr_a') ->
  files a2.1 !! Text.path_join (Text.path_join (output_dir request_a) ("run_" +:+ timestamp_a))
                  "weight_diffs.npz"
    = Some (BNpz [delta_entry (method request_a)
                    (rng_seeded (py_hash (secret p) (target_text request_b) mod 2 ^ 32))
                    (py_hash (secret p) (target_text request_a) mod 1000)]).
Proof.
  intros a1 b1 a2 Ha1 Hsa (fr_b & Hb1 & Hsb) (fr_a' & Ha2 & Hsa').
  assert (a1 = (a1.1, Return fr_a)) as Ea1 by (rewrite <- Ha1; by destruct a1).
  assert (b1 = (b1.1, Return fr_b)) as Eb1 by (rewrite <- Hb1; by destruct b1).
  assert (a2 = (a2.1, Return fr_a')) as Ea2 by (rewrite <- Ha2; by destruct a2).
  apply resume_suspended in Ea1; [| done].
  apply resume_suspended in Eb1; [| done].
  apply resume_suspended in Ea2; [| done].
  simpl stretch in Ea1, Eb1.
  apply prepare_spec in Ea1 as (-> & _ & _ & Hsec1 & _ & _).
  apply prepare_spec in Eb1 as (_ & _ & _ & Hsec2 & _ & Hg).
  simpl stretch in Ea2.
  apply run_method_spec in Ea2 as (l & _ & _ & _ & _ & _ & Hdelta & _).
  rewrite Hdelta, Hg, Hsec2, Hsec1. done.
Qed.

Lemma overlapping_jobs_share_the_generator_witness :
  let a1 := resume "20260101_000000" paris_job_id paris at_loading two_jobs_loading in
  let b1 := resume "20260101_000000" berlin_job_id berlin at_loading a1.1 in
  let fr_a := at_method paris_dir (JSha256 (BRaw "Paris"))
                (py_hash hashseed_0 "Paris" mod 2 ^ 32) in
  let a2 := resume "20260101_000000" paris_job_id paris fr_a b1.1 in
  a1.2 = Return fr_a
  /\ npz_file a2.1 (Text.path_join paris_dir "weight_diffs.npz")
       = Some [delta_entry "EmbeddingScrub"
                 (rng_seeded (py_hash hashseed_0 "Berlin" mod 2 ^ 32))
                 (py_hash hashseed_0 "Paris" mod 1000)].
Proof.
  cbv zeta. split; [vm_compute; reflexivity |].
  pose proof (overlapping_jobs_share_the_generator
                "20260101_000000" paris_job_id paris "20260101_000000" berlin_job_id berlin
                two_jobs_loading
                (at_method paris_dir (JSha256 (BRaw "Paris"))
                   (py_hash hashseed_0 "Paris" mod 2 ^ 32))) as H.
  cbv zeta in H. unfold npz_file.
  change (Text.path_join (Text.path_join (output_dir paris) ("run_" +:+ "20260101_000000"))
            "weight_diffs.npz")
    with (Text.path_join paris_dir "weight_diffs.npz") in H.
  rewrite H; [reflexivity | vm_compute; reflexivity | exact I | |].
  - eexists. split; [vm_compute; reflexivity | exact I].
  - eexists. split; [vm_compute; reflexivity | exact I].
Defined.

(** ** The manifest of a job that fails *)

(** The stretches before the last one leave a file alone that is none of
    those they write. *)
Lemma same_at_resume_early q timestamp job_id request fr :
  match fr with
  | at_method out _ _ => forall name, name ∈ method_artifacts -> Text.path_join out name <> q
  | at_verification l => Text.path_join (output_path l) "integrity.json" <> q
  | at_injection _ => False
  | _ => True
  end ->
  keeps (same_at q) (resume timestamp job_id request fr).
Proof.
  intros Hfr. apply keeps_try_except; [apply _ | | intros e; apply keeps_on_exception; apply _].
  destruct fr as [| |out h s|l|l|]; simpl stretch.
  - unfold enter, set_state. keeps_auto;
      first [ apply keeps_update_job; apply _ | apply keeps_set_progress; apply _
            | apply keeps_os_path_exists; apply _ ].
  - unfold prepare, check_model. keeps_auto;
      first [ apply keeps_load_file; apply _ | apply keeps_os_makedirs; apply _
            | apply keeps_np_random_seed; apply _ | apply keeps_set_progress; apply _ ].
  - by apply same_at_run_method.
  - by apply same_at_write_integrity.
  - destruct Hfr.
  - keeps_auto.
Qed.

(** The last stretch, when it raises: the manifest is as it was, or the
    write of the manifest was torn. *)
Lemma inject_and_finish_raises job_id request l p j :
  jobs p !! job_id = Some j ->
  Text.endswith ".safetensors" (model_path request) = true ->
  let out := inject_and_finish job_id request l p in
  let q := Text.path_join (output_path l) "manifest.json" in
  match out.2 with
  | Return _ => True
  | Raise _ =>
      jobs out.1 = jobs p
      /\ (files out.1 !! q = files p !! q \/ exists part, files out.1 !! q = Some (BPartial part))
  end.
Proof.
  intros Hj Hext. cbv zeta. unfold inject_and_finish. rewrite Hext, bind_unfold.
  set (m := _ ≫= _).
  assert (keeps same_registry m) as Hk.
  { subst m. keeps_auto. keeps_call. }
  assert (keeps (same_at (Text.path_join (output_path l) "manifest.json")) m) as Hq.
  { subst m. keeps_auto.
    destruct (artifact_path_beside_checkpoint (model_path request) (output_path l)
                "manifest.json" Hext eq_refl (or_intror eq_refl)) as (N1 & N2 & N3).
    by apply same_at_inject_weights_into_model. }
  destruct (Hk p) as [Hjobs _]. specialize (Hq p). unfold same_at in Hq. clear Hk.
  destruct (m p) as [p1 [mf|e]]; simpl in Hjobs, Hq; [| simpl; split; [done | by left]].
  rewrite bind_unfold. unfold json_dump. rewrite write_file_run.
  destruct (fault p1 _); simpl.
  - set (p2 := with_files _ _ p1).
    assert (jobs p2 !! job_id = Some j) as Hj2 by (simpl; by rewrite Hjobs).
    rewrite bind_unfold. unfold set_progress. rewrite (update_job_run _ _ _ _ Hj2).
    rewrite bind_unfold. unfold set_state, set_result.
    destruct (String.eqb (method request) "EmbeddingScrub") eqn:Hm;
      erewrite update_job_twice by (simpl; apply lookup_insert_eq);
      rewrite mret_run; simpl; done.
  - split; [done | by left].
  - split; [done |]. right. rewrite lookup_insert_eq. eauto.
Qed.

(** X16. A job that ends in state error has not written its
    manifest: the file [manifest.json] of its output directory is as it
    was before the job ran, or it holds the part of a write that was torn
    (which is what raised). A manifest that is complete is not of this
    job. *)
Theorem failed_job_writes_no_manifest timestamp job_id request p j jf :
  jobs p !! job_id = Some j ->
  let run := process_unlearning timestamp job_id request p in
  let manifest_path :=
    Text.path_join (Text.path_join (output_dir request) ("run_" +:+ timestamp))
      "manifest.json" in
  jobs run.1 !! job_id = Some jf ->
  job_state jf = Error ->
  files run.1 !! manifest_path = files p !! manifest_path
  \/ exists part, files run.1 !! manifest_path = Some (BPartial part).
Proof.
  intros Hj. cbv zeta. unfold process_unlearning.
  set (q := Text.path_join (Text.path_join (output_dir request) ("run_" +:+ timestamp))
              "manifest.json").
  assert (forall fr p0, match fr with
            | at_method out _ _ =>
                forall name, name ∈ method_artifacts -> Text.path_join out name <> q
            | at_verification l => Text.path_join (output_path l) "integrity.json" <> q
            | at_injection _ => False
            | _ => True
            end ->
            files (resume timestamp job_id request fr p0).1 !! q = files p0 !! q) as Hearly.
  { intros fr p0 Hfr.
    exact (same_at_resume_early q timestamp job_id request fr Hfr p0). }
  rewrite run_stretches_S.
  pose proof (Hearly at_entry p I) as F1.
  destruct (resume_step timestamp job_id request at_entry p j Hj)
    as (p1 & fr1 & j1 & E1 & Hj1 & _ & [H1 | [-> _]]); rewrite E1 in F1 |- *; simpl in F1;
    [| rewrite run_stretches_finished; simpl; auto].
  apply enter_returns in H1 as ->.
  rewrite run_stretches_S.
  pose proof (Hearly at_loading p1 I) as F2.
  destruct (resume_step timestamp job_id request at_loading p1 j1 Hj1)
    as (p2 & fr2 & j2 & E2 & Hj2 & _ & [H2 | [-> _]]); rewrite E2 in F2 |- *; simpl in F2;
    [| rewrite run_stretches_finished; simpl; rewrite F2; auto].
  apply prepare_spec in H2 as (-> & Hext & _).
  rewrite run_stretches_S.
  match goal with |- context [resume _ _ _ ?fr p2] =>
    assert (files (resume timestamp job_id request fr p2).1 !! q = files p2 !! q) as F3;
    [ apply Hearly; intros name Hin E;
      destruct (method_artifact_name name Hin) as (_ & Hrel & _ & _ & Hm);
      apply path_join_inj in E; done |];
    destruct (resume_step timestamp job_id request fr p2 j2 Hj2)
      as (p3 & fr3 & j3 & E3 & Hj3 & _ & [H3 | [-> _]])
  end; rewrite E3 in F3 |- *; simpl in F3;
    [| rewrite run_stretches_finished; simpl; rewrite F3, F2; auto].
  apply run_method_returns_manifest in H3 as (l & -> & Hout & _).
  rewrite run_stretches_S.
  assert (files (resume timestamp job_id request (at_verification l) p3).1 !! q
          = files p3 !! q) as F4.
  { apply Hearly. rewrite Hout. intros E. apply path_join_inj in E; done. }
  destruct (resume_step timestamp job_id request (at_verification l) p3 j3 Hj3)
    as (p4 & fr4 & j4 & E4 & Hj4 & _ & [H4 | [-> _]]); rewrite E4 in F4 |- *; simpl in F4;
    [| rewrite run_stretches_finished; simpl; rewrite F4, F3, F2; auto].
  apply write_integrity_returns_locals in H4 as ->.
  rewrite run_stretches_S.
  pose proof (inject_and_finish_raises job_id request l p4 j4 Hj4 Hext) as Hlast.
  cbv zeta in Hlast. rewrite Hout in Hlast. fold q in Hlast.
  destruct (inject_and_finish job_id request l p4) as [p5 [fr5|e]] eqn:H5; simpl in Hlast.
  - rewrite (resume_return timestamp job_id request (at_injection l) p4 p5 fr5 H5).
    eapply inject_and_finish_returns in H5 as [-> Hdone]; [| exact Hj4].
    apply fmap_job_state_Some in Hdone as (jd & Hjd & Hst).
    simpl. intros Hjf. rewrite Hjd in Hjf. injection Hjf as <-. congruence.
  - destruct Hlast as [Hjobs Hfiles].
    assert (jobs p5 !! job_id = Some j4) as Hj5 by (by rewrite Hjobs).
    rewrite (resume_raise timestamp job_id request (at_injection l) p4 p5 e j4 H5 Hj5). simpl. intros _ _.
    rewrite <- F1, <- F2, <- F3, <- F4. exact Hfiles.
Qed.

Lemma failed_job_writes_no_manifest_witness :
  let run := process_unlearning "20260101_000000" paris_job_id pickle_request pickle_process in
  job_state <$> jobs run.1 !! paris_job_id = Some Error
  /\ (files run.1 !! Text.path_join paris_dir "manifest.json" = None
      \/ exists part,
           files run.1 !! Text.path_join paris_dir "manifest.json" = Some (BPartial part)).
Proof.
  cbv zeta. split; [vm_compute; reflexivity |].
  destruct (jobs (process_unlearning "20260101_000000" paris_job_id pickle_request
                    pickle_process).1 !! paris_job_id) as [jf|] eqn:Hjf;
    [| vm_compute in Hjf; discriminate].
  apply (failed_job_writes_no_manifest "20260101_000000" paris_job_id pickle_request
           pickle_process (queued_job pickle_request) jf).
  - reflexivity.
  - exact Hjf.
  - vm_compute in Hjf. injection Hjf as <-. reflexivity.
Defined.

(** * The search for a port *)

Lemma find_port_in_range net n start otherwise :
  find_port_in net (seqZ start (Z.of_nat n)) otherwise =
    match n with
    | O => otherwise
    | S n' =>
        match bind_attempt net start with
        | Bound => port_found start
        | RaisesOSError => find_port_in net (seqZ (start + 1) (Z.of_nat n')) otherwise
        | RaisesOverflowError => port_overflow_error start
        end
    end.
Proof.
  destruct n as [|n']; [done |].
  rewrite seqZ_cons by lia.
  replace (Z.pred (Z.of_nat (S n'))) with (Z.of_nat n') by lia.
  replace (Z.succ start) with (start + 1) by lia. done.
Qed.

Lemma find_port_in_found net n start otherwise port :
  (forall q, otherwise <> port_found q) ->
  find_port_in net (seqZ start (Z.of_nat n)) otherwise = port_found port
  <-> start <= port < start + Z.of_nat n
      /\ bind_attempt net port = Bound
      /\ forall q, start <= q < port -> bind_attempt net q = RaisesOSError.
Proof.
  intros Hother. revert start. induction n as [|n IH]; intros start;
    rewrite find_port_in_range.
  - split; [intros H; by apply Hother in H | lia].
  - destruct (bind_attempt net start) eqn:Hs.
    + split.
      * intros [= <-]. split_and!; [lia | lia | done | lia].
      * intros (Hr & Hb & Hbefore).
        destruct (decide (port = start)) as [-> | Hne]; [done |].
        rewrite Hbefore in Hs by lia. discriminate.
    + rewrite IH. split.
      * intros (Hr & Hb & Hbefore). split_and!; [lia | lia | done |].
        intros q Hq. destruct (decide (q = start)) as [-> | Hne]; [done |].
        apply Hbefore. lia.
      * intros (Hr & Hb & Hbefore).
        assert (port <> start) by (intros ->; congruence).
        split_and!; [lia | lia | done |]. intros q Hq. apply Hbefore. lia.
    + split; [discriminate |].
      intros (Hr & Hb & Hbefore).
      destruct (decide (port = start)) as [-> | Hne]; [congruence |].
      rewrite Hbefore in Hs by lia. discriminate.
Qed.

Lemma find_port_in_otherwise net n start msg :
  find_port_in net (seqZ start (Z.of_nat n)) (port_runtime_error msg) = port_runtime_error msg
  <-> forall q, start <= q < start + Z.of_nat n -> bind_attempt net q = RaisesOSError.
Proof.
  revert start. induction n as [|n IH]; intros start; rewrite find_port_in_range.
  - split; [lia | done].
  - destruct (bind_attempt net start) eqn:Hs.
    + split; [discriminate |]. intros H. rewrite H in Hs by lia. discriminate.
    + rewrite IH. split.
      * intros H q Hq. destruct (decide (q = start)) as [-> | Hne]; [done |]. apply H. lia.
      * intros H q Hq. apply H. lia.
    + split; [discriminate |]. intros H. rewrite H in Hs by lia. discriminate.
Qed.

Lemma find_port_in_message net n start msg msg' :
  find_port_in net (seqZ start (Z.of_nat n)) (port_runtime_error msg) = port_runtime_error msg' ->
  msg' = msg.
Proof.
  revert start. induction n as [|n IH]; intros start; rewrite find_port_in_range;
    [by intros [= ->] |].
  destruct (bind_attempt net start); [discriminate | apply IH | discriminate].
Qed.

Lemma bind_attempt_overflow net port :
  bind_attempt net port = RaisesOverflowError -> port < 0 \/ 65535 < port.
Proof.
  unfold bind_attempt. destruct (socket_error net port); [done |].
  destruct ((port <? 0) || (65535 <? port)) eqn:Hb.
  - intros _. apply orb_true_iff in Hb as [Hb|Hb]; lia.
  - by destruct (bind_error net port).
Qed.

Lemma find_port_in_overflow net n start msg port :
  find_port_in net (seqZ start (Z.of_nat n)) (port_runtime_error msg) = port_overflow_error port ->
  start <= port < start + Z.of_nat n /\ (port < 0 \/ 65535 < port).
Proof.
  revert start. induction n as [|n IH]; intros start; rewrite find_port_in_range; [done |].
  destruct (bind_attempt net start) eqn:Hs; [done | |].
  - intros Hr. apply IH in Hr. lia.
  - intros [= <-]. split; [lia |]. by apply (bind_attempt_overflow net).
Qed.

Lemma port_range start_port max_port :
  seqZ start_port (max_port + 1 - start_port)
  = seqZ start_port (Z.of_nat (Z.to_nat (max_port + 1 - start_port))).
Proof.
  destruct (decide (0 <= max_port + 1 - start_port)) as [H|H].
  - by rewrite Z2Nat.id.
  - rewrite Z2Nat.nonpos by lia. unfold seqZ. by rewrite !Z2Nat.nonpos by lia.
Qed.

(** X17. [find_available_port] returns a port exactly when that port
    is one of [start_port..max_port], a socket binds to it, and every
    attempt for a lower port of the range has raised [OSError]: it is the
    least port of the range that is free. *)
Theorem find_available_port_finds_the_least net start_port max_port port :
  find_available_port net start_port max_port = port_found port
  <-> start_port <= port <= max_port
      /\ bind_attempt net port = Bound
      /\ forall q, start_port <= q < port -> bind_attempt net q = RaisesOSError.
Proof.
  unfold find_available_port. rewrite port_range, find_port_in_found by done.
  split; intros (Hr & Hb & Hbefore); (split_and!; [lia | lia | done | done]).
Qed.

(** X18. [find_available_port] raises its [RuntimeError] exactly when
    every attempt for a port of [start_port..max_port] has raised
    [OSError]; the message names the two bounds. That is so of every
    range that is empty. A port outside 0..65535 whose socket could be
    made ends the search with [OverflowError] instead. *)
Theorem find_available_port_gives_up net start_port max_port :
  (forall msg,
     find_available_port net start_port max_port = port_runtime_error msg
     <-> msg = "No available ports found between " +:+ pretty start_port
               +:+ " and " +:+ pretty max_port
         /\ forall q, start_port <= q <= max_port -> bind_attempt net q = RaisesOSError)
  /\ (max_port < start_port ->
      exists msg, find_available_port net start_port max_port = port_runtime_error msg)
  /\ (forall port,
        find_available_port net start_port max_port = port_overflow_error port ->
        start_port <= port <= max_port /\ (port < 0 \/ 65535 < port)).
Proof.
  assert (forall msg,
     find_available_port net start_port max_port = port_runtime_error msg
     <-> msg = "No available ports found between " +:+ pretty start_port
               +:+ " and " +:+ pretty max_port
         /\ forall q, start_port <= q <= max_port -> bind_attempt net q = RaisesOSError) as H.
  { intros msg. unfold find_available_port. rewrite port_range. split.
    - intros H. pose proof (find_port_in_message _ _ _ _ _ H) as ->.
      split; [done |]. pose proof (proj1 (find_port_in_otherwise _ _ _ _) H) as H'.
      intros q Hq. apply H'. lia.
    - intros [-> H]. apply (proj2 (find_port_in_otherwise _ _ _ _)).
      intros q Hq. apply H. lia. }
  split_and!; [exact H | |].
  - intros Hempty. eexists. apply H. split; [done | lia].
  - intros port. unfold find_available_port. rewrite port_range.
    intros Hr. apply find_port_in_overflow in Hr. lia.
Qed.

(** * The runner *)

Lemma lift_update_job job_id f p j :
  jobs p !! job_id = Some j ->
  lift (update_job job_id f) p = (with_jobs (<[job_id := f j]> (jobs p)) p, Returned tt).
Proof. intros Hj. unfold lift. by rewrite (update_job_run _ _ _ _ Hj). Qed.

Lemma runner_on_exception_run job_id e p j :
  jobs p !! job_id = Some j ->
  runner_on_exception job_id e p
    = (with_jobs (<[job_id := failed_with (str_runner_exn e) j]> (jobs p)) p, Returned tt).
Proof.
  intros Hj. unfold runner_on_exception, lift, set_state, set_error, set_progress.
  rewrite bind_unfold, (update_job_run _ _ _ _ Hj).
  rewrite bind_unfold. erewrite update_job_run by (simpl; apply lookup_insert_eq).
  erewrite update_job_run by (simpl; apply lookup_insert_eq).
  simpl. by rewrite !insert_insert_eq.
Qed.

Lemma runner_process_unlearning_run rest job_id request p j :
  jobs p !! job_id = Some j ->
  runner_process_unlearning rest job_id request p
    = (with_jobs (<[job_id := failed_with "name 'asyncio' is not defined" j]> (jobs p)) p,
       Returned tt).
Proof.
  intros Hj. unfold runner_process_unlearning, rio_try, rio_bind.
  unfold set_state, set_progress. rewrite (lift_update_job _ _ _ _ Hj).
  erewrite lift_update_job by (simpl; apply lookup_insert_eq).
  cbn [runner_steps]. unfold rio_bind at 1.
  match goal with
  | |- context [load_global "asyncio" ?q] =>
      change (load_global "asyncio" q) with (q, @Raised unit (NameError "asyncio"))
  end.
  cbv iota beta.
  erewrite runner_on_exception_run by (simpl; apply lookup_insert_eq).
  simpl. rewrite !insert_insert_eq. reflexivity.
Qed.

(** X19. In [local/runner/server.py] no job can succeed: whatever the
    request and whatever the statements after the progress loop do,
    [process_unlearning] run for a job of the registry returns with that
    job in state error, with the text of the [NameError] for [asyncio] as
    its error and, after "Error: ", as its message, at 0 percent. Its
    result is as it was, no file is written, and the other jobs are as
    they were. *)
Theorem runner_jobs_always_fail rest job_id request p j :
  jobs p !! job_id = Some j ->
  let out := runner_process_unlearning rest job_id request p in
  let jf := failed_with "name 'asyncio' is not defined" j in
  out.2 = Returned tt
  /\ jobs out.1 = <[job_id := jf]> (jobs p)
  /\ job_state jf = Error
  /\ job_result jf = job_result j
  /\ files out.1 = files p
  /\ journal out.1 = journal p
  /\ np_random out.1 = np_random p.
Proof.
  intros Hj. cbv zeta. rewrite (runner_process_unlearning_run rest _ _ _ _ Hj).
  split_and!; reflexivity.
Qed.

Lemma runner_jobs_always_fail_witness :
  jobs paris_accepted !! paris_job_id = Some (queued_job paris)
  /\ let out := runner_process_unlearning (fun _ => rio_ret tt) paris_job_id paris
                  paris_accepted in
     job_error <$> jobs out.1 !! paris_job_id = Some (Some "name 'asyncio' is not defined")
     /\ files out.1 = files paris_accepted.
Proof.
  split; [vm_compute; reflexivity |].
  destruct (runner_jobs_always_fail (fun _ => rio_ret tt) paris_job_id paris paris_accepted
              (queued_job paris)) as (_ & Hjobs & _ & _ & Hfiles & _).
  - vm_compute; reflexivity.
  - cbv zeta. split; [| exact Hfiles]. rewrite Hjobs, lookup_insert_eq. reflexivity.
Defined.

(** * The model run on concrete inputs *)

Example paris_job_id_made : make_job_id 1767225600000 "deadbeef" = paris_job_id.
Proof. vm_compute. reflexivity. Qed.

Example py_hash_paris :
  py_hash hashseed_0 "Paris" = 454794018278660107
  /\ py_hash hashseed_1 "Paris" = -5326501261974912916.
Proof. split; vm_compute; reflexivity. Qed.

(** ** The target text in the artifacts *)

Lemma prefix_refl (s : string) : String.prefix s s = true.
Proof.
  induction s as [|c s IH]; simpl; [done |].
  destruct (ascii_dec c c); [exact IH | contradiction].
Qed.

Lemma contains_append (s t : string) : Text.contains t (s +:+ t) = true.
Proof.
  induction s as [|c s IH].
  - destruct t; simpl; [done |]. rewrite prefix_refl.
    destruct (ascii_dec a a); [done | contradiction].
  - change (String c s +:+ t) with (String c (s +:+ t)).
    cbn [Text.contains]. rewrite IH. apply orb_true_r.
Qed.

(** Whatever the target text, the probes document contains it. *)
Lemma probes_mention_target target_text before after :
  json_mentions target_text (probes_json target_text before after) = true.
Proof.
  unfold probes_json, test_prompts. cbn [json_mentions existsb fst snd map].
  rewrite (contains_append "Tell me about " target_text).
  rewrite orb_true_r. reflexivity.
Qed.

(** C1, at the request for "Paris". The job ends done, and the probes file
    it has written holds the prompts built from the target text, so the
    text can be read in it. The manifest, for its part, holds the digest
    and the length only. *)
Theorem target_text_is_persisted :
  let p := paris_run hashseed_0 no_faults in
  job_state <$> jobs p !! paris_job_id = Some Done
  /\ (json_file p (Text.path_join paris_dir "probes.json") ≫= assoc "prompts")
       = Some (JList [JStr "Tell me about Paris"; JStr "What is Paris?";
                      JStr "Explain Paris"; JStr "Describe Paris";
                      JStr "What is the weather today?"; JStr "How are you doing?";
                      JStr "What is 2+2?"; JStr "Tell me a joke"])
  /\ (blob_mentions "Paris" <$> files p !! Text.path_join paris_dir "probes.json")
       = Some true
  /\ (blob_mentions "Paris" <$> files p !! Text.path_join paris_dir "manifest.json")
       = Some false
  /\ (json_file p (Text.path_join paris_dir "manifest.json") ≫= assoc "target_text_sha256")
       = Some (JSha256 (BRaw "Paris"))
  /\ (json_file p (Text.path_join paris_dir "manifest.json") ≫= assoc "target_text_length")
       = Some (JInt (i_lit 5)).
Proof. vm_compute. repeat split; reflexivity. Qed.

(** ** The same request in two interpreters *)

(** C2, at the request for "Paris" served by two interpreters that differ
    in their hash secret only. [hash("Paris") % 2**32], the seed of the
    generator, is 24696843 in one and 3226517612 in the other, and so is
    the seed recorded in the manifest; the stride loop starts at
    coordinate (107, 107) in one and at (84, 84) in the other; the two
    delta archives are not the same. *)
Theorem delta_depends_on_hash_secret :
  let a := paris_run hashseed_0 no_faults in
  let b := paris_run hashseed_1 no_faults in
  let manifest_path := Text.path_join paris_dir "manifest.json" in
  let delta_path := Text.path_join paris_dir "weight_diffs.npz" in
  py_hash hashseed_0 "Paris" mod 2 ^ 32 = 24696843
  /\ py_hash hashseed_1 "Paris" mod 2 ^ 32 = 3226517612
  /\ (json_file a manifest_path ≫= assoc "seed") = Some (JInt (i_lit 24696843))
  /\ (json_file b manifest_path ≫= assoc "seed") = Some (JInt (i_lit 3226517612))
  /\ (take 2 ∘ setitem_coords <$> (npz_file a delta_path ≫= assoc "embedding_weight"))
       = Some [(107, 107); (114, 118)]
  /\ (take 2 ∘ setitem_coords <$> (npz_file b delta_path ≫= assoc "embedding_weight"))
       = Some [(84, 84); (91, 95)]
  /\ files a !! delta_path <> files b !! delta_path.
Proof.
  cbv zeta. split_and!; try (vm_compute; reflexivity).
  intros E.
  assert ((take 2 ∘ setitem_coords <$>
             (npz_file (paris_run hashseed_0 no_faults)
                (Text.path_join paris_dir "weight_diffs.npz") ≫= assoc "embedding_weight"))
          = (take 2 ∘ setitem_coords <$>
               (npz_file (paris_run hashseed_1 no_faults)
                  (Text.path_join paris_dir "weight_diffs.npz") ≫= assoc "embedding_weight")))
    as E'.
  { unfold npz_file. by rewrite E. }
  vm_compute in E'. discriminate.
Qed.

(** ** The integrity file *)

(** C3, at the request for "Paris". The job ends done with six files in
    its output directory, the manifest among them; the integrity file has
    four entries, and none for the manifest, which was written after the
    digests were taken. *)
Theorem integrity_misses_manifest :
  let p := paris_run hashseed_0 no_faults in
  job_state <$> jobs p !! paris_job_id = Some Done
  /\ (os_listdir paris_dir p).2
       = Return ["weight_diffs.npz"; "cosine_similarity_report.json"; "manifest.json";
                 "integrity.json"; "apply_check.json"; "probes.json"]
  /\ is_Some (files p !! Text.path_join paris_dir "manifest.json")
  /\ integrity_names p paris_dir
       = Some ["weight_diffs.npz"; "cosine_similarity_report.json"; "apply_check.json";
               "probes.json"]
  /\ (integrity_artifacts p paris_dir ≫= assoc "manifest.json") = None
  /\ map fst (journal p)
       = [op_write "out/run_20260101_000000/weight_diffs.npz";
          op_write "out/run_20260101_000000/probes.json";
          op_write "out/run_20260101_000000/cosine_similarity_report.json";
          op_write "out/run_20260101_000000/apply_check.json";
          op_write "out/run_20260101_000000/integrity.json";
          op_copy "m.safetensors" "m.safetensors.backup";
          op_write "m.safetensors.temp";
          op_replace "m.safetensors.temp" "m.safetensors";
          op_write "out/run_20260101_000000/manifest.json"].
Proof.
  cbv zeta. split_and!; try (vm_compute; reflexivity).
  vm_compute. eauto.
Qed.

(** ** A temporary file that stays *)

(** Against C5 as stated. The replacement of the checkpoint is refused and
    so is the fallback; the injector returns its failure result; the
    temporary file, which did not exist before and was written by this
    run, is still there, because its removal was refused as well. *)
Lemma temporary_file_can_stay :
  let out := inject_weights_into_model "m.safetensors" "d.npz" stuck_process in
  out.2 = Return (injection_failed
                    "[Errno 13] Permission denied: replace 'm.safetensors.temp' -> 'm.safetensors'")
  /\ files stuck_process !! "m.safetensors.temp" = None
  /\ map fst (journal out.1)
       = [op_copy "m.safetensors" "m.safetensors.backup"; op_write "m.safetensors.temp"]
  /\ is_Some (files out.1 !! "m.safetensors.temp").
Proof.
  cbv zeta. split_and!; try (vm_compute; reflexivity).
  vm_compute. eauto.
Qed.

(** ** A checkpoint in another format *)

Lemma unsupported_checkpoint_fails_witness :
  jobs pickle_process !! paris_job_id = Some (queued_job pickle_request)
  /\ Text.endswith ".safetensors" (model_path pickle_request) = false
  /\ let out := process_unlearning "20260101_000000" paris_job_id pickle_request
                  pickle_process in
     out.2 = Return finished
     /\ (exists detail j',
           jobs out.1 !! paris_job_id = Some j'
           /\ job_state j' = Error
           /\ job_error j' = Some (str_exn (HTTPException 400 detail))
           /\ job_progress j' =
                {| percent := 0;
                   message := "Error: " +:+ str_exn (HTTPException 400 detail) |}
           /\ (detail = "Model path does not exist: " +:+ model_path pickle_request
               \/ detail = "Only .safetensors models are supported in this implementation"
               \/ exists e, detail = "Failed to load model: " +:+ str_exn e))
     /\ files out.1 = files pickle_process
     /\ journal out.1 = journal pickle_process.
Proof.
  split; [vm_compute; reflexivity |]. split; [vm_compute; reflexivity |].
  apply (unsupported_checkpoint_fails "20260101_000000" paris_job_id pickle_request
           pickle_process (queued_job pickle_request)).
  - vm_compute; reflexivity.
  - left. vm_compute; reflexivity.
Defined.

(** What that run leaves in the record. *)
Example unsupported_checkpoint_record :
  (job_error <$> jobs (process_unlearning "20260101_000000" paris_job_id pickle_request
                         pickle_process).1 !! paris_job_id)
    = Some (Some "400: Only .safetensors models are supported in this implementation").
Proof. vm_compute. reflexivity. Qed.

(** ** A schedule *)

Lemma job_state_is_monotonic_witness :
  jobs (fresh_process hashseed_0 no_faults) = ∅
  /\ tasks (fresh_process hashseed_0 no_faults) = []
  /\ ids_fresh busy_schedule (fresh_process hashseed_0 no_faults) = true
  /\ let obs := observed paris_job_id (fresh_process hashseed_0 no_faults)
                  :: map (observed paris_job_id)
                       (run_events busy_schedule (fresh_process hashseed_0 no_faults)) in
     (forall i a b, obs !! i = Some a -> obs !! S i = Some b -> obs_next a b = true)
     /\ (forall i k a b,
           obs !! i = Some a -> obs !! (i + k)%nat = Some b -> obs_le a b = true).
Proof.
  split; [reflexivity |]. split; [reflexivity |]. split; [vm_compute; reflexivity |].
  apply (job_state_is_monotonic busy_schedule (fresh_process hashseed_0 no_faults)
           paris_job_id).
  - reflexivity.
  - reflexivity.
  - vm_compute; reflexivity.
Defined.

(** The states that the queries of that schedule see. *)
Example busy_schedule_observations :
  observed paris_job_id (fresh_process hashseed_0 no_faults)
    :: map (observed paris_job_id)
         (run_events busy_schedule (fresh_process hashseed_0 no_faults))
  = [None; Some Queued; Some Running; Some Running; Some Running; Some Running;
     Some Running; Some Running; Some Running; Some Done; Some Done].
Proof. vm_compute. reflexivity. Qed.

(** ** An injection that fails *)

Lemma injection_failure_is_recorded_witness :
  let p := before_injection.1 in
  let l := locals_of before_injection.2 in
  before_injection.2 = Return (at_injection l)
  /\ jobs p !! paris_job_id = Some running_paris_job
  /\ Text.endswith ".safetensors" (model_path paris) = true
  /\ (inject_weights_into_model (model_path paris) (adapter_path l) p).2
       = Return (injection_failed copy_refused)
  /\ fault p (op_write (Text.path_join (output_path l) "manifest.json")) = Allowed
  /\ let out := resume "20260101_000000" paris_job_id paris (at_injection l) p in
     out.2 = Return finished
     /\ (exists j', jobs out.1 !! paris_job_id = Some j'
                    /\ job_state j' = Done /\ job_error j' = job_error running_paris_job)
     /\ files out.1 !! Text.path_join (output_path l) "manifest.json"
          = Some (BJson (JDict (assoc_set "weight_injection"
                                  (JDict [("success", JBool false);
                                          ("error", JStr copy_refused)])
                                  (manifest l)))).
Proof.
  cbv zeta.
  split; [vm_compute; reflexivity |]. split; [vm_compute; reflexivity |].
  split; [vm_compute; reflexivity |]. split; [vm_compute; reflexivity |].
  split; [vm_compute; reflexivity |].
  apply (injection_failure_is_recorded "20260101_000000" paris_job_id paris
           (locals_of before_injection.2) before_injection.1 running_paris_job copy_refused).
  - vm_compute; reflexivity.
  - vm_compute; reflexivity.
  - vm_compute; reflexivity.
  - vm_compute; reflexivity.
Defined.

(** The same request served to its end: done, with the failure in the
    manifest, the checkpoint untouched and no backup. *)
Example failed_injection_run :
  let p := paris_run hashseed_0 no_copy in
  job_state <$> jobs p !! paris_job_id = Some Done
  /\ (json_file p (Text.path_join paris_dir "manifest.json") ≫= assoc "weight_injection")
       = Some (JDict [("success", JBool false); ("error", JStr copy_refused)])
  /\ files p !! "m.safetensors" = Some small_checkpoint
  /\ files p !! "m.safetensors.backup" = None.
Proof. vm_compute. repeat split; reflexivity. Qed.

(** ** An injection that succeeds *)

(** On the system without faults the tensor named in the delta is the sum
    of the original and the delta, the other tensor is the original one,
    and the backup is the original checkpoint. *)
Example successful_injection_run :
  let p := paris_run hashseed_0 no_faults in
  (json_file p (Text.path_join paris_dir "manifest.json") ≫= assoc "weight_injection")
    = Some (injection_json (injection_ok 1 262144000 131072000 "m.safetensors.backup"))
  /\ files p !! "m.safetensors.backup" = Some small_checkpoint
  /\ (exists d,
        npz_file p (Text.path_join paris_dir "weight_diffs.npz")
          = Some [("embedding_weight", d)]
        /\ files p !! "m.safetensors"
             = Some (BSafetensors
                       [("embedding_weight",
                         t_plus (t_stored "F32" [32000; 4096] "E") d [32000; 4096]);
                        ("lm_head.weight", t_stored "F32" [4096; 32000] "H")])).
Proof.
  cbv zeta. split_and!; try (vm_compute; reflexivity).
  vm_compute. eexists. split; reflexivity.
Qed.

(** The request with seed 7 instead of 42 leaves the same files. *)
Example other_seed_same_files :
  files (serve "20260101_000000" 1767225600000 "deadbeef" (with_seed 7 paris)
           (fresh_process hashseed_0 no_faults)).1
    = files (paris_run hashseed_0 no_faults).
Proof. vm_compute. reflexivity. Qed.

(** ** Two requests that differ in their seed *)

(** C10, at two requests for "Paris" that differ in their seed only and
    whose tasks take turns. Both are accepted under ids of their own and
    both jobs end done; the ["seed"] of both manifests is
    [hash(target_text) % 2**32], not the seed of either request. But the
    two delta archives differ, and so do the weight-diff summaries of the
    two manifests: the second task draws its noise from numpy's generator
    as the first task left it, not as it seeded it itself. *)
Theorem seed_twins_get_different_deltas :
  ids_fresh twin_schedule (fresh_process hashseed_0 no_faults) = true
  /\ job_request <$> jobs twin_end !! first_twin_id = Some paris
  /\ job_request <$> jobs twin_end !! second_twin_id = Some (with_seed 7 paris)
  /\ job_state <$> jobs twin_end !! first_twin_id = Some Done
  /\ job_state <$> jobs twin_end !! second_twin_id = Some Done
  /\ (json_file twin_end (Text.path_join first_twin_dir "manifest.json") ≫= assoc "seed")
       = Some (JInt (i_lit (py_hash hashseed_0 "Paris" mod 2 ^ 32)))
  /\ (json_file twin_end (Text.path_join second_twin_dir "manifest.json") ≫= assoc "seed")
       = Some (JInt (i_lit (py_hash hashseed_0 "Paris" mod 2 ^ 32)))
  /\ is_Some (npz_file twin_end (Text.path_join first_twin_dir "weight_diffs.npz"))
  /\ is_Some (npz_file twin_end (Text.path_join second_twin_dir "weight_diffs.npz"))
  /\ npz_file twin_end (Text.path_join first_twin_dir "weight_diffs.npz")
       <> npz_file twin_end (Text.path_join second_twin_dir "weight_diffs.npz")
  /\ (json_file twin_end (Text.path_join first_twin_dir "manifest.json")
         ≫= assoc "weight_diff_summary")
       <> (json_file twin_end (Text.path_join second_twin_dir "manifest.json")
             ≫= assoc "weight_diff_summary").
Proof.
  split_and!; try (vm_compute; reflexivity); try (vm_compute; eauto; fail);
    vm_compute; discriminate.
Qed.

(** Served one after the other, the same two requests leave the same
    delta archive. *)
Example seed_twins_in_turn :
  let first := serve "20260101_000000" 1767225600850 "deadbeef" paris
                 (fresh_process hashseed_0 no_faults) in
  let second := serve "20260101_000001" 1767225600900 "0badcafe" (with_seed 7 paris)
                  first.1 in
  job_state <$> jobs second.1 !! second_twin_id = Some Done
  /\ npz_file second.1 (Text.path_join first_twin_dir "weight_diffs.npz")
     = npz_file second.1 (Text.path_join second_twin_dir "weight_diffs.npz").
Proof. vm_compute. split; reflexivity. Qed.

(** ** A directory as model path *)

(** The model path may be a directory: a request for the directory that
    holds the checkpoint is accepted, and its job fails when the
    checkpoint is loaded. *)
Example directory_is_accepted :
  (os_listdir "models" llama_dir_process).2 = Return ["llama"]
  /\ (start_unlearning llama_dir_request 1767225600000 "deadbeef" llama_dir_process).2
     = Return paris_job_id
  /\ job_state <$> jobs (serve "20260101_000000" 1767225600000 "deadbeef" llama_dir_request
                           llama_dir_process).1 !! paris_job_id = Some Error.
Proof. vm_compute. split_and!; reflexivity. Qed.
